(** * The RedisVL "Vectorizers" user guide, docs/user_guide/vectorizers_04.ipynb

    The notebook is a sequential script: it reads credentials from the process
    environment (or asks for them at the terminal), instantiates the five text
    vectorizers of [redisvl.utils.vectorize], embeds a few sentences with each
    of them, and finally loads the HuggingFace embeddings into a Redis search
    index, queries it and deletes it.

    The development below embeds the code cells as programs of a small
    state-and-exception monad over a [world] (environment variables, terminal
    input, standard output, the Redis store and the trace of calls made),
    together with the outputs the notebook records for its cells.  The
    vectorizer classes, [SearchIndex] and [VectorQuery] are not part of the
    notebook; they are modelled from the specification and marked as such. *)

From Stdlib Require Import ZArith Lia Ascii String.
From stdpp Require Import base strings list gmap pretty.

Local Open Scope string_scope.
Local Open Scope list_scope.

(** ** Python values that the notebook handles *)

(** A Python float, carried by its [repr]: the shortest decimal literal that
    reads back to the same float.  The notebook does no arithmetic on floats;
    it stores, slices, counts and prints them. *)
Record pyfloat := Float { float_repr : string }.

(** A [bytes] object holding a serialised float array, carried by the floats
    it serialises; the byte layout itself is not modelled. *)
Record buffer := Bytes { buffer_floats : list pyfloat }.

(** What [embed_many] returns for one text: a list of floats, or with
    [as_buffer=True] a byte buffer. *)
Definition embedded (as_buffer : bool) : Type :=
  if as_buffer then buffer else list pyfloat.

(** The values stored under the keys of a record handed to [index.load]. *)
Inductive pyvalue :=
  | Str (s : string)
  | FloatList (v : list pyfloat)
  | Buf (b : buffer).

(** A Python [dict] with string keys, in insertion order. *)
Definition pydict (V : Type) : Type := list (string * V).

Definition keys {V} (d : pydict V) : list string := d.*1.

Fixpoint dict_get {V} (d : pydict V) (k : string) : option V :=
  match d with
  | [] => None
  | (k', v) :: d' => if decide (k' = k) then Some v else dict_get d' k
  end.

(** The exceptions that can end a cell. *)
Inductive exn :=
  | EOFError                       (* getpass: no more terminal input *)
  | StdinNotImplementedError       (* getpass: the kernel has no front end to ask *)
  | KeyError (key : string)        (* d[key] on a missing key *)
  | IndexError                     (* l[i] out of range *)
  | FileNotFoundError (path : string)
  | DataError                      (* Redis: a value that a hash cannot store *)
  | ServiceError (message : string). (* raised inside a provider SDK or by Redis *)

(** ** The index schema, schema.yaml

    The markdown cell before the index is built shows the file:
<<
    version: '0.1.0'

    index:
        name: vectorizers
        prefix: doc
        storage_type: hash

    fields:
        - name: sentence
          type: text
        - name: embedding
          type: vector
          attrs:
            dims: 768
            algorithm: flat
            distance_metric: cosine
>> *)

Record field_attrs := {
  dims : nat;
  algorithm : string;
  distance_metric : string
}.

Record field := {
  name : string;
  type : string;
  attrs : option field_attrs
}.

Record index_info := {
  index_name : string;
  prefix : string;
  storage_type : string
}.

Record index_schema := {
  version : string;
  index : index_info;
  fields : list field
}.

Definition schema_yaml : index_schema := {|
  version := "0.1.0";
  index := {| index_name := "vectorizers"; prefix := "doc"; storage_type := "hash" |};
  fields :=
    [ {| name := "sentence"; type := "text"; attrs := None |};
      {| name := "embedding"; type := "vector";
         attrs := Some {| dims := 768; algorithm := "flat"; distance_metric := "cosine" |} |} ]
|}.

Definition field_names (s : index_schema) : list string := name <$> fields s.

(** The attributes of the first field of type [vector]. *)
Definition vector_attrs (s : index_schema) : option field_attrs :=
  head (omap (λ f, if decide (type f = "vector") then attrs f else None) (fields s)).

(** ** The objects of the library *)

(** The five vectorizer classes of [redisvl.utils.vectorize]. *)
Inductive vectorizer_class :=
  | OpenAITextVectorizer
  | AzureOpenAITextVectorizer
  | HFTextVectorizer
  | VertexAITextVectorizer
  | CohereTextVectorizer.

(** A vectorizer object: its class and the keyword arguments it was built
    with ([None] for an argument the call leaves out). *)
Record vectorizer := {
  class : vectorizer_class;
  model : option string;
  api_config : option (pydict string)
}.

(** [VectorQuery(vector=..., vector_field_name=..., return_fields=..., num_results=...)] *)
Record VectorQuery := {
  vector : list pyfloat;
  vector_field_name : string;
  return_fields : list string;
  num_results : nat
}.

(** A [SearchIndex] object, carried by the schema it was built from. *)
Record SearchIndex := { schema : index_schema }.

(** Modelled from the spec: a vector distance.  A non-negative decimal
    number [mantissa / 10 ^ places], the form in which the distances appear
    under cell 26. *)
Record decimal := { mantissa : N; places : nat }.

Definition decimal_leb (a b : decimal) : bool :=
  (mantissa a * 10 ^ N.of_nat (places b) <=? mantissa b * 10 ^ N.of_nat (places a))%N.

Definition decimal_le (a b : decimal) : Prop := decimal_leb a b = true.

(** ** Calls, events and the world *)

(** The calls the notebook makes outside itself, with their arguments. *)
Inductive call :=
  | OsEnvironGet (key : string) (default : option string)
  | OsEnvironSet (key value : string)
  | Getpass (prompt : string)
  | Init (v : vectorizer)
  | Embed (v : vectorizer) (text : string) (input_type : option string)
  | EmbedMany (v : vectorizer) (texts : list string) (as_buffer : bool)
  | AEmbedMany (v : vectorizer) (texts : list string)
  | FromYaml (path : string)
  | Connect (url : string)
  | Create (overwrite : bool)
  | Shell (command : string)
  | Load (data : list (pydict pyvalue))
  | Query (q : VectorQuery)
  | Delete.

(** What a call gave back. *)
Inductive value :=
  | VNone
  | VStr (s : string)
  | VOptStr (s : option string)
  | VVector (v : list pyfloat)
  | VVectors (vs : list (list pyfloat))
  | VBuffers (bs : list buffer)
  | VStrs (l : list string)
  | VDocs (docs : list (pydict string))
  | VObject.

Inductive result :=
  | Returns (v : value)
  | Raises (e : exn).

Record event := Ev { ev_call : call; ev_result : result }.

(** The state the script runs against. *)
Record world := World {
  environ : gmap string string;            (* os.environ *)
  tty : list string;                       (* lines still to be typed at the terminal *)
  stdout : list string;                    (* lines printed so far *)
  indices : list string;                   (* Redis: names of the search indices *)
  hashes : list (string * pydict pyvalue); (* Redis: the stored hashes, by key *)
  trace : list event                       (* the calls made so far, oldest first *)
}.

Definition set_environ (f : gmap string string → gmap string string) (w : world) : world :=
  World (f (environ w)) (tty w) (stdout w) (indices w) (hashes w) (trace w).
Definition set_tty (f : list string → list string) (w : world) : world :=
  World (environ w) (f (tty w)) (stdout w) (indices w) (hashes w) (trace w).
Definition set_stdout (f : list string → list string) (w : world) : world :=
  World (environ w) (tty w) (f (stdout w)) (indices w) (hashes w) (trace w).
Definition set_indices (f : list string → list string) (w : world) : world :=
  World (environ w) (tty w) (stdout w) (f (indices w)) (hashes w) (trace w).
Definition set_hashes
    (f : list (string * pydict pyvalue) → list (string * pydict pyvalue)) (w : world) : world :=
  World (environ w) (tty w) (stdout w) (indices w) (f (hashes w)) (trace w).
Definition record_event (c : call) (r : result) (w : world) : world :=
  World (environ w) (tty w) (stdout w) (indices w) (hashes w) (trace w ++ [Ev c r]).

(** Modelled from the spec: "every substantive operation is delegated to
    external SDKs and to a Redis vector-search client".  What these decide
    and the notebook cannot see into is a parameter of every run: whether a
    call fails, the coordinates a provider gives a text, the length of a
    VertexAI embedding, the identifiers of new keys, the distance between two
    vectors, and the output of a shell command.  [svc_raises] also tells when
    the runtime refuses a [getpass] prompt: a kernel that has no front end to
    ask raises [StdinNotImplementedError]. *)
Record services := {
  svc_raises : call → option exn;
  svc_embedding : vectorizer → string → option string → nat → pyfloat;
  svc_vertex_dims : nat;
  svc_uuid : nat → string;
  svc_distance : string → list pyfloat → list pyfloat → decimal;
  svc_shell : string → list string
}.

(** ** The script monad: state and exceptions *)

Inductive outcome (A : Type) :=
  | Done (a : A) (w : world)
  | Raised (e : exn) (w : world).
Arguments Done {A} a w.
Arguments Raised {A} e w.

Definition script (A : Type) : Type := world → outcome A.

Definition final {A} (o : outcome A) : world :=
  match o with Done _ w => w | Raised _ w => w end.

#[global] Instance script_ret : MRet script := λ A a w, Done a w.

#[global] Instance script_bind : MBind script := λ A B f m w,
  match m w with
  | Done a w' => f a w'
  | Raised e w' => Raised e w'
  end.

Definition raise {A} (e : exn) : script A := λ w, Raised e w.

(** ** Python builtins and the standard library *)

(** [os.environ.get(key)] *)
Definition os_environ_get (key : string) : script (option string) := λ w,
  let v := environ w !! key in
  Done v (record_event (OsEnvironGet key None) (Returns (VOptStr v)) w).

(** [os.environ.get(key, default)] *)
Definition os_environ_get_default (key default_value : string) : script string := λ w,
  let v := default default_value (environ w !! key) in
  Done v (record_event (OsEnvironGet key (Some default_value)) (Returns (VStr v)) w).

(** [os.environ[key] = value] *)
Definition os_environ_setitem (key value : string) : script unit := λ w,
  Done tt (record_event (OsEnvironSet key value) (Returns VNone)
             (set_environ (insert key value) w)).

(** [getpass.getpass(prompt)]: the next line typed at the terminal; [EOFError]
    when there is none.  Where the runtime cannot put the prompt at all, the
    call fails as the runtime says, before anything is read: under a kernel
    with no front end, with [StdinNotImplementedError]. *)
Definition getpass_getpass (svc : services) (prompt : string) : script string := λ w,
  match svc_raises svc (Getpass prompt) with
  | Some e => Raised e (record_event (Getpass prompt) (Raises e) w)
  | None =>
      match tty w with
      | [] => Raised EOFError (record_event (Getpass prompt) (Raises EOFError) w)
      | line :: rest =>
          Done line (record_event (Getpass prompt) (Returns (VStr line))
                       (set_tty (λ _, rest) w))
      end
  end.

(** Python truth of an [Optional[str]]: [None] and the empty string are false. *)
Definition truthy (v : option string) : option string :=
  match v with
  | Some s => if decide (s = "") then None else Some s
  | None => None
  end.

(** [a or b]: [b] is evaluated only when [a] is false. *)
Definition or_else (a : script (option string)) (b : script string) : script string :=
  v ← a; match truthy v with Some s => mret s | None => b end.

(** [print(a, b, ...)]: the [str] of each argument, joined by one space. *)
Definition print (args : list string) : script unit := λ w,
  Done tt (set_stdout (λ out, out ++ [String.concat " " args]) w).

(** [str(n)] for an [int], and [len]. *)
Definition str_int (n : nat) : string := pretty n.
Definition len {A} (l : list A) : nat := length l.

(** [str(l)] for a list of floats. *)
Definition str_floats (l : list pyfloat) : string :=
  "[" +:+ String.concat ", " (float_repr <$> l) +:+ "]".

(** [d[key]] *)
Definition getitem {V} (d : pydict V) (key : string) : script V :=
  match dict_get d key with
  | Some v => mret v
  | None => raise (KeyError key)
  end.

(** [l[i]] *)
Definition item {A} (l : list A) (i : nat) : script A :=
  match l !! i with
  | Some x => mret x
  | None => raise IndexError
  end.

(** [for x in l: body] *)
Fixpoint for_each {A} (l : list A) (body : A → script unit) : script unit :=
  match l with
  | [] => mret tt
  | x :: l' => body x;; for_each l' body
  end.

(** ** Distances: how they print and how they order *)

Definition zeros (n : nat) : string := String.concat "" (replicate n "0").

(** Modelled from the spec: the text of a distance, as under cell 26:
    the digits with a point before the last [places] of them. *)
Definition render (d : decimal) : string :=
  let s := pretty (mantissa d) in
  let s := zeros (S (places d) - String.length s) +:+ s in
  let n := (String.length s - places d)%nat in
  match places d with
  | O => s
  | S _ => String.substring 0 n s +:+ "." +:+ String.substring n (places d) s
  end.

(** Modelled from the spec: "vector-distance ordering from a
    nearest-neighbor query".  Insertion of a scored item into a list sorted
    by score; an item goes after those of equal score. *)
Fixpoint insert_by {A} (score : A → decimal) (x : A) (l : list A) : list A :=
  match l with
  | [] => [x]
  | y :: l' =>
      if decimal_leb (score y) (score x) then y :: insert_by score x l'
      else x :: y :: l'
  end.

(** Modelled from the spec: the items of [l] from the nearest on. *)
Definition sort_by {A} (score : A → decimal) (l : list A) : list A :=
  foldr (insert_by score) [] (reverse l).

(** ** The library, [redisvl] *)

Section Library.

Variable svc : services.

(** Modelled from the spec: a call into the library or the shell.  It fails
    when the service says so or when its own body does; either way the call
    is recorded. *)
Definition invoke {A} (c : call) (show : A → value)
    (body : world → exn + A * world) : script A := λ w,
  match svc_raises svc c with
  | Some e => Raised e (record_event c (Raises e) w)
  | None =>
      match body w with
      | inl e => Raised e (record_event c (Raises e) w)
      | inr (a, w') => Done a (record_event c (Returns (show a)) w')
      end
  end.

(** Modelled from the spec: the vectorizer classes of [redisvl.utils.vectorize]
    are not in the notebook.  "each vector is a fixed-length sequence of
    floating-point numbers (1536 dims for OpenAI/Azure OpenAI, 1024 for Cohere,
    768 for the example HuggingFace model)"; the spec gives no length for
    VertexAI, which is left to the service. *)
Definition embedding_dims (c : vectorizer_class) : nat :=
  match c with
  | OpenAITextVectorizer | AzureOpenAITextVectorizer => 1536
  | CohereTextVectorizer => 1024
  | HFTextVectorizer => 768
  | VertexAITextVectorizer => svc_vertex_dims svc
  end.

(** Modelled from the spec: the embedding of one text, the provider's
    coordinates cut to the provider's dimensionality. *)
Definition embedding (v : vectorizer) (text : string) (input_type : option string)
    : list pyfloat :=
  svc_embedding svc v text input_type <$> seq 0 (embedding_dims (class v)).

(** Modelled from the spec: "passing vectors as byte buffers", what
    [as_buffer=True] asks for. *)
Definition serialise (as_buffer : bool) (v : list pyfloat) : embedded as_buffer :=
  match as_buffer with
  | true => Bytes v
  | false => v
  end.

(** Modelled from the spec: the value [embed_many] is recorded to return. *)
Definition show_embedded (as_buffer : bool) : list (embedded as_buffer) → value :=
  match as_buffer with
  | true => VBuffers
  | false => VVectors
  end.

(** Modelled from the spec: instantiating a provider-specific client object. *)
Definition new (c : vectorizer_class) (model : option string)
    (api_config : option (pydict string)) : script vectorizer :=
  let v := {| class := c; model := model; api_config := api_config |} in
  invoke (Init v) (λ _, VObject) (λ w, inr (v, w)).

(** Modelled from the spec: [v.embed(text, input_type=...)]. *)
Definition embed (v : vectorizer) (text : string) (input_type : option string)
    : script (list pyfloat) :=
  invoke (Embed v text input_type) VVector (λ w, inr (embedding v text input_type, w)).

(** Modelled from the spec: [v.embed_many(texts, as_buffer=...)], one
    embedding per text, in the order of the texts. *)
Definition embed_many (v : vectorizer) (texts : list string) (as_buffer : bool)
    : script (list (embedded as_buffer)) :=
  invoke (EmbedMany v texts as_buffer) (show_embedded as_buffer)
    (λ w, inr ((λ t, serialise as_buffer (embedding v t None)) <$> texts, w)).

(** Modelled from the spec: [await v.aembed_many(texts)], "an asynchronous
    batch call as an alternative to a synchronous batch call"; the script
    awaits it on the spot. *)
Definition aembed_many (v : vectorizer) (texts : list string)
    : script (list (list pyfloat)) :=
  invoke (AEmbedMany v texts) VVectors (λ w, inr ((λ t, embedding v t None) <$> texts, w)).

(** Modelled from the spec: [SearchIndex.from_yaml(path)].  The one schema
    file there is, is the one the notebook shows. *)
Definition SearchIndex_from_yaml (path : string) : script SearchIndex :=
  invoke (FromYaml path) (λ _, VObject)
    (λ w, if decide (path = "./schema.yaml") then inr ({| schema := schema_yaml |}, w)
          else inl (FileNotFoundError path)).

(** Modelled from the spec: [index.connect(url)]. *)
Definition SearchIndex_connect (i : SearchIndex) (url : string) : script unit :=
  invoke (Connect url) (λ _, VNone) (λ w, inr (tt, w)).

(** Modelled from the spec: [index.create(overwrite=...)] registers the index
    under its name; it holds no data yet. *)
Definition SearchIndex_create (i : SearchIndex) (overwrite : bool) : script unit :=
  let n := index_name (index (schema i)) in
  invoke (Create overwrite) (λ _, VNone)
    (λ w, inr (tt, set_indices
                     (λ l, if overwrite then n :: filter (λ m, m ≠ n) l
                           else if decide (n ∈ l) then l else n :: l) w)).

(** Modelled from the spec: the key of the [k]-th hash ever stored, as the
    keys under cell 25 show them: the schema prefix, a colon and a fresh
    identifier. *)
Definition new_key (i : SearchIndex) (k : nat) : string :=
  prefix (index (schema i)) +:+ ":" +:+ svc_uuid svc k.

(** Modelled from the spec: a hash holds text and byte buffers; cell 25
    says "load expects an iterable of dictionaries where the vector is stored
    as a bytes buffer". *)
Definition storable (v : pyvalue) : bool :=
  match v with
  | FloatList _ => false
  | _ => true
  end.

(** Modelled from the spec: [index.load(data)], "vectors serialized as byte
    buffers for hash storage".  Each record is stored as a hash under a new
    key and the keys are returned; a record holding a bare list of floats
    cannot be stored. *)
Definition SearchIndex_load (i : SearchIndex) (data : list (pydict pyvalue))
    : script (list string) :=
  invoke (Load data) VStrs
    (λ w, if forallb (λ r, forallb storable r.*2) data then
            let ks := (λ k, new_key i (length (hashes w) + k)) <$> seq 0 (length data) in
            inr (ks, set_hashes (λ h, h ++ zip ks data) w)
          else inl DataError).

(** Modelled from the spec: the stored vector of a hash, when the hash lies
    under the index prefix. *)
Definition indexed_vector (i : SearchIndex) (field_name : string)
    (h : string * pydict pyvalue) : option (list pyfloat) :=
  if String.prefix (prefix (index (schema i)) +:+ ":") h.1 then
    match dict_get h.2 field_name with
    | Some (Buf b) => Some (buffer_floats b)
    | _ => None
    end
  else None.

(** Modelled from the spec: the distance metric the schema declares. *)
Definition metric (i : SearchIndex) : string :=
  from_option distance_metric "cosine" (vector_attrs (schema i)).

(** Modelled from the spec: the hashes of the index with their distance to
    the query vector. *)
Definition scored (i : SearchIndex) (q : VectorQuery) (hs : list (string * pydict pyvalue))
    : list (decimal * (string * pydict pyvalue)) :=
  omap (λ h, (λ v, (svc_distance svc (metric i) (vector q) v, h))
               <$> indexed_vector i (vector_field_name q) h) hs.

(** Modelled from the spec: a result document, with its key, its distance,
    and the requested fields that the hash holds as text. *)
Definition document (q : VectorQuery) (s : decimal * (string * pydict pyvalue))
    : pydict string :=
  ("id", s.2.1) :: ("vector_distance", render s.1) ::
  omap (λ f, match dict_get s.2.2 f with
             | Some (Str t) => Some (f, t)
             | _ => None
             end) (return_fields q).

(** Modelled from the spec: [index.query(q)] for a [VectorQuery], "queried
    for nearest neighbors by distance metric": the [num_results] nearest
    hashes of the index, nearest first. *)
Definition SearchIndex_query (i : SearchIndex) (q : VectorQuery)
    : script (list (pydict string)) :=
  invoke (Query q) VDocs
    (λ w, if decide (index_name (index (schema i)) ∈ indices w) then
            inr (document q <$> take (num_results q) (sort_by fst (scored i q (hashes w))), w)
          else inl (ServiceError "no such index")).

(** Modelled from the spec: [index.delete()] removes the index and the hashes
    under its prefix. *)
Definition SearchIndex_delete (i : SearchIndex) : script unit :=
  let n := index_name (index (schema i)) in
  invoke Delete (λ _, VNone)
    (λ w, if decide (n ∈ indices w) then
            inr (tt, set_hashes
                       (filter (λ h, ¬ String.prefix (prefix (index (schema i)) +:+ ":") h.1))
                       (set_indices (filter (λ m, m ≠ n)) w))
          else inl (ServiceError "no such index")).

(** Modelled from the spec: "a command-line index-listing utility invoked
    as a shell command".  [!command] runs the command in a shell and its
    output goes to the cell's output. *)
Definition shell (command : string) : script unit :=
  invoke (Shell command) (λ _, VNone)
    (λ w, inr (tt, set_stdout (λ out, out ++ svc_shell svc command) w)).

End Library.

(** ** The code cells

    Cells are numbered by their position in the notebook, markdown cells
    included, from 0.  A cell takes the globals it reads and returns the
    globals it binds for later cells, with the value it displays last. *)

Section Notebook.

Variable svc : services.

(** Cell 1.
<<
    import os
>> *)
Definition cell_01 : script unit := mret tt.

(** Cell 4.
<<
    import getpass
    api_key = os.environ.get("OPENAI_API_KEY") or getpass.getpass("Enter your OpenAI API key: ")
>> *)
Definition cell_04 : script string :=
  api_key ← or_else (os_environ_get "OPENAI_API_KEY")
                    (getpass_getpass svc "Enter your OpenAI API key: ");
  mret api_key.

(** Cell 5.
<<
    from redisvl.utils.vectorize import OpenAITextVectorizer
    oai = OpenAITextVectorizer(
        model="text-embedding-ada-002",
        api_config={"api_key": api_key},
    )
    test = oai.embed("This is a test sentence.")
    print("Vector dimensions: ", len(test))
    test[:10]
>> *)
Definition cell_05 (api_key : string) : script (vectorizer * list pyfloat) :=
  oai ← new svc OpenAITextVectorizer (Some "text-embedding-ada-002")
            (Some [("api_key", api_key)]);
  test ← embed svc oai "This is a test sentence." None;
  print ["Vector dimensions: "; str_int (len test)];;
  mret (oai, take 10 test).

(** The three sentences of cells 6 and 11. *)
Definition three_sentences : list string :=
  [ "That is a happy dog";
    "That is a happy person";
    "Today is a sunny day" ].

(** Cell 6.
<<
    sentences = [
        "That is a happy dog",
        "That is a happy person",
        "Today is a sunny day"
    ]
    embeddings = oai.embed_many(sentences)
    embeddings[0][:10]
>> *)
Definition cell_06 (oai : vectorizer)
    : script (list string * list (list pyfloat) * list pyfloat) :=
  let sentences := three_sentences in
  embeddings ← embed_many svc oai sentences false;
  first ← item embeddings 0;
  mret (sentences, embeddings, take 10 first).

(** Cell 7.
<<
    embeddings = await oai.aembed_many(sentences)
    print("Number of Embeddings:", len(embeddings))
>> *)
Definition cell_07 (oai : vectorizer) (sentences : list string)
    : script (list (list pyfloat)) :=
  embeddings ← aembed_many svc oai sentences;
  print ["Number of Embeddings:"; str_int (len embeddings)];;
  mret embeddings.

(** Cell 9.
<<
    api_key = os.environ.get("AZURE_OPENAI_API_KEY") or getpass.getpass("Enter your AzureOpenAI API key: ")
    api_version = os.environ.get("OPENAI_API_VERSION") or getpass.getpass("Enter your AzureOpenAI API version: ")
    azure_endpoint = os.environ.get("AZURE_OPENAI_ENDPOINT") or getpass.getpass("Enter your AzureOpenAI API endpoint: ")
    deployment_name = os.environ.get("AZURE_OPENAI_DEPLOYMENT_NAME", "text-embedding-ada-002")
>> *)
Definition cell_09 : script (string * string * string * string) :=
  api_key ← or_else (os_environ_get "AZURE_OPENAI_API_KEY")
                    (getpass_getpass svc "Enter your AzureOpenAI API key: ");
  api_version ← or_else (os_environ_get "OPENAI_API_VERSION")
                        (getpass_getpass svc "Enter your AzureOpenAI API version: ");
  azure_endpoint ← or_else (os_environ_get "AZURE_OPENAI_ENDPOINT")
                           (getpass_getpass svc "Enter your AzureOpenAI API endpoint: ");
  deployment_name ← os_environ_get_default "AZURE_OPENAI_DEPLOYMENT_NAME"
                                           "text-embedding-ada-002";
  mret (api_key, api_version, azure_endpoint, deployment_name).

(** Cell 10.
<<
    from redisvl.utils.vectorize import AzureOpenAITextVectorizer
    az_oai = AzureOpenAITextVectorizer(
        model=deployment_name, # Must be your CUSTOM deployment name
        api_config={
            "api_key": api_key,
            "api_version": api_version,
            "azure_endpoint": azure_endpoint
        },
    )
    test = az_oai.embed("This is a test sentence.")
    print("Vector dimensions: ", len(test))
    test[:10]
>> *)
Definition cell_10 (api_key api_version azure_endpoint deployment_name : string)
    : script (vectorizer * list pyfloat) :=
  az_oai ← new svc AzureOpenAITextVectorizer (Some deployment_name)
               (Some [ ("api_key", api_key);
                       ("api_version", api_version);
                       ("azure_endpoint", azure_endpoint) ]);
  test ← embed svc az_oai "This is a test sentence." None;
  print ["Vector dimensions: "; str_int (len test)];;
  mret (az_oai, take 10 test).

(** Cell 11.
<<
    sentences = [
        "That is a happy dog",
        "That is a happy person",
        "Today is a sunny day"
    ]
    embeddings = await az_oai.aembed_many(sentences)
    embeddings[0][:10]
>> *)
Definition cell_11 (az_oai : vectorizer)
    : script (list string * list (list pyfloat) * list pyfloat) :=
  let sentences := three_sentences in
  embeddings ← aembed_many svc az_oai sentences;
  first ← item embeddings 0;
  mret (sentences, embeddings, take 10 first).

(** Cell 13.
<<
    os.environ["TOKENIZERS_PARALLELISM"] = "false"
    from redisvl.utils.vectorize import HFTextVectorizer
    hf = HFTextVectorizer(model="sentence-transformers/all-mpnet-base-v2")
    test = hf.embed("This is a test sentence.")
    test[:10]
>> *)
Definition cell_13 : script (vectorizer * list pyfloat) :=
  os_environ_setitem "TOKENIZERS_PARALLELISM" "false";;
  hf ← new svc HFTextVectorizer (Some "sentence-transformers/all-mpnet-base-v2") None;
  test ← embed svc hf "This is a test sentence." None;
  mret (hf, take 10 test).

(** Cell 14.
<<
    embeddings = hf.embed_many(sentences, as_buffer=True)
>> *)
Definition cell_14 (hf : vectorizer) (sentences : list string) : script (list buffer) :=
  embeddings ← embed_many svc hf sentences true;
  mret embeddings.

(** Cell 16.
<<
    from redisvl.utils.vectorize import VertexAITextVectorizer
    vtx = VertexAITextVectorizer(api_config={
        "project_id": os.environ.get("GCP_PROJECT_ID") or getpass.getpass("Enter your GCP Project ID: "),
        "location": os.environ.get("GCP_LOCATION") or getpass.getpass("Enter your GCP Location: "),
        "google_application_credentials": os.environ.get("GOOGLE_APPLICATION_CREDENTIALS") or getpass.getpass("Enter your Google App Credentials path: ")
    })
    test = vtx.embed("This is a test sentence.")
    test[:10]
>> *)
Definition cell_16 : script (vectorizer * list pyfloat) :=
  project_id ← or_else (os_environ_get "GCP_PROJECT_ID")
                       (getpass_getpass svc "Enter your GCP Project ID: ");
  location ← or_else (os_environ_get "GCP_LOCATION")
                     (getpass_getpass svc "Enter your GCP Location: ");
  google_application_credentials ←
    or_else (os_environ_get "GOOGLE_APPLICATION_CREDENTIALS")
            (getpass_getpass svc "Enter your Google App Credentials path: ");
  vtx ← new svc VertexAITextVectorizer None
            (Some [ ("project_id", project_id);
                    ("location", location);
                    ("google_application_credentials", google_application_credentials) ]);
  test ← embed svc vtx "This is a test sentence." None;
  mret (vtx, take 10 test).

(** Cell 18.
<<
    import getpass
    api_key = os.environ.get("COHERE_API_KEY") or getpass.getpass("Enter your Cohere API key: ")
>> *)
Definition cell_18 : script string :=
  api_key ← or_else (os_environ_get "COHERE_API_KEY")
                    (getpass_getpass svc "Enter your Cohere API key: ");
  mret api_key.

(** Cell 20.
<<
    from redisvl.utils.vectorize import CohereTextVectorizer
    co = CohereTextVectorizer(
        model="embed-english-v3.0",
        api_config={"api_key": api_key},
    )
    test = co.embed("This is a test sentence.", input_type='search_query')
    print("Vector dimensions: ", len(test))
    print(test[:10])
    test = co.embed("This is a test sentence.", input_type='search_document')
    print("Vector dimensions: ", len(test))
    print(test[:10])
>> *)
Definition cell_20 (api_key : string) : script vectorizer :=
  co ← new svc CohereTextVectorizer (Some "embed-english-v3.0")
           (Some [("api_key", api_key)]);
  test ← embed svc co "This is a test sentence." (Some "search_query");
  print ["Vector dimensions: "; str_int (len test)];;
  print [str_floats (take 10 test)];;
  test ← embed svc co "This is a test sentence." (Some "search_document");
  print ["Vector dimensions: "; str_int (len test)];;
  print [str_floats (take 10 test)];;
  mret co.

(** Cell 23.
<<
    from redisvl.index import SearchIndex
    index = SearchIndex.from_yaml("./schema.yaml")
    index.connect("redis://localhost:6379")
    index.create(overwrite=True)
>> *)
Definition cell_23 : script SearchIndex :=
  index ← SearchIndex_from_yaml svc "./schema.yaml";
  SearchIndex_connect svc index "redis://localhost:6379";;
  SearchIndex_create svc index true;;
  mret index.

(** Cell 24.
<<
    !rvl index listall
>> *)
Definition cell_24 : script unit :=
  shell svc "rvl index listall".

(** Cell 25.
<<
    data = [{"text": t,
             "embedding": v}
            for t, v in zip(sentences, embeddings)]
    index.load(data)
>> *)
Definition cell_25 (index : SearchIndex) (sentences : list string)
    (embeddings : list buffer) : script (list (pydict pyvalue) * list string) :=
  let data := (λ '(t, v), [("text", Str t); ("embedding", Buf v)])
                <$> zip sentences embeddings in
  loaded ← SearchIndex_load svc index data;
  mret (data, loaded).

(** Cell 26.
<<
    from redisvl.query import VectorQuery
    query_embedding = hf.embed("That is a happy cat")
    query = VectorQuery(
        vector=query_embedding,
        vector_field_name="embedding",
        return_fields=["text"],
        num_results=3
    )
    results = index.query(query)
    for doc in results:
        print(doc["text"], doc["vector_distance"])
>> *)
Definition cell_26 (hf : vectorizer) (index : SearchIndex)
    : script (VectorQuery * list (pydict string)) :=
  query_embedding ← embed svc hf "That is a happy cat" None;
  let query := {| vector := query_embedding;
                  vector_field_name := "embedding";
                  return_fields := ["text"];
                  num_results := 3 |} in
  results ← SearchIndex_query svc index query;
  for_each results (λ doc,
    text ← getitem doc "text";
    vector_distance ← getitem doc "vector_distance";
    print [text; vector_distance]);;
  mret (query, results).

(** Cell 27.
<<
    index.delete()
>> *)
Definition cell_27 (index : SearchIndex) : script unit :=
  SearchIndex_delete svc index.

(** What the notebook displays under its cells ([Out[n]]), by cell. *)
Record displayed := {
  out_05 : list pyfloat;
  out_06 : list pyfloat;
  out_11 : list pyfloat;
  out_13 : list pyfloat;
  out_16 : list pyfloat;
  out_25 : list string
}.

(** The provider sections, each from its credentials to its last embedding. *)
Definition openai_section : script (list pyfloat * list pyfloat) :=
  api_key ← cell_04;
  '(oai, o5) ← cell_05 api_key;
  '(sentences, embeddings, o6) ← cell_06 oai;
  embeddings ← cell_07 oai sentences;
  mret (o5, o6).

Definition azure_section : script (list string * list pyfloat) :=
  '(api_key, api_version, azure_endpoint, deployment_name) ← cell_09;
  '(az_oai, test) ← cell_10 api_key api_version azure_endpoint deployment_name;
  '(sentences, embeddings, o11) ← cell_11 az_oai;
  mret (sentences, o11).

Definition huggingface_section (sentences : list string)
    : script (vectorizer * list buffer * list pyfloat) :=
  '(hf, o13) ← cell_13;
  embeddings ← cell_14 hf sentences;
  mret (hf, embeddings, o13).

Definition vertexai_section : script (list pyfloat) :=
  '(vtx, o16) ← cell_16;
  mret o16.

Definition cohere_section : script unit :=
  api_key ← cell_18;
  co ← cell_20 api_key;
  mret tt.

(** "Search with Provider Embeddings": cells 23 to 27. *)
Definition index_section (hf : vectorizer) (sentences : list string)
    (embeddings : list buffer) : script (list string) :=
  index ← cell_23;
  cell_24;;
  '(data, o25) ← cell_25 index sentences embeddings;
  '(query, results) ← cell_26 hf index;
  cell_27 index;;
  mret o25.

(** The notebook, run from top to bottom. *)
Definition notebook : script displayed :=
  cell_01;;
  '(o5, o6) ← openai_section;
  '(sentences, o11) ← azure_section;
  '(hf, embeddings, o13) ← huggingface_section sentences;
  o16 ← vertexai_section;
  cohere_section;;
  o25 ← index_section hf sentences embeddings;
  mret {| out_05 := o5; out_06 := o6; out_11 := o11; out_13 := o13;
          out_16 := o16; out_25 := o25 |}.

End Notebook.

(** ** What the notebook records under its cells

    Standard output is kept line by line, without the newline that ends each
    line; the stderr warning under cell 13 is not part of it. *)

Definition recorded_stdout_05 : list string := ["Vector dimensions:  1536"].

Definition recorded_out_05 : list pyfloat :=
  Float <$> [ "-0.001025049015879631"; "-0.0030993607360869646";
              "0.0024536605924367905"; "-0.004484387580305338";
              "-0.010331203229725361"; "0.012700922787189484";
              "-0.005368996877223253"; "-0.0029411641880869865";
              "-0.0070833307690918446"; "-0.03386051580309868" ].

Definition recorded_out_06 : list pyfloat :=
  Float <$> [ "-0.01747742109000683"; "-5.228330701356754e-05";
              "0.0013870716793462634"; "-0.025637786835432053";
              "-0.01985435001552105"; "0.016117358580231667";
              "-0.0037306349258869886"; "0.0008945261361077428";
              "0.006577865686267614"; "-0.025091219693422318" ].

Definition recorded_stdout_07 : list string := ["Number of Embeddings: 3"].

Definition recorded_stdout_10 : list string := ["Vector dimensions:  1536"].

Definition recorded_out_10 : list pyfloat :=
  Float <$> [ "-0.0010088568087667227"; "-0.003142790636047721";
              "0.0024922797456383705"; "-0.004522906616330147";
              "-0.010369433090090752"; "0.012739036232233047";
              "-0.005365503951907158"; "-0.0029668458737432957";
              "-0.007141091860830784"; "-0.03383301943540573" ].

Definition recorded_out_11 : list pyfloat :=
  Float <$> [ "-0.017460526898503304"; "-6.895032856846228e-05";
              "0.0013909287517890334"; "-0.025688467547297478";
              "-0.019813183695077896"; "0.016087085008621216";
              "-0.003729278687387705"; "0.0009211922879330814";
              "0.006606514099985361"; "-0.025128915905952454" ].

Definition recorded_out_13 : list pyfloat :=
  Float <$> [ "0.00037810884532518685"; "-0.05080341175198555";
              "-0.03514723479747772"; "-0.02325104922056198";
              "-0.044158220291137695"; "0.020487844944000244";
              "0.0014617963461205363"; "0.031261757016181946";
              "0.05605152249336243"; "0.018815357238054276" ].

Definition recorded_out_16 : list pyfloat :=
  Float <$> [ "0.04373306408524513"; "-0.05040992051362991";
              "-0.011946038343012333"; "-0.043528858572244644";
              "0.021510830149054527"; "0.028604144230484962";
              "0.014770914800465107"; "-0.01610461436212063";
              "-0.0036560404114425182"; "0.013746795244514942" ].

(** The two vectors that cell 20 prints, first for [search_query], then for
    [search_document]. *)
Definition recorded_search_query : list pyfloat :=
  Float <$> [ "-0.010856628"; "-0.019683838"; "-0.0062179565"; "0.003545761";
              "-0.047943115"; "0.0009365082"; "-0.005924225"; "0.016174316";
              "-0.03289795"; "0.049194336" ].

Definition recorded_search_document : list pyfloat :=
  Float <$> [ "-0.009712219"; "-0.016036987"; "2.8073788e-05"; "-0.022491455";
              "-0.041259766"; "0.002281189"; "-0.033294678"; "-0.00057029724";
              "-0.026260376"; "0.0579834" ].

Definition recorded_stdout_20 : list string :=
  [ "Vector dimensions:  1024";
    "[-0.010856628, -0.019683838, -0.0062179565, 0.003545761, -0.047943115, 0.0009365082, -0.005924225, 0.016174316, -0.03289795, 0.049194336]";
    "Vector dimensions:  1024";
    "[-0.009712219, -0.016036987, 2.8073788e-05, -0.022491455, -0.041259766, 0.002281189, -0.033294678, -0.00057029724, -0.026260376, 0.0579834]" ].

(** The output of [rvl index listall], with its terminal colour codes. *)
Definition esc : string := String "027"%char "".

Definition rvl_log (message : string) : string :=
  esc +:+ "[32m20:22:42" +:+ esc +:+ "[0m " +:+ esc +:+ "[34m[RedisVL]" +:+ esc +:+ "[0m "
      +:+ esc +:+ "[1;30mINFO" +:+ esc +:+ "[0m   " +:+ message.

Definition recorded_stdout_24 : list string :=
  [ rvl_log "Indices:"; rvl_log "1. vectorizers" ].

Definition recorded_out_25 : list string :=
  [ "doc:17c401b679ce43cb82f3ab2280ad02f2";
    "doc:3fc0502bec434b17a3f06e20824b2e59";
    "doc:199f17b0e5d24dcaa1fd4fb41558150c" ].

Definition recorded_stdout_26 : list string :=
  [ "That is a happy dog 0.160862326622";
    "That is a happy person 0.273598492146";
    "Today is a sunny day 0.744559407234" ].

(** Everything the notebook records on standard output, top to bottom. *)
Definition recorded_stdout : list string :=
  recorded_stdout_05 ++ recorded_stdout_07 ++ recorded_stdout_10
    ++ recorded_stdout_20 ++ recorded_stdout_24 ++ recorded_stdout_26.

Definition recorded_displayed : displayed := {|
  out_05 := recorded_out_05;
  out_06 := recorded_out_06;
  out_11 := recorded_out_11;
  out_13 := recorded_out_13;
  out_16 := recorded_out_16;
  out_25 := recorded_out_25
|}.

(** The three distances on the recorded lines of cell 26. *)
Definition recorded_distances : list decimal :=
  [ {| mantissa := 160862326622; places := 12 |};
    {| mantissa := 273598492146; places := 12 |};
    {| mantissa := 744559407234; places := 12 |} ].

(** ** Reading the recorded query output back

    A line of cell 26 is [text], a space, and the distance as Redis wrote it:
    digits with or without a decimal point. *)

Definition digit_value (c : ascii) : option N :=
  let n := N_of_ascii c in
  if decide (48 ≤ n ∧ n ≤ 57)%N then Some (n - 48)%N else None.

(** The digits of [s] read as a number in base ten, after [acc]. *)
Fixpoint read_digits (s : string) (acc : N) : option N :=
  match s with
  | EmptyString => Some acc
  | String c s' => d ← digit_value c; read_digits s' (acc * 10 + d)%N
  end.

(** [s] cut at its first occurrence of [c], when there is one. *)
Fixpoint split_at (c : ascii) (s : string) : option (string * string) :=
  match s with
  | EmptyString => None
  | String c' s' =>
      if decide (c' = c) then Some (EmptyString, s')
      else '(a, b) ← split_at c s'; Some (String c' a, b)
  end.

Definition parse_decimal (s : string) : option decimal :=
  match split_at "." s with
  | Some (whole, frac) =>
      if decide (whole = "" ∨ frac = "") then None
      else m ← read_digits (whole +:+ frac) 0;
           Some {| mantissa := m; places := String.length frac |}
  | None =>
      if decide (s = "") then None
      else m ← read_digits s 0; Some {| mantissa := m; places := 0 |}
  end.

(** The part of a line after its last space. *)
Fixpoint last_word (s : string) : string :=
  match s with
  | EmptyString => EmptyString
  | String c s' =>
      match split_at " " s' with
      | Some _ => last_word s'
      | None => if decide (c = " "%char) then s' else s
      end
  end.

(** The [vector_distance] printed on each line, in order; [None] if a line
    does not end in a decimal number. *)
Definition printed_distances (lines : list string) : option (list decimal) :=
  mapM (λ l, parse_decimal (last_word l)) lines.

(** A list of decimals is in nondecreasing order: each one is at most the
    next. *)
Fixpoint nondecreasing (l : list decimal) : Prop :=
  match l with
  | a :: (b :: _) as l' => decimal_le a b ∧ nondecreasing l'
  | _ => True
  end.

(** ** A world in which the recorded run can be replayed

    The notebook shows ten coordinates of some embeddings and none of
    others.  The services below return the coordinates the notebook shows
    and fill the rest with placeholders; the three loaded sentences get
    distinct placeholder vectors, and the distances and keys are the ones
    the notebook records. *)

Definition shown (v : vectorizer) (text : string) (input_type : option string)
    : list pyfloat :=
  match class v, input_type with
  | OpenAITextVectorizer, _ =>
      if decide (text = "This is a test sentence.") then recorded_out_05
      else if decide (text = "That is a happy dog") then recorded_out_06 else []
  | AzureOpenAITextVectorizer, _ =>
      if decide (text = "This is a test sentence.") then recorded_out_10
      else if decide (text = "That is a happy dog") then recorded_out_11 else []
  | HFTextVectorizer, _ =>
      if decide (text = "This is a test sentence.") then recorded_out_13
      else if decide (text = "That is a happy dog") then [Float "1.0"]
      else if decide (text = "That is a happy person") then [Float "2.0"]
      else if decide (text = "Today is a sunny day") then [Float "3.0"] else []
  | VertexAITextVectorizer, _ => recorded_out_16
  | CohereTextVectorizer, Some "search_query" => recorded_search_query
  | CohereTextVectorizer, _ => recorded_search_document
  end.

Definition recorded_services : services := {|
  svc_raises := λ _, None;
  svc_embedding := λ v text input_type k,
    default (Float "0.0") (shown v text input_type !! k);
  svc_vertex_dims := 768;
  svc_uuid := λ k,
    default "" ([ "17c401b679ce43cb82f3ab2280ad02f2";
                  "3fc0502bec434b17a3f06e20824b2e59";
                  "199f17b0e5d24dcaa1fd4fb41558150c" ] !! k);
  svc_distance := λ _ _ v,
    match head v with
    | Some (Float "1.0") => {| mantissa := 160862326622; places := 12 |}
    | Some (Float "2.0") => {| mantissa := 273598492146; places := 12 |}
    | _ => {| mantissa := 744559407234; places := 12 |}
    end;
  svc_shell := λ _, recorded_stdout_24
|}.

(** A fresh kernel and an empty Redis: nothing printed, nothing stored, no
    call made yet. *)
Definition start (env : gmap string string) (typed : list string) : world :=
  World env typed [] [] [] [].

(** The variables all set, nothing to type. *)
Definition full_environ : gmap string string :=
  list_to_map
    [ ("OPENAI_API_KEY", "sk-openai");
      ("AZURE_OPENAI_API_KEY", "azure-key");
      ("OPENAI_API_VERSION", "2023-05-15");
      ("AZURE_OPENAI_ENDPOINT", "https://example.openai.azure.com");
      ("AZURE_OPENAI_DEPLOYMENT_NAME", "my-deployment");
      ("GCP_PROJECT_ID", "my-project");
      ("GCP_LOCATION", "us-central1");
      ("GOOGLE_APPLICATION_CREDENTIALS", "/home/user/creds.json");
      ("COHERE_API_KEY", "cohere-key") ].

Definition recorded_world : world := start full_environ [].

(** No variable set, and a user who types eight answers. *)
Definition typed_answers : list string :=
  [ "sk-openai"; "azure-key"; "2023-05-15"; "https://example.openai.azure.com";
    "my-project"; "us-central1"; "/home/user/creds.json"; "cohere-key" ].

Definition bare_world : world := start ∅ typed_answers.

(** A world in which Redis refuses connections. *)
Definition redis_down : services := {|
  svc_raises := λ c, match c with
                     | Connect _ => Some (ServiceError "Connection refused")
                     | _ => None
                     end;
  svc_embedding := svc_embedding recorded_services;
  svc_vertex_dims := svc_vertex_dims recorded_services;
  svc_uuid := svc_uuid recorded_services;
  svc_distance := svc_distance recorded_services;
  svc_shell := svc_shell recorded_services
|}.

(** The outcome and the final world of the replayed run, and of the run in
    which every value is typed. *)
Definition recorded_final : world := final (notebook recorded_services recorded_world).

Definition bare_final : world := final (notebook recorded_services bare_world).

(** ** Reading a run *)

(** The events and the lines a computation adds to those of the world it
    starts from. *)
Definition new_events {A} (w : world) (o : outcome A) : list event :=
  drop (length (trace w)) (trace (final o)).

Definition new_lines {A} (w : world) (o : outcome A) : list string :=
  drop (length (stdout w)) (stdout (final o)).

Definition calls (t : list event) : list call := ev_call <$> t.

(** The calls into the library and the shell, as opposed to those into
    [os.environ] and [getpass]. *)
Definition is_library_call (c : call) : bool :=
  match c with
  | OsEnvironGet _ _ | OsEnvironSet _ _ | Getpass _ => false
  | _ => true
  end.

Definition library_calls (l : list call) : list call := filter is_library_call l.

(** The variables looked up, each with the default given to the lookup, and
    the prompts issued, in order. *)
Definition lookups (l : list call) : list (string * option string) :=
  omap (λ c, match c with OsEnvironGet key d => Some (key, d) | _ => None end) l.

Definition prompts (l : list call) : list string :=
  omap (λ c, match c with Getpass prompt => Some prompt | _ => None end) l.

(** The vectorizers a trace shows being instantiated, in order. *)
Definition instantiated (l : list call) : list vectorizer :=
  omap (λ c, match c with Init v => Some v | _ => None end) l.

(** The events of [value = os.environ.get(key) or getpass.getpass(prompt)]
    when it succeeds: the lookup, and the prompt if the lookup gave nothing
    true. *)
Definition lookup_events (env : gmap string string) (key prompt value : string)
    : list event :=
  Ev (OsEnvironGet key None) (Returns (VOptStr (env !! key))) ::
  match truthy (env !! key) with
  | Some _ => []
  | None => [Ev (Getpass prompt) (Returns (VStr value))]
  end.
(** ** The run of the notebook, call by call

    What a run that reaches the end of the notebook leaves in the trace and
    on standard output, written out from the cells.  [notebook_done] below
    proves that every completed run leaves exactly this. *)

Definition returned (c : call) (v : value) : event := Ev c (Returns v).

(** The values the script obtained for the eight variables it reads with
    [os.environ.get(...) or getpass.getpass(...)]. *)
Record credentials := {
  openai_api_key : string;
  azure_api_key : string;
  azure_api_version : string;
  azure_endpoint : string;
  gcp_project_id : string;
  gcp_location : string;
  google_application_credentials : string;
  cohere_api_key : string
}.

(** The eight variables with the prompts that stand behind them. *)
Definition prompted : list (string * string) :=
  [ ("OPENAI_API_KEY", "Enter your OpenAI API key: ");
    ("AZURE_OPENAI_API_KEY", "Enter your AzureOpenAI API key: ");
    ("OPENAI_API_VERSION", "Enter your AzureOpenAI API version: ");
    ("AZURE_OPENAI_ENDPOINT", "Enter your AzureOpenAI API endpoint: ");
    ("GCP_PROJECT_ID", "Enter your GCP Project ID: ");
    ("GCP_LOCATION", "Enter your GCP Location: ");
    ("GOOGLE_APPLICATION_CREDENTIALS", "Enter your Google App Credentials path: ");
    ("COHERE_API_KEY", "Enter your Cohere API key: ") ].

(** The world after a successful [os.environ.get(key) or getpass.getpass(prompt)]
    that left [rest] to be typed. *)
Definition lookup_world (key prompt value : string) (rest : list string) (w : world)
    : world :=
  World (environ w)
        (match truthy (environ w !! key) with Some _ => tty w | None => rest end)
        (stdout w) (indices w) (hashes w)
        (trace w ++ lookup_events (environ w) key prompt value).

Definition test_sentence : string := "This is a test sentence.".

Section Expected.

Variable svc : services.

Definition init_event (v : vectorizer) : event := returned (Init v) VObject.

Definition embed_event (v : vectorizer) (text : string) (input_type : option string)
    : event :=
  returned (Embed v text input_type) (VVector (embedding svc v text input_type)).

Definition embed_many_event (v : vectorizer) (texts : list string) (as_buffer : bool)
    : event :=
  returned (EmbedMany v texts as_buffer)
    (show_embedded as_buffer ((λ t, serialise as_buffer (embedding svc v t None)) <$> texts)).

Definition aembed_many_event (v : vectorizer) (texts : list string) : event :=
  returned (AEmbedMany v texts) (VVectors ((λ t, embedding svc v t None) <$> texts)).

(** The five clients as the cells build them. *)
Definition oai (c : credentials) : vectorizer :=
  {| class := OpenAITextVectorizer;
     model := Some "text-embedding-ada-002";
     api_config := Some [("api_key", openai_api_key c)] |}.

Definition deployment_name (env : gmap string string) : string :=
  default "text-embedding-ada-002" (env !! "AZURE_OPENAI_DEPLOYMENT_NAME").

Definition az_oai (env : gmap string string) (c : credentials) : vectorizer :=
  {| class := AzureOpenAITextVectorizer;
     model := Some (deployment_name env);
     api_config := Some [ ("api_key", azure_api_key c);
                          ("api_version", azure_api_version c);
                          ("azure_endpoint", azure_endpoint c) ] |}.

Definition hf : vectorizer :=
  {| class := HFTextVectorizer;
     model := Some "sentence-transformers/all-mpnet-base-v2";
     api_config := None |}.

Definition vtx (c : credentials) : vectorizer :=
  {| class := VertexAITextVectorizer;
     model := None;
     api_config := Some [ ("project_id", gcp_project_id c);
                          ("location", gcp_location c);
                          ("google_application_credentials",
                           google_application_credentials c) ] |}.

Definition co (c : credentials) : vectorizer :=
  {| class := CohereTextVectorizer;
     model := Some "embed-english-v3.0";
     api_config := Some [("api_key", cohere_api_key c)] |}.

Definition openai_events (env : gmap string string) (c : credentials) : list event :=
  lookup_events env "OPENAI_API_KEY" "Enter your OpenAI API key: " (openai_api_key c)
  ++ [ init_event (oai c);
       embed_event (oai c) test_sentence None;
       embed_many_event (oai c) three_sentences false;
       aembed_many_event (oai c) three_sentences ].

Definition azure_events (env : gmap string string) (c : credentials) : list event :=
  lookup_events env "AZURE_OPENAI_API_KEY" "Enter your AzureOpenAI API key: "
    (azure_api_key c)
  ++ lookup_events env "OPENAI_API_VERSION" "Enter your AzureOpenAI API version: "
       (azure_api_version c)
  ++ lookup_events env "AZURE_OPENAI_ENDPOINT" "Enter your AzureOpenAI API endpoint: "
       (azure_endpoint c)
  ++ [ returned (OsEnvironGet "AZURE_OPENAI_DEPLOYMENT_NAME" (Some "text-embedding-ada-002"))
         (VStr (deployment_name env));
       init_event (az_oai env c);
       embed_event (az_oai env c) test_sentence None;
       aembed_many_event (az_oai env c) three_sentences ].

Definition huggingface_events : list event :=
  [ returned (OsEnvironSet "TOKENIZERS_PARALLELISM" "false") VNone;
    init_event hf;
    embed_event hf test_sentence None;
    embed_many_event hf three_sentences true ].

Definition vertexai_events (env : gmap string string) (c : credentials) : list event :=
  lookup_events env "GCP_PROJECT_ID" "Enter your GCP Project ID: " (gcp_project_id c)
  ++ lookup_events env "GCP_LOCATION" "Enter your GCP Location: " (gcp_location c)
  ++ lookup_events env "GOOGLE_APPLICATION_CREDENTIALS"
       "Enter your Google App Credentials path: " (google_application_credentials c)
  ++ [ init_event (vtx c);
       embed_event (vtx c) test_sentence None ].

Definition cohere_events (env : gmap string string) (c : credentials) : list event :=
  lookup_events env "COHERE_API_KEY" "Enter your Cohere API key: " (cohere_api_key c)
  ++ [ init_event (co c);
       embed_event (co c) test_sentence (Some "search_query");
       embed_event (co c) test_sentence (Some "search_document") ].

(** The index section: what is loaded, under which keys, what is asked and
    what comes back, given the hashes Redis held before. *)
Definition the_index : SearchIndex := {| schema := schema_yaml |}.

Definition loaded_embeddings : list buffer :=
  (λ t, Bytes (embedding svc hf t None)) <$> three_sentences.

Definition loaded_data : list (pydict pyvalue) :=
  (λ '(t, v), [("text", Str t); ("embedding", Buf v)])
    <$> zip three_sentences loaded_embeddings.

Definition loaded_keys (before : list (string * pydict pyvalue)) : list string :=
  (λ k, new_key svc the_index (length before + k)) <$> seq 0 (length loaded_data).

Definition the_query : VectorQuery :=
  {| vector := embedding svc hf "That is a happy cat" None;
     vector_field_name := "embedding";
     return_fields := ["text"];
     num_results := 3 |}.

Definition query_results (before : list (string * pydict pyvalue)) : list (pydict string) :=
  document the_query
    <$> take 3 (sort_by fst (scored svc the_index the_query
                               (before ++ zip (loaded_keys before) loaded_data))).

Definition index_events (before : list (string * pydict pyvalue)) : list event :=
  [ returned (FromYaml "./schema.yaml") VObject;
    returned (Connect "redis://localhost:6379") VNone;
    returned (Create true) VNone;
    returned (Shell "rvl index listall") VNone;
    returned (Load loaded_data) (VStrs (loaded_keys before));
    embed_event hf "That is a happy cat" None;
    returned (Query the_query) (VDocs (query_results before));
    returned Delete VNone ].

(** The line cell 26 prints for a result document. *)
Definition result_line (doc : pydict string) : option string :=
  text ← dict_get doc "text";
  vector_distance ← dict_get doc "vector_distance";
  Some (String.concat " " [text; vector_distance]).

Definition notebook_events (env : gmap string string)
    (before : list (string * pydict pyvalue)) (c : credentials) : list event :=
  openai_events env c ++ azure_events env c ++ huggingface_events
    ++ vertexai_events env c
    ++ cohere_events env c
    ++ index_events before.


Definition cohere_lines (c : credentials) : list string :=
  [ "Vector dimensions:  1024";
    str_floats (take 10 (embedding svc (co c) test_sentence (Some "search_query")));
    "Vector dimensions:  1024";
    str_floats (take 10 (embedding svc (co c) test_sentence (Some "search_document"))) ].

(** Standard output of a completed run; [lines] are those of cell 26. *)
Definition notebook_lines (c : credentials) (lines : list string) : list string :=
  recorded_stdout_05 ++ recorded_stdout_07 ++ recorded_stdout_10 ++ cohere_lines c
    ++ svc_shell svc "rvl index listall" ++ lines.

Definition notebook_displayed (env : gmap string string)
    (before : list (string * pydict pyvalue)) (c : credentials) : displayed :=
  {| out_05 := take 10 (embedding svc (oai c) test_sentence None);
     out_06 := take 10 (embedding svc (oai c) "That is a happy dog" None);
     out_11 := take 10 (embedding svc (az_oai env c) "That is a happy dog" None);
     out_13 := take 10 (embedding svc hf test_sentence None);
     out_16 := take 10 (embedding svc (vtx c) test_sentence None);
     out_25 := loaded_keys before |}.

End Expected.

Definition credential_values (c : credentials) : list string :=
  [ openai_api_key c; azure_api_key c; azure_api_version c; azure_endpoint c;
    gcp_project_id c; gcp_location c; google_application_credentials c;
    cohere_api_key c ].

(** A variable that is set to a non-empty string is used as it is. *)
Definition from_environ (env : gmap string string) (c : credentials) : Prop :=
  Forall2 (λ kp value, ∀ s, truthy (env !! kp.1) = Some s → value = s)
    prompted (credential_values c).



(** The library calls of a completed run, top to bottom. *)
Definition notebook_library_calls (svc : services) (env : gmap string string)
    (c : credentials) : list call :=
  [ Init (oai c);
    Embed (oai c) test_sentence None;
    EmbedMany (oai c) three_sentences false;
    AEmbedMany (oai c) three_sentences;
    Init (az_oai env c);
    Embed (az_oai env c) test_sentence None;
    AEmbedMany (az_oai env c) three_sentences;
    Init hf;
    Embed hf test_sentence None;
    EmbedMany hf three_sentences true;
    Init (vtx c);
    Embed (vtx c) test_sentence None;
    Init (co c);
    Embed (co c) test_sentence (Some "search_query");
    Embed (co c) test_sentence (Some "search_document");
    FromYaml "./schema.yaml";
    Connect "redis://localhost:6379";
    Create true;
    Shell "rvl index listall";
    Load (loaded_data svc);
    Embed hf "That is a happy cat" None;
    Query (the_query svc);
    Delete ].

(** ** Vocabulary for the properties *)

(** The embeddings an event returned, each with the vectorizer that made it. *)
Definition produced (e : event) : list (vectorizer * list pyfloat) :=
  match e with
  | Ev (Embed v _ _) (Returns (VVector x)) => [(v, x)]
  | Ev (EmbedMany v _ _) (Returns (VVectors xs)) => (λ x, (v, x)) <$> xs
  | Ev (EmbedMany v _ _) (Returns (VBuffers bs)) => (λ b, (v, buffer_floats b)) <$> bs
  | Ev (AEmbedMany v _) (Returns (VVectors xs)) => (λ x, (v, x)) <$> xs
  | _ => []
  end.

Definition is_embedding_call (c : call) : bool :=
  match c with
  | Embed _ _ _ | EmbedMany _ _ _ | AEmbedMany _ _ => true
  | _ => false
  end.

(** The vectorizer an embedding call is made on. *)
Definition receiver (c : call) : option vectorizer :=
  match c with
  | Embed v _ _ | EmbedMany v _ _ | AEmbedMany v _ => Some v
  | _ => None
  end.

Definition is_index_operation (c : call) : bool :=
  match c with
  | Create _ | Load _ | Query _ | Delete => true
  | _ => false
  end.

Definition is_shell (c : call) : bool :=
  match c with
  | Shell _ => true
  | _ => false
  end.

Definition is_from_yaml (c : call) : bool :=
  match c with
  | FromYaml _ => true
  | _ => false
  end.

(** A call that asks for byte buffers. *)
Definition asks_for_buffers (c : call) : bool :=
  match c with
  | EmbedMany _ _ as_buffer => as_buffer
  | _ => false
  end.

(** An event that returned byte buffers. *)
Definition returned_buffers (e : event) : bool :=
  match ev_result e with
  | Returns (VBuffers _) => true
  | _ => false
  end.

(** The classes whose [aembed_many], and whose [embed_many], a trace shows
    being called, in order of appearance. *)
Definition aembed_many_classes (l : list call) : list vectorizer_class :=
  omap (λ c, match c with AEmbedMany v _ => Some (class v) | _ => None end) l.

Definition embed_many_classes (l : list call) : list vectorizer_class :=
  omap (λ c, match c with EmbedMany v _ _ => Some (class v) | _ => None end) l.

(** The nine variables the notebook consults, and the eight prompts, each
    with the provider it belongs to. *)
Definition variable_provider : pydict vectorizer_class :=
  [ ("OPENAI_API_KEY", OpenAITextVectorizer);
    ("AZURE_OPENAI_API_KEY", AzureOpenAITextVectorizer);
    ("OPENAI_API_VERSION", AzureOpenAITextVectorizer);
    ("AZURE_OPENAI_ENDPOINT", AzureOpenAITextVectorizer);
    ("AZURE_OPENAI_DEPLOYMENT_NAME", AzureOpenAITextVectorizer);
    ("GCP_PROJECT_ID", VertexAITextVectorizer);
    ("GCP_LOCATION", VertexAITextVectorizer);
    ("GOOGLE_APPLICATION_CREDENTIALS", VertexAITextVectorizer);
    ("COHERE_API_KEY", CohereTextVectorizer) ].

Definition prompt_provider : pydict vectorizer_class :=
  [ ("Enter your OpenAI API key: ", OpenAITextVectorizer);
    ("Enter your AzureOpenAI API key: ", AzureOpenAITextVectorizer);
    ("Enter your AzureOpenAI API version: ", AzureOpenAITextVectorizer);
    ("Enter your AzureOpenAI API endpoint: ", AzureOpenAITextVectorizer);
    ("Enter your GCP Project ID: ", VertexAITextVectorizer);
    ("Enter your GCP Location: ", VertexAITextVectorizer);
    ("Enter your Google App Credentials path: ", VertexAITextVectorizer);
    ("Enter your Cohere API key: ", CohereTextVectorizer) ].

Definition consulted : list string := keys variable_provider.

(** The provider a call obtains a credential for, if it obtains one. *)
Definition credential_for (c : call) : option vectorizer_class :=
  match c with
  | OsEnvironGet key _ => dict_get variable_provider key
  | Getpass prompt => dict_get prompt_provider prompt
  | _ => None
  end.

#[global] Instance vectorizer_class_eq_dec : EqDecision vectorizer_class.
Proof. solve_decision. Defined.

#[global] Instance vectorizer_eq_dec : EqDecision vectorizer.
Proof. solve_decision. Defined.

Definition obtains_credential_for (p : vectorizer_class) (c : call) : bool :=
  bool_decide (credential_for c = Some p).

Definition instantiates (p : vectorizer_class) (c : call) : bool :=
  match c with
  | Init v => bool_decide (class v = p)
  | _ => false
  end.

Definition embeds_with (p : vectorizer_class) (c : call) : bool :=
  match receiver c with
  | Some v => bool_decide (class v = p)
  | None => false
  end.

(** Every call that satisfies [p] comes before every call that satisfies [q]. *)
Definition all_before (p q : call → bool) (l : list call) : Prop :=
  ∀ i j a b, l !! i = Some a → l !! j = Some b → p a = true → q b = true → i < j.

(** The same, decided by one pass: from the first [q] on, no [p]. *)
Fixpoint precede (p q : call → bool) (l : list call) : bool :=
  match l with
  | [] => true
  | c :: l' => if q c then forallb (λ a, negb (p a)) l else precede p q l'
  end.

(** In [t], some lookup of [key] is followed at once by a [getpass] prompt:
    the script fell back to asking for the value. *)
Fixpoint falls_back_to_prompt (key : string) (t : list call) : bool :=
  match t with
  | [] => false
  | c :: t' =>
      match c, t' with
      | OsEnvironGet k _, Getpass _ :: _ =>
          bool_decide (k = key) || falls_back_to_prompt key t'
      | _, _ => falls_back_to_prompt key t'
      end
  end.

Definition event_returned (e : event) : Prop :=
  match ev_result e with
  | Returns _ => True
  | Raises _ => False
  end.

Definition is_load (c : call) : bool :=
  match c with
  | Load _ => true
  | _ => false
  end.

Definition is_query (c : call) : bool :=
  match c with
  | Query _ => true
  | _ => false
  end.

(** The records cell 25 builds from sentences and buffers. *)
Definition records (sentences : list string) (embeddings : list buffer)
    : list (pydict pyvalue) :=
  (λ '(t, v), [("text", Str t); ("embedding", Buf v)]) <$> zip sentences embeddings.

(** An event whose embeddings all have the length of their provider. *)
Definition right_length (svc : services) (e : event) : Prop :=
  ∀ v x, (v, x) ∈ produced e → length x = embedding_dims svc (class v).

Definition vectorizer_classes : list vectorizer_class :=
  [ OpenAITextVectorizer; AzureOpenAITextVectorizer; HFTextVectorizer;
    VertexAITextVectorizer; CohereTextVectorizer ].

(** The prompt that stands behind a variable, when the variable is absent
    or empty. *)
Definition prompt_if_missing (env : gmap string string) (kp : string * string)
    : option string :=
  match truthy (env !! kp.1) with
  | Some _ => None
  | None => Some kp.2
  end.

(** [uncaught m]: whatever the world, every call [m] makes returns, except
    that a call which raises is the last one made and its exception is the
    outcome of [m]. *)
Definition uncaught {A} (m : script A) : Prop :=
  ∀ w, ∃ t, trace (final (m w)) = trace w ++ t ∧
    match m w with
    | Done _ _ => Forall event_returned t
    | Raised e _ =>
        Forall event_returned t ∨
        ∃ t0 c, t = t0 ++ [Ev c (Raises e)] ∧ Forall event_returned t0
    end.

(** ** Vocabulary for the further properties *)

(** The lines a trace shows being read from the terminal, in order. *)
Definition answers (t : list event) : list string :=
  omap (λ e, match e with
             | Ev (Getpass _) (Returns (VStr line)) => Some line
             | _ => None
             end) t.

(** Of the values obtained for the eight variables, those that had to be
    typed: the values of the variables that are absent or empty, in the order
    of the cells. *)
Definition typed_in (env : gmap string string) (c : credentials) : list string :=
  omap (λ '(kp, value), match truthy (env !! kp.1) with
                        | Some _ => None
                        | None => Some value
                        end)
    (zip prompted (credential_values c)).

(** The prompts a run has to answer to reach the end of the notebook. *)
Definition prompts_needed (env : gmap string string) : list string :=
  omap (prompt_if_missing env) prompted.

(** 1 when [key] is absent or empty, so that its value has to be typed. *)
Definition unset (env : gmap string string) (key : string) : nat :=
  match truthy (env !! key) with
  | Some _ => 0
  | None => 1
  end.

(** No call fails for a reason of its own: the library and the shell answer,
    and the runtime refuses no prompt. *)
Definition no_failure (svc : services) : Prop := ∀ c, svc_raises svc c = None.

(** No call into the library or the shell fails; a prompt may still be
    refused. *)
Definition library_answers (svc : services) : Prop :=
  ∀ c, is_library_call c = true → svc_raises svc c = None.

(** The runtime refuses, with [e], one of the prompts that a run from [env]
    has to answer. *)
Definition refused (svc : services) (env : gmap string string) (e : exn) : Prop :=
  ∃ prompt, prompt ∈ prompts_needed env ∧ svc_raises svc (Getpass prompt) = Some e.

(** The indices other than the one of the notebook, and the hashes outside
    the prefix of its schema. *)
Definition other_indices (l : list string) : list string :=
  filter (λ m, m ≠ "vectorizers") l.

Definition other_hashes (hs : list (string * pydict pyvalue))
    : list (string * pydict pyvalue) :=
  filter (λ h, ¬ String.prefix "doc:" h.1) hs.

(** A hash that the query of cell 26 can be printed from: if it lies in the
    index, it holds a text under [text]. *)
Definition has_text (h : string * pydict pyvalue) : bool :=
  match indexed_vector the_index "embedding" h with
  | Some _ => match dict_get h.2 "text" with
              | Some (Str _) => true
              | _ => false
              end
  | None => true
  end.

(** How far a run may move the world: the environment is left as it was or
    gains [TOKENIZERS_PARALLELISM=false]; the lines taken from the terminal
    are the answers that the new events show; the other indices and the
    hashes outside the prefix stay. *)
Definition footprint (w w' : world) : Prop :=
  (environ w' = environ w
   ∨ environ w' = <["TOKENIZERS_PARALLELISM" := "false"]> (environ w)) ∧
  (∃ t, trace w' = trace w ++ t ∧ tty w = answers t ++ tty w') ∧
  other_indices (indices w') = other_indices (indices w) ∧
  other_hashes (hashes w') = other_hashes (hashes w).

(** [keeps I Q m]: whatever the world and however [m] ends, the world it
    leaves is related to the one it started from by [I]; a value it returns
    satisfies [Q]. *)
Definition keeps {A} (I : relation world) (Q : A → Prop) (m : script A) : Prop :=
  ∀ w, I w (final (m w)) ∧ ∀ a w', m w = Done a w' → Q a.

(** [ends m w Q E]: run from [w], [m] returns a value and a world that
    satisfy [Q], or raises an exception that, with the world left, satisfies
    [E]. *)
Definition ends {A} (m : script A) (w : world)
    (Q : A → world → Prop) (E : exn → world → Prop) : Prop :=
  match m w with
  | Done a w' => Q a w'
  | Raised e w' => E e w'
  end.

(** Every variable set to the empty string, and a user who types. *)
Definition empty_environ : gmap string string :=
  list_to_map ((λ key, (key, "")) <$> consulted).

Definition empty_world : world := start empty_environ typed_answers.

(** No variable set and nobody at the terminal. *)
Definition unattended_world : world := start ∅ [].

(** [advances n w w']: from [w] to [w'], [n] lines were taken from the
    terminal, and the environment and Redis are as they were. *)
Definition advances (n : nat) (w w' : world) : Prop :=
  environ w' = environ w ∧ indices w' = indices w ∧ hashes w' = hashes w ∧
  length (tty w) = n + length (tty w').

(** The exception of a run that had [n] prompts to answer: it found fewer
    lines, or one of its prompts was refused. *)
Definition starved (svc : services) (n : nat) (w : world) (e : exn) (w' : world) : Prop :=
  (e = EOFError ∧ length (tty w) < n) ∨ refused svc (environ w) e.

(** A result document that cell 26 can print. *)
Definition printable (doc : pydict string) : Prop :=
  is_Some (dict_get doc "text") ∧ is_Some (dict_get doc "vector_distance").

(** A Redis that is shared with others: it holds an index and a hash of
    another application, and an index and a hash left under the names the
    notebook uses. *)
Definition shared_redis : world :=
  World full_environ [] []
    [ "vectorizers"; "products" ]
    [ ("doc:left-over", [("text", Str "An old sentence"); ("embedding", Buf (Bytes []))]);
      ("user:1", [("name", Str "Ann")]) ]
    [].

(** A Redis in which the index already holds a hash without text. *)
Definition stale_redis : world :=
  World full_environ [] [] [] [("doc:stale", [("embedding", Buf (Bytes []))])] [].

(** An event in which a call that changes Redis returned. *)
Definition writes (e : event) : bool :=
  match e with
  | Ev (Create _) (Returns _) | Ev (Load _) (Returns _) | Ev Delete (Returns _) => true
  | _ => false
  end.

(** [building w w']: from [w] to [w'] Redis has only gained.  [index.delete]
    has not returned; if no [create], [load] or [delete] returned, Redis is
    as it was; the index is there if it was or if [create] returned; the
    hashes that were there and those that [load] stored are there. *)
Definition building (w w' : world) : Prop :=
  ∃ t, trace w' = trace w ++ t ∧
    Forall (λ e, e ≠ Ev Delete (Returns VNone)) t ∧
    (Forall (λ e, writes e = false) t → indices w' = indices w ∧ hashes w' = hashes w) ∧
    ("vectorizers" ∈ indices w → "vectorizers" ∈ indices w') ∧
    (Ev (Create true) (Returns VNone) ∈ t → "vectorizers" ∈ indices w') ∧
    hashes w ⊆ hashes w' ∧
    (∀ data ks, Ev (Load data) (Returns (VStrs ks)) ∈ t → zip ks data ⊆ hashes w').

(** [unfinished m]: a run of [m] reaches the end, or else it has only built. *)
Definition unfinished {A} (m : script A) : Prop :=
  ∀ w, (∃ a w', m w = Done a w') ∨ building w (final (m w)).

(** Services that answer every call, with the same coordinate and the same
    distance everywhere; VertexAI vectors have eight coordinates. *)
Definition plain_services : services := {|
  svc_raises := λ _, None;
  svc_embedding := λ _ _ _ _, Float "0.0";
  svc_vertex_dims := 8;
  svc_uuid := λ k, pretty k;
  svc_distance := λ _ _ _, {| mantissa := 0; places := 0 |};
  svc_shell := λ _, []
|}.

(** The same, with a Redis that fails when it is queried. *)
Definition query_fails : services := {|
  svc_raises := λ c, match c with
                     | Query _ => Some (ServiceError "Connection reset")
                     | _ => None
                     end;
  svc_embedding := svc_embedding plain_services;
  svc_vertex_dims := svc_vertex_dims plain_services;
  svc_uuid := svc_uuid plain_services;
  svc_distance := svc_distance plain_services;
  svc_shell := svc_shell plain_services
|}.

(** A kernel with no front end to ask: the library answers as before, and
    every prompt is refused. *)
Definition no_front_end : services := {|
  svc_raises := λ c, match c with
                     | Getpass _ => Some StdinNotImplementedError
                     | _ => None
                     end;
  svc_embedding := svc_embedding plain_services;
  svc_vertex_dims := svc_vertex_dims plain_services;
  svc_uuid := svc_uuid plain_services;
  svc_distance := svc_distance plain_services;
  svc_shell := svc_shell plain_services
|}.

(** * Completed runs, statement by statement *)

Lemma bind_done {A B} (m : script A) (f : A → script B) w b w' :
  (m ≫= f) w = Done b w' → ∃ a w1, m w = Done a w1 ∧ f a w1 = Done b w'.
Proof.
  unfold mbind, script_bind. destruct (m w) as [a w1|e w1]; [eauto|discriminate].
Qed.

Lemma ret_done {A} (a b : A) w w' :
  (mret a : script A) w = Done b w' → b = a ∧ w' = w.
Proof. intros [= -> ->]. done. Qed.

Lemma print_done args w u w' :
  print args w = Done u w' → w' = set_stdout (λ out, out ++ [String.concat " " args]) w.
Proof. intros [= <-]. done. Qed.

Lemma item_done {A} (l : list A) i w x w' :
  item l i w = Done x w' → l !! i = Some x ∧ w' = w.
Proof. unfold item. destruct (l !! i); [intros [= -> ->]; done | discriminate]. Qed.

Lemma lookup_done svc key prompt w value w' :
  or_else (os_environ_get key) (getpass_getpass svc prompt) w = Done value w' →
  (∀ s, truthy (environ w !! key) = Some s → value = s) ∧
  ∃ rest, w' = lookup_world key prompt value rest w.
Proof.
  unfold or_else, os_environ_get, lookup_world, lookup_events.
  intros (v & w1 & [= <- <-] & H)%bind_done. cbn in H |- *.
  destruct (truthy (environ w !! key)) as [s|] eqn:E.
  - apply ret_done in H as [-> ->]. split; [by intros ? [= ->]|]. by exists [].
  - split; [done|]. unfold getpass_getpass in H. cbn in H.
    destruct (svc_raises svc (Getpass prompt)); [discriminate|].
    destruct (tty w) as [|line rest]; [discriminate|].
    injection H as <- <-. exists rest. unfold record_event, set_tty. cbn.
    by rewrite <- app_assoc.
Qed.

Lemma environ_default_done key d w v w' :
  os_environ_get_default key d w = Done v w' →
  v = default d (environ w !! key) ∧
  w' = record_event (OsEnvironGet key (Some d)) (Returns (VStr v)) w.
Proof. intros [= <- <-]. done. Qed.

Lemma environ_setitem_done key v w u w' :
  os_environ_setitem key v w = Done u w' →
  w' = record_event (OsEnvironSet key v) (Returns VNone) (set_environ (insert key v) w).
Proof. intros [= <-]. done. Qed.

Section Inversion.

Variable svc : services.

Lemma invoke_done {A} c show (body : world → exn + A * world) w a w' :
  invoke svc c show body w = Done a w' →
  svc_raises svc c = None ∧
  ∃ w0, body w = inr (a, w0) ∧ w' = record_event c (Returns (show a)) w0.
Proof.
  unfold invoke. destruct (svc_raises svc c); [discriminate|].
  destruct (body w) as [e|[a0 w0]]; [discriminate|]. intros [= -> <-]. eauto.
Qed.

Lemma new_done c m a w v w' :
  new svc c m a w = Done v w' →
  v = {| class := c; model := m; api_config := a |} ∧
  w' = record_event (Init v) (Returns VObject) w.
Proof. intros (_ & w0 & [= <- <-] & ->)%invoke_done. done. Qed.

Lemma embed_done v text it w x w' :
  embed svc v text it w = Done x w' →
  x = embedding svc v text it ∧ w' = record_event (Embed v text it) (Returns (VVector x)) w.
Proof. intros (_ & w0 & [= <- <-] & ->)%invoke_done. done. Qed.

Lemma embed_many_done v texts b w x w' :
  embed_many svc v texts b w = Done x w' →
  x = (λ t, serialise b (embedding svc v t None)) <$> texts ∧
  w' = record_event (EmbedMany v texts b) (Returns (show_embedded b x)) w.
Proof. intros (_ & w0 & [= <- <-] & ->)%invoke_done. done. Qed.

Lemma aembed_many_done v texts w x w' :
  aembed_many svc v texts w = Done x w' →
  x = (λ t, embedding svc v t None) <$> texts ∧
  w' = record_event (AEmbedMany v texts) (Returns (VVectors x)) w.
Proof. intros (_ & w0 & [= <- <-] & ->)%invoke_done. done. Qed.

Lemma from_yaml_done w i w' :
  SearchIndex_from_yaml svc "./schema.yaml" w = Done i w' →
  i = the_index ∧ w' = record_event (FromYaml "./schema.yaml") (Returns VObject) w.
Proof. intros (_ & w0 & [= <- <-] & ->)%invoke_done. done. Qed.

Lemma connect_done i url w u w' :
  SearchIndex_connect svc i url w = Done u w' →
  w' = record_event (Connect url) (Returns VNone) w.
Proof. intros (_ & w0 & [= <- <-] & ->)%invoke_done. done. Qed.

Lemma create_true_done i w u w' :
  SearchIndex_create svc i true w = Done u w' →
  w' = record_event (Create true) (Returns VNone)
         (set_indices (λ l, index_name (index (schema i))
                              :: filter (λ m, m ≠ index_name (index (schema i))) l) w).
Proof. intros (_ & w0 & [= <- <-] & ->)%invoke_done. done. Qed.

Lemma shell_done cmd w u w' :
  shell svc cmd w = Done u w' →
  w' = record_event (Shell cmd) (Returns VNone)
         (set_stdout (λ out, out ++ svc_shell svc cmd) w).
Proof. intros (_ & w0 & [= <- <-] & ->)%invoke_done. done. Qed.

Lemma load_done i data w ks w' :
  SearchIndex_load svc i data w = Done ks w' →
  ks = (λ k, new_key svc i (length (hashes w) + k)) <$> seq 0 (length data) ∧
  w' = record_event (Load data) (Returns (VStrs ks))
         (set_hashes (λ h, h ++ zip ks data) w).
Proof.
  intros (_ & w0 & H & ->)%invoke_done.
  case_match; [|discriminate]. injection H as <- <-. done.
Qed.

Lemma query_done i q w docs w' :
  SearchIndex_query svc i q w = Done docs w' →
  index_name (index (schema i)) ∈ indices w ∧
  docs = document q <$> take (num_results q) (sort_by fst (scored svc i q (hashes w))) ∧
  w' = record_event (Query q) (Returns (VDocs docs)) w.
Proof.
  intros (_ & w0 & H & ->)%invoke_done.
  case_decide; [|discriminate]. injection H as <- <-. done.
Qed.

Lemma delete_done i w u w' :
  SearchIndex_delete svc i w = Done u w' →
  w' = record_event Delete (Returns VNone)
         (set_hashes (filter (λ h, ¬ String.prefix (prefix (index (schema i)) +:+ ":") h.1))
            (set_indices (filter (λ m, m ≠ index_name (index (schema i)))) w)).
Proof.
  intros (_ & w0 & H & ->)%invoke_done.
  case_decide; [|discriminate]. injection H as <- <-. done.
Qed.

Lemma print_results_done (docs : list (pydict string)) w u w' :
  for_each docs (λ doc,
    text ← getitem doc "text";
    vector_distance ← getitem doc "vector_distance";
    print [text; vector_distance]) w = Done u w' →
  ∃ lines, mapM result_line docs = Some lines ∧ w' = set_stdout (λ out, out ++ lines) w.
Proof.
  revert w. induction docs as [|doc docs IH]; intros w H.
  - apply ret_done in H as [_ ->]. exists []. split; [done|].
    destruct w; unfold set_stdout; cbn. by rewrite app_nil_r.
  - cbn [for_each] in H. apply bind_done in H as (? & w1 & H1 & H).
    apply bind_done in H1 as (text & w2 & Ht & H1).
    apply bind_done in H1 as (d & w3 & Hd & H1).
    unfold getitem in Ht, Hd.
    destruct (dict_get doc "text") as [t|] eqn:Et; [|discriminate].
    destruct (dict_get doc "vector_distance") as [vd|] eqn:Ed; [|discriminate].
    apply ret_done in Ht as [-> ->]. apply ret_done in Hd as [-> ->].
    apply print_done in H1 as ->.
    apply IH in H as (lines & Hl & ->).
    exists (String.concat " " [t; vd] :: lines). split.
    + assert (result_line doc = Some (String.concat " " [t; vd])) as Hr
        by (unfold result_line; rewrite Et, Ed; done).
      change (mapM result_line (doc :: docs)) with
        (y ← result_line doc; k ← mapM result_line docs; mret (y :: k)).
      rewrite Hr, Hl. done.
    + destruct w; unfold set_stdout; cbn. by rewrite <- app_assoc.
Qed.

Lemma embedding_length v text it :
  length (embedding svc v text it) = embedding_dims svc (class v).
Proof. unfold embedding. by rewrite length_fmap, length_seq. Qed.

End Inversion.

(** Taking a completed run apart, one statement at a time. *)
Ltac run_step :=
  match goal with
  | H : (_ ≫= _) _ = Done _ _ |- _ =>
      let a := fresh "a" in let w := fresh "w" in let H1 := fresh "H" in
      apply bind_done in H as (a & w & H1 & H)
  | H : (let '(_, _) := ?p in _) _ = Done _ _ |- _ => destruct p
  | H : mret _ _ = Done _ _ |- _ => apply ret_done in H as [? ?]; simplify_eq
  | H : or_else (os_environ_get _) (getpass_getpass _ _) _ = Done _ _ |- _ =>
      let rest := fresh "rest" in
      let Hk := fresh "Hk" in
      apply lookup_done in H as (Hk & rest & ->)
  | H : os_environ_get_default _ _ _ = Done _ _ |- _ =>
      apply environ_default_done in H as [-> ->]
  | H : os_environ_setitem _ _ _ = Done _ _ |- _ =>
      apply environ_setitem_done in H as ->
  | H : print _ _ = Done _ _ |- _ => apply print_done in H as ->
  | H : item _ _ _ = Done _ _ |- _ => apply item_done in H as [? ->]
  | H : new _ _ _ _ _ = Done _ _ |- _ => apply new_done in H as [-> ->]
  | H : embed _ _ _ _ _ = Done _ _ |- _ => apply embed_done in H as [-> ->]
  | H : embed_many ?s ?v ?t ?b ?w = Done ?x ?w' |- _ =>
      apply (embed_many_done s v t b w x w') in H as [-> ->]
  | H : aembed_many _ _ _ _ = Done _ _ |- _ => apply aembed_many_done in H as [-> ->]
  | H : SearchIndex_from_yaml _ _ _ = Done _ _ |- _ => apply from_yaml_done in H as [-> ->]
  | H : SearchIndex_connect _ _ _ _ = Done _ _ |- _ => apply connect_done in H as ->
  | H : SearchIndex_create _ _ _ _ = Done _ _ |- _ => apply create_true_done in H as ->
  | H : shell _ _ _ = Done _ _ |- _ => apply shell_done in H as ->
  | H : SearchIndex_load _ _ _ _ = Done _ _ |- _ => apply load_done in H as [-> ->]
  | H : SearchIndex_query _ _ _ _ = Done _ _ |- _ => apply query_done in H as (? & -> & ->)
  | H : SearchIndex_delete _ _ _ = Done _ _ |- _ => apply delete_done in H as ->
  end.

Arguments embedding : simpl never.

Section Completed.
Variable svc : services.

Lemma dimensions_line v text it :
  String.concat " " ["Vector dimensions: "; str_int (len (embedding svc v text it))]
  = "Vector dimensions:  " +:+ pretty (embedding_dims svc (class v)).
Proof. unfold len. by rewrite embedding_length. Qed.

Ltac run_done :=
  repeat run_step;
  repeat match goal with
         | H : (_ <$> three_sentences) !! 0 = Some _ |- _ => injection H as <-
         end;
  cbn [environ stdout indices hashes trace record_event set_stdout set_environ
       set_indices set_hashes lookup_world];
  rewrite ?dimensions_line.

Lemma openai_section_done w o w' :
  openai_section svc w = Done o w' →
  ∃ k, (∀ s, truthy (environ w !! "OPENAI_API_KEY") = Some s → k = s) ∧
    let v := {| class := OpenAITextVectorizer; model := Some "text-embedding-ada-002";
                api_config := Some [("api_key", k)] |} in
    o = (take 10 (embedding svc v test_sentence None),
         take 10 (embedding svc v "That is a happy dog" None)) ∧
    environ w' = environ w ∧ indices w' = indices w ∧ hashes w' = hashes w ∧
    stdout w' = stdout w ++ recorded_stdout_05 ++ recorded_stdout_07 ∧
    trace w' = trace w
      ++ lookup_events (environ w) "OPENAI_API_KEY" "Enter your OpenAI API key: " k
      ++ [ init_event v; embed_event svc v test_sentence None;
           embed_many_event svc v three_sentences false;
           aembed_many_event svc v three_sentences ].
Proof.
  intros H. unfold openai_section, cell_04, cell_05, cell_06, cell_07 in H.
  run_done. eexists. split; [eassumption|]. cbn zeta.
  repeat split; try done.
  - by rewrite <- !app_assoc.
  - by rewrite <- !app_assoc.
Qed.

Lemma azure_section_done w o w' :
  azure_section svc w = Done o w' →
  ∃ k ver ep,
    (∀ s, truthy (environ w !! "AZURE_OPENAI_API_KEY") = Some s → k = s) ∧
    (∀ s, truthy (environ w !! "OPENAI_API_VERSION") = Some s → ver = s) ∧
    (∀ s, truthy (environ w !! "AZURE_OPENAI_ENDPOINT") = Some s → ep = s) ∧
    let v := {| class := AzureOpenAITextVectorizer;
                model := Some (deployment_name (environ w));
                api_config := Some [ ("api_key", k); ("api_version", ver);
                                     ("azure_endpoint", ep) ] |} in
    o = (three_sentences, take 10 (embedding svc v "That is a happy dog" None)) ∧
    environ w' = environ w ∧ indices w' = indices w ∧ hashes w' = hashes w ∧
    stdout w' = stdout w ++ recorded_stdout_10 ∧
    trace w' = trace w
      ++ lookup_events (environ w) "AZURE_OPENAI_API_KEY"
           "Enter your AzureOpenAI API key: " k
      ++ lookup_events (environ w) "OPENAI_API_VERSION"
           "Enter your AzureOpenAI API version: " ver
      ++ lookup_events (environ w) "AZURE_OPENAI_ENDPOINT"
           "Enter your AzureOpenAI API endpoint: " ep
      ++ [ returned (OsEnvironGet "AZURE_OPENAI_DEPLOYMENT_NAME"
                       (Some "text-embedding-ada-002"))
             (VStr (deployment_name (environ w)));
           init_event v; embed_event svc v test_sentence None;
           aembed_many_event svc v three_sentences ].
Proof.
  intros H. unfold azure_section, cell_09, cell_10, cell_11 in H.
  run_done. do 3 eexists. do 3 (split; [eassumption|]). cbn zeta.
  repeat split; try done.
  by rewrite <- !app_assoc.
Qed.

Lemma huggingface_section_done w o w' :
  huggingface_section svc three_sentences w = Done o w' →
  o = (hf, loaded_embeddings svc, take 10 (embedding svc hf test_sentence None)) ∧
  environ w' = <["TOKENIZERS_PARALLELISM" := "false"]> (environ w) ∧
  indices w' = indices w ∧ hashes w' = hashes w ∧ stdout w' = stdout w ∧
  trace w' = trace w ++ huggingface_events svc.
Proof.
  intros H. unfold huggingface_section, cell_13, cell_14 in H.
  run_done. repeat split; try done.
  by rewrite <- !app_assoc.
Qed.

Lemma vertexai_section_done w o w' :
  vertexai_section svc w = Done o w' →
  ∃ p l g,
    (∀ s, truthy (environ w !! "GCP_PROJECT_ID") = Some s → p = s) ∧
    (∀ s, truthy (environ w !! "GCP_LOCATION") = Some s → l = s) ∧
    (∀ s, truthy (environ w !! "GOOGLE_APPLICATION_CREDENTIALS") = Some s → g = s) ∧
    let v := {| class := VertexAITextVectorizer; model := None;
                api_config := Some [ ("project_id", p); ("location", l);
                                     ("google_application_credentials", g) ] |} in
    o = take 10 (embedding svc v test_sentence None) ∧
    environ w' = environ w ∧ indices w' = indices w ∧ hashes w' = hashes w ∧
    stdout w' = stdout w ∧
    trace w' = trace w
      ++ lookup_events (environ w) "GCP_PROJECT_ID" "Enter your GCP Project ID: " p
      ++ lookup_events (environ w) "GCP_LOCATION" "Enter your GCP Location: " l
      ++ lookup_events (environ w) "GOOGLE_APPLICATION_CREDENTIALS"
           "Enter your Google App Credentials path: " g
      ++ [ init_event v; embed_event svc v test_sentence None ].
Proof.
  intros H. unfold vertexai_section, cell_16 in H.
  run_done. do 3 eexists. do 3 (split; [eassumption|]). cbn zeta.
  repeat split; try done.
  by rewrite <- !app_assoc.
Qed.

Lemma cohere_section_done w o w' :
  cohere_section svc w = Done o w' →
  ∃ k, (∀ s, truthy (environ w !! "COHERE_API_KEY") = Some s → k = s) ∧
    let v := {| class := CohereTextVectorizer; model := Some "embed-english-v3.0";
                api_config := Some [("api_key", k)] |} in
    environ w' = environ w ∧ indices w' = indices w ∧ hashes w' = hashes w ∧
    stdout w' = stdout w
      ++ [ "Vector dimensions:  1024";
           str_floats (take 10 (embedding svc v test_sentence (Some "search_query")));
           "Vector dimensions:  1024";
           str_floats (take 10 (embedding svc v test_sentence (Some "search_document"))) ] ∧
    trace w' = trace w
      ++ lookup_events (environ w) "COHERE_API_KEY" "Enter your Cohere API key: " k
      ++ [ init_event v; embed_event svc v test_sentence (Some "search_query");
           embed_event svc v test_sentence (Some "search_document") ].
Proof.
  intros H. unfold cohere_section, cell_18, cell_20 in H.
  run_done. eexists. split; [eassumption|]. cbn zeta.
  repeat split; try done.
  - by rewrite <- !app_assoc.
  - by rewrite <- !app_assoc.
Qed.

Lemma index_section_done w o w' :
  index_section svc hf three_sentences (loaded_embeddings svc) w = Done o w' →
  ∃ lines,
    mapM result_line (query_results svc (hashes w)) = Some lines ∧
    o = loaded_keys svc (hashes w) ∧
    stdout w' = stdout w ++ svc_shell svc "rvl index listall" ++ lines ∧
    trace w' = trace w ++ index_events svc (hashes w).
Proof.
  intros H. unfold index_section, cell_23, cell_24, cell_25, cell_26, cell_27 in H.
  repeat run_step.
  match goal with
  | H : for_each _ _ _ = Done _ _ |- _ =>
      apply print_results_done in H as (lines & Hl & ->)
  end.
  repeat run_step.
  cbn [environ stdout indices hashes trace record_event set_stdout set_environ
       set_indices set_hashes lookup_world] in *.
  exists lines. repeat split; try done.
  - by rewrite <- !app_assoc.
  - by rewrite <- !app_assoc.
Qed.

Lemma lookup_events_insert env key prompt value k v :
  k ≠ key → lookup_events (<[k := v]> env) key prompt value = lookup_events env key prompt value.
Proof. intros ?. unfold lookup_events. by rewrite lookup_insert_ne. Qed.

(** A run that reaches the end of the notebook leaves exactly the events,
    the lines and the displayed values written out above. *)
Lemma notebook_done w d w' :
  notebook svc w = Done d w' →
  ∃ c lines,
    from_environ (environ w) c ∧
    mapM result_line (query_results svc (hashes w)) = Some lines ∧
    d = notebook_displayed svc (environ w) (hashes w) c ∧
    stdout w' = stdout w ++ notebook_lines svc c lines ∧
    trace w' = trace w ++ notebook_events svc (environ w) (hashes w) c.
Proof.
  intros H. unfold notebook, cell_01 in H. repeat run_step.
  match goal with H : openai_section _ _ = _ |- _ =>
    apply openai_section_done in H as (k1 & Hk1 & [= -> ->] & E1 & I1 & H1 & O1 & T1) end.
  match goal with H : azure_section _ _ = _ |- _ =>
    apply azure_section_done in H
      as (k2 & k3 & k4 & Hk2 & Hk3 & Hk4 & [= -> ->] & E2 & I2 & H2 & O2 & T2) end.
  match goal with H : huggingface_section _ _ _ = _ |- _ =>
    apply huggingface_section_done in H as ([= -> -> ->] & E3 & I3 & H3 & O3 & T3) end.
  match goal with H : vertexai_section _ _ = _ |- _ =>
    apply vertexai_section_done in H
      as (k5 & k6 & k7 & Hk5 & Hk6 & Hk7 & -> & E4 & I4 & H4 & O4 & T4) end.
  match goal with H : cohere_section _ _ = _ |- _ =>
    apply cohere_section_done in H as (k8 & Hk8 & E5 & I5 & H5 & O5 & T5) end.
  match goal with H : index_section _ _ _ _ _ = _ |- _ =>
    apply index_section_done in H as (lines & Hl & -> & O6 & T6) end.
  rewrite ?H5, ?H4, ?H3, ?H2, ?H1 in *.
  rewrite ?E5, ?E4, ?E3, ?E2, ?E1 in *.
  rewrite ?lookup_events_insert in * by done.
  rewrite ?lookup_insert_ne in * by done.

  exists {| openai_api_key := k1; azure_api_key := k2; azure_api_version := k3;
            azure_endpoint := k4; gcp_project_id := k5; gcp_location := k6;
            google_application_credentials := k7; cohere_api_key := k8 |}, lines.
  split; [repeat constructor; done|]. split; [done|]. split; [done|]. split.
  - rewrite O6, O5, O4, O3, O2, O1. unfold notebook_lines, cohere_lines.
    by rewrite <- !app_assoc.
  - rewrite T6, T5, T4, T3, T2, T1.
    unfold notebook_events, openai_events, azure_events, vertexai_events, cohere_events.
    cbn [openai_api_key azure_api_key azure_api_version azure_endpoint gcp_project_id
         gcp_location google_application_credentials cohere_api_key].
    by rewrite <- !app_assoc.
Qed.

End Completed.

(** * What a completed run leaves behind *)

Lemma new_events_done {A} w (a : A) w' t :
  trace w' = trace w ++ t → new_events w (Done a w') = t.
Proof. unfold new_events. cbn. intros ->. by rewrite drop_app_length. Qed.

Lemma new_lines_done {A} w (a : A) w' l :
  stdout w' = stdout w ++ l → new_lines w (Done a w') = l.
Proof. unfold new_lines. cbn. intros ->. by rewrite drop_app_length. Qed.

(** The replay: in [recorded_world] the notebook runs to its end, displays
    what it records and prints what it records. *)
Lemma recorded_run :
  notebook recorded_services recorded_world = Done recorded_displayed recorded_final.
Proof. vm_compute. reflexivity. Qed.

Lemma recorded_run_stdout : stdout recorded_final = recorded_stdout.
Proof. vm_compute. reflexivity. Qed.

Lemma bare_run :
  notebook recorded_services bare_world = Done recorded_displayed bare_final.
Proof. vm_compute. reflexivity. Qed.

Section Dimensions.

Variable svc : services.

Lemma right_length_lookup env key prompt value :
  Forall (right_length svc) (lookup_events env key prompt value).
Proof.
  unfold lookup_events. destruct (truthy _); repeat constructor;
    intros v x H; cbn in H; by apply elem_of_nil in H.
Qed.

Lemma right_length_notebook env before c :
  Forall (right_length svc) (notebook_events svc env before c).
Proof.
  unfold notebook_events, openai_events, azure_events, huggingface_events,
    vertexai_events, cohere_events, index_events.
  repeat (apply Forall_app; split); try apply right_length_lookup;
    repeat constructor; intros v x H; cbn in H.
  all: repeat (apply elem_of_cons in H as [H|H]; [injection H as -> ->|]).
  all: try (by apply elem_of_nil in H).
  all: apply embedding_length.
Qed.

End Dimensions.

(** ** The calls of a completed run *)

Ltac unfold_events :=
  unfold notebook_events, openai_events, azure_events, huggingface_events,
    vertexai_events, cohere_events, index_events.

Lemma calls_app t1 t2 : calls (t1 ++ t2) = calls t1 ++ calls t2.
Proof. apply fmap_app. Qed.

Lemma calls_lookup env key prompt value :
  calls (lookup_events env key prompt value)
  = OsEnvironGet key None ::
    match truthy (env !! key) with Some _ => [] | None => [Getpass prompt] end.
Proof. unfold lookup_events. by destruct (truthy _). Qed.

Lemma library_calls_lookup env key prompt value :
  library_calls (calls (lookup_events env key prompt value)) = [].
Proof. rewrite calls_lookup. by destruct (truthy _). Qed.

Lemma library_calls_app l1 l2 :
  library_calls (l1 ++ l2) = library_calls l1 ++ library_calls l2.
Proof. apply filter_app. Qed.

Lemma library_calls_notebook svc env before c :
  library_calls (calls (notebook_events svc env before c))
  = notebook_library_calls svc env c.
Proof.
  unfold_events.
  rewrite ?calls_app, ?library_calls_app, ?library_calls_lookup. reflexivity.
Qed.

(** What looks at library calls only can as well look at all the calls. *)
Lemma omap_library_calls {B} (f : call → option B) l :
  (∀ c, is_library_call c = false → f c = None) →
  omap f l = omap f (library_calls l).
Proof.
  intros Hf. induction l as [|c l IH]; [done|].
  unfold library_calls in *. destruct (is_library_call c) eqn:E.
  - rewrite filter_cons_True by (by apply Is_true_true). cbn. by rewrite IH.
  - rewrite filter_cons_False by (by apply Is_true_false). cbn. by rewrite (Hf c E), IH.
Qed.

Lemma filter_library_calls (p : call → bool) l :
  (∀ c, p c = true → is_library_call c = true) →
  filter p l = filter p (library_calls l).
Proof.
  intros Hp. unfold library_calls. rewrite list_filter_filter_l; [done|].
  intros c Hc. apply Is_true_true, Hp. by apply Is_true_true.
Qed.

Section Calls.

Variable svc : services.
Variable env : gmap string string.
Variable before : list (string * pydict pyvalue).
Variable c : credentials.

Lemma aembed_many_classes_notebook :
  aembed_many_classes (calls (notebook_events svc env before c)) = [OpenAITextVectorizer; AzureOpenAITextVectorizer].
Proof.
  unfold aembed_many_classes. rewrite omap_library_calls by (by intros []).
  by rewrite library_calls_notebook.
Qed.

Lemma embed_many_classes_notebook :
  embed_many_classes (calls (notebook_events svc env before c)) = [OpenAITextVectorizer; HFTextVectorizer].
Proof.
  unfold embed_many_classes. rewrite omap_library_calls by (by intros []).
  by rewrite library_calls_notebook.
Qed.

Lemma instantiated_notebook :
  instantiated (calls (notebook_events svc env before c)) = [oai c; az_oai env c; hf; vtx c; co c].
Proof.
  unfold instantiated. rewrite omap_library_calls by (by intros []).
  by rewrite library_calls_notebook.
Qed.

Lemma receivers_notebook :
  omap receiver (calls (notebook_events svc env before c))
  = [oai c; oai c; oai c; az_oai env c; az_oai env c; hf; hf; vtx c; co c; co c; hf].
Proof.
  rewrite omap_library_calls by (by intros []).
  by rewrite library_calls_notebook.
Qed.

Lemma buffer_calls_notebook :
  filter asks_for_buffers (calls (notebook_events svc env before c)) = [EmbedMany hf three_sentences true].
Proof.
  rewrite filter_library_calls by (by intros []).
  by rewrite library_calls_notebook.
Qed.

Lemma index_operations_notebook :
  filter is_index_operation (calls (notebook_events svc env before c))
  = [Create true; Load (loaded_data svc); Query (the_query svc); Delete].
Proof.
  rewrite filter_library_calls by (by intros []).
  by rewrite library_calls_notebook.
Qed.

Lemma from_yaml_notebook :
  filter is_from_yaml (calls (notebook_events svc env before c)) = [FromYaml "./schema.yaml"].
Proof.
  rewrite filter_library_calls by (by intros []).
  by rewrite library_calls_notebook.
Qed.

Lemma shell_notebook :
  filter is_shell (calls (notebook_events svc env before c)) = [Shell "rvl index listall"].
Proof.
  rewrite filter_library_calls by (by intros []).
  by rewrite library_calls_notebook.
Qed.

Lemma last_call_notebook : last (calls (notebook_events svc env before c)) = Some Delete.
Proof.
  unfold notebook_events. rewrite !calls_app, !app_assoc, last_app. done.
Qed.

End Calls.

Lemma completed_run svc w d w' :
  notebook svc w = Done d w' →
  ∃ c lines,
    from_environ (environ w) c ∧
    mapM result_line (query_results svc (hashes w)) = Some lines ∧
    d = notebook_displayed svc (environ w) (hashes w) c ∧
    new_lines w (Done d w') = notebook_lines svc c lines ∧
    new_events w (Done d w') = notebook_events svc (environ w) (hashes w) c.
Proof.
  intros (c & lines & Hc & Hl & Hd & Ho & Ht)%notebook_done.
  exists c, lines. repeat split; try done.
  - by apply new_lines_done.
  - by apply new_events_done.
Qed.

(** Finding an event in the events of a completed run. *)
Ltac find_event :=
  lazymatch goal with
  | |- _ ∈ _ ++ _ =>
      apply elem_of_app; first [ left; solve [find_event] | right; solve [find_event] ]
  | |- _ ∈ _ :: _ =>
      first [ apply list_elem_of_here | apply list_elem_of_further; find_event ]
  end.



(** ** Buffers, loads and queries *)

Lemma returned_buffers_lookup env key prompt value :
  filter returned_buffers (lookup_events env key prompt value) = [].
Proof. unfold lookup_events. by destruct (truthy _). Qed.

Lemma returned_buffers_notebook svc env before c :
  filter returned_buffers (notebook_events svc env before c)
  = [embed_many_event svc hf three_sentences true].
Proof.
  unfold_events. rewrite ?filter_app, ?returned_buffers_lookup. reflexivity.
Qed.

Lemma load_calls_notebook svc env before c :
  filter is_load (calls (notebook_events svc env before c)) = [Load (loaded_data svc)].
Proof.
  rewrite filter_library_calls by (by intros []).
  by rewrite library_calls_notebook.
Qed.

Lemma query_calls_notebook svc env before c :
  filter is_query (calls (notebook_events svc env before c)) = [Query (the_query svc)].
Proof.
  rewrite filter_library_calls by (by intros []).
  by rewrite library_calls_notebook.
Qed.

Lemma result_lines_read_text (docs : list (pydict string)) lines :
  mapM result_line docs = Some lines →
  Forall2 (λ doc line, ∃ text distance,
             dict_get doc "text" = Some text ∧
             dict_get doc "vector_distance" = Some distance ∧
             line = text +:+ " " +:+ distance) docs lines.
Proof.
  intros H%mapM_Some. eapply Forall2_impl; [exact H|].
  intros doc line. unfold result_line. cbn.
  destruct (dict_get doc "text") as [text|]; [|done].
  destruct (dict_get doc "vector_distance") as [distance|]; [|done].
  intros [= <-]. by exists text, distance.
Qed.

(** ** Keys begin with the prefix of the schema *)

Lemma append_assoc (p q s : string) : (p +:+ q) +:+ s = p +:+ q +:+ s.
Proof.
  induction p as [|a p IH]; [done|].
  change (String a p +:+ q) with (String a (p +:+ q)).
  change (String a (p +:+ q) +:+ s) with (String a ((p +:+ q) +:+ s)).
  change (String a p +:+ q +:+ s) with (String a (p +:+ q +:+ s)).
  by rewrite IH.
Qed.

Lemma prefix_append (p s : string) : String.prefix p (p +:+ s) = true.
Proof.
  induction p as [|a p IH]; [by destruct s|].
  change (String a p +:+ s) with (String a (p +:+ s)). cbn.
  by destruct (ascii_dec a a).
Qed.

Lemma new_key_prefix svc i k :
  String.prefix (prefix (index (schema i)) +:+ ":") (new_key svc i k) = true.
Proof. unfold new_key. rewrite <- append_assoc. apply prefix_append. Qed.

(** ** A query returns its results nearest first *)

Lemma decimal_leb_total a b : decimal_leb a b = false → decimal_leb b a = true.
Proof. unfold decimal_leb. intros H%N.leb_gt. apply N.leb_le. lia. Qed.

Lemma nondecreasing_cons a l :
  nondecreasing (a :: l) ↔
  match l with [] => True | b :: _ => decimal_le a b end ∧ nondecreasing l.
Proof. destruct l; cbn; tauto. Qed.

Section Sorting.

Context {A : Type} (score : A → decimal).

Lemma insert_by_head x l :
  match insert_by score x l with
  | [] => False
  | y :: _ => y = x ∨ head l = Some y
  end.
Proof. destruct l as [|z l]; cbn; [by left|]. destruct (decimal_leb _ _); auto. Qed.

Lemma insert_by_nondecreasing x l :
  nondecreasing (score <$> l) → nondecreasing (score <$> insert_by score x l).
Proof.
  induction l as [|y l IH]; [done|]. intros [Hy Hl]%nondecreasing_cons.
  cbn [insert_by]. destruct (decimal_leb (score y) (score x)) eqn:E.
  - rewrite fmap_cons. apply nondecreasing_cons. split; [|by apply IH].
    pose proof (insert_by_head x l) as Hh.
    destruct (insert_by score x l) as [|z k]; [done|]. cbn.
    destruct Hh as [->|Hh]; [done|]. destruct l as [|z' l]; [done|].
    by injection Hh as ->.
  - rewrite !fmap_cons. apply nondecreasing_cons. split.
    + by apply decimal_leb_total.
    + apply nondecreasing_cons. done.
Qed.

Lemma sort_by_nondecreasing l : nondecreasing (score <$> sort_by score l).
Proof.
  unfold sort_by. induction (reverse l) as [|x k IH]; [done|].
  cbn [foldr]. by apply insert_by_nondecreasing.
Qed.

End Sorting.

Lemma take_nondecreasing n l : nondecreasing l → nondecreasing (take n l).
Proof.
  revert l. induction n as [|n IH]; intros [|a l]; try done.
  intros [Ha Hl]%nondecreasing_cons. cbn [take]. apply nondecreasing_cons.
  split; [|by apply IH]. destruct l as [|b l]; [by destruct n|]. by destruct n.
Qed.

(** What [index.query] returns, whatever the index holds: at most
    [num_results] documents, each with the distance it was ranked by, and
    these distances never decrease. *)
Lemma query_ranked svc i q (hs : list (string * pydict pyvalue)) :
  ∃ ranked : list decimal,
    (length (document q <$> take (num_results q) (sort_by fst (scored svc i q hs)))
     ≤ num_results q)%nat ∧
    Forall2 (λ doc r, dict_get doc "vector_distance" = Some (render r))
      (document q <$> take (num_results q) (sort_by fst (scored svc i q hs))) ranked ∧
    nondecreasing ranked.
Proof.
  exists (fst <$> take (num_results q) (sort_by fst (scored svc i q hs))).
  split; [|split].
  - rewrite length_fmap, length_take. lia.
  - apply Forall2_fmap, Forall_Forall2_diag, Forall_forall. by intros [r h] _.
  - rewrite fmap_take. apply take_nondecreasing, sort_by_nondecreasing.
Qed.

(** ** The order of the calls *)

Lemma precede_sound p q l : precede p q l = true → all_before p q l.
Proof.
  induction l as [|c l IH]; intros H i j a b Hi Hj Hp Hq; [done|].
  cbn [precede] in H. destruct (q c) eqn:Hc.
  - rewrite forallb_forall in H.
    apply list_elem_of_lookup_2, list_elem_of_In, H in Hi.
    by rewrite Hp in Hi.
  - destruct j as [|j]; [cbn in Hj; congruence|].
    destruct i as [|i]; [lia|].
    apply (IH H i j a b) in Hq; [lia|done..].
Qed.

(** A property of the calls is checked for each way the eight variables can
    be set or missing. *)
Ltac by_environ svc env :=
  unfold_events; unfold lookup_events, calls; rewrite ?fmap_app, ?fmap_cons;
  cbn [fmap list_fmap ev_call returned init_event embed_event embed_many_event
       aembed_many_event];
  generalize (loaded_data svc) (the_query svc); intros ? ?;
  generalize (truthy (env !! "OPENAI_API_KEY")),
    (truthy (env !! "AZURE_OPENAI_API_KEY")),
    (truthy (env !! "OPENAI_API_VERSION")),
    (truthy (env !! "AZURE_OPENAI_ENDPOINT")),
    (truthy (env !! "GCP_PROJECT_ID")),
    (truthy (env !! "GCP_LOCATION")),
    (truthy (env !! "GOOGLE_APPLICATION_CREDENTIALS")),
    (truthy (env !! "COHERE_API_KEY"));
  intros [?|] [?|] [?|] [?|] [?|] [?|] [?|] [?|];
  reflexivity.

Lemma provider_order_notebook svc env before c :
  forallb (λ p,
      precede (obtains_credential_for p) (instantiates p)
        (calls (notebook_events svc env before c))
      && precede (instantiates p) (embeds_with p)
           (calls (notebook_events svc env before c)))
    vectorizer_classes = true.
Proof. by_environ svc env. Qed.

Lemma not_index_operation_lookup env key prompt value :
  Forall (λ e, is_index_operation (ev_call e) = false)
    (lookup_events env key prompt value).
Proof. unfold lookup_events. destruct (truthy _); repeat constructor. Qed.

(** ** Lookups and prompts *)

Lemma lookups_app l1 l2 : lookups (l1 ++ l2) = lookups l1 ++ lookups l2.
Proof. apply omap_app. Qed.

Lemma lookups_lookup env key prompt value :
  lookups (calls (lookup_events env key prompt value)) = [(key, None)].
Proof. rewrite calls_lookup. by destruct (truthy _). Qed.

Lemma lookups_notebook svc env before c :
  lookups (calls (notebook_events svc env before c))
  = [ ("OPENAI_API_KEY", None);
      ("AZURE_OPENAI_API_KEY", None);
      ("OPENAI_API_VERSION", None);
      ("AZURE_OPENAI_ENDPOINT", None);
      ("AZURE_OPENAI_DEPLOYMENT_NAME", Some "text-embedding-ada-002");
      ("GCP_PROJECT_ID", None);
      ("GCP_LOCATION", None);
      ("GOOGLE_APPLICATION_CREDENTIALS", None);
      ("COHERE_API_KEY", None) ].
Proof.
  unfold_events. rewrite ?calls_app, ?lookups_app, ?lookups_lookup. reflexivity.
Qed.

Lemma prompts_notebook svc env before c :
  prompts (calls (notebook_events svc env before c))
  = omap (prompt_if_missing env) prompted.
Proof.
  unfold prompted, prompt_if_missing. cbn [omap list_omap fst snd].
  by_environ svc env.
Qed.

Lemma falls_back_notebook svc env before c :
  (λ kp, falls_back_to_prompt kp.1 (calls (notebook_events svc env before c)))
    <$> prompted
  = (λ kp, bool_decide (truthy (env !! kp.1) = None)) <$> prompted.
Proof.
  unfold prompted. cbn [fmap list_fmap fst snd].
  by_environ svc env.
Qed.

Lemma deployment_name_notebook svc env before c :
  falls_back_to_prompt "AZURE_OPENAI_DEPLOYMENT_NAME"
    (calls (notebook_events svc env before c)) = false.
Proof. by_environ svc env. Qed.

Lemma fmap_eq_elem {A B} (f g : A → B) (l : list A) x :
  f <$> l = g <$> l → x ∈ l → f x = g x.
Proof.
  induction l as [|y l IH]; intros E Hx; [by apply elem_of_nil in Hx|].
  injection E as E1 E2. apply elem_of_cons in Hx as [->|Hx]; auto.
Qed.

Lemma truthy_None (env : gmap string string) key :
  env !! key = None → truthy (env !! key) = None.
Proof. by intros ->. Qed.

(** ** Exceptions are not caught *)

Lemma uncaught_ret {A} (a : A) : uncaught (mret a).
Proof. intros w. exists []. cbn. by rewrite app_nil_r. Qed.

Lemma uncaught_raise {A} e : uncaught (raise e : script A).
Proof. intros w. exists []. cbn. rewrite app_nil_r. split; [done|]. by left. Qed.

Lemma uncaught_bind {A B} (m : script A) (f : A → script B) :
  uncaught m → (∀ a, uncaught (f a)) → uncaught (m ≫= f).
Proof.
  intros Hm Hf w. destruct (Hm w) as (t1 & Ht1 & H1).
  unfold mbind, script_bind. destruct (m w) as [a w1|e w1]; cbn in Ht1.
  - destruct (Hf a w1) as (t2 & Ht2 & H2). exists (t1 ++ t2).
    rewrite Ht2, Ht1, app_assoc. split; [done|].
    destruct (f a w1) as [b w2|e w2].
    + by apply Forall_app.
    + destruct H2 as [H2|(t0 & c & -> & H2)].
      * left. by apply Forall_app.
      * right. exists (t1 ++ t0), c. rewrite app_assoc. split; [done|].
        by apply Forall_app.
  - exists t1. done.
Qed.

Lemma uncaught_environ_get key : uncaught (os_environ_get key).
Proof. intros w. eexists. split; [reflexivity|]. by repeat constructor. Qed.

Lemma uncaught_environ_get_default key d : uncaught (os_environ_get_default key d).
Proof. intros w. eexists. split; [reflexivity|]. by repeat constructor. Qed.

Lemma uncaught_environ_setitem key v : uncaught (os_environ_setitem key v).
Proof. intros w. eexists. split; [reflexivity|]. by repeat constructor. Qed.

Lemma uncaught_getpass svc prompt : uncaught (getpass_getpass svc prompt).
Proof.
  intros w. unfold getpass_getpass.
  destruct (svc_raises svc (Getpass prompt)) as [e|];
    [|destruct (tty w)]; eexists; (split; [reflexivity|]).
  - right. by exists [], (Getpass prompt).
  - right. by exists [], (Getpass prompt).
  - by repeat constructor.
Qed.

Lemma uncaught_print args : uncaught (print args).
Proof. intros w. exists []. cbn. by rewrite app_nil_r. Qed.

Lemma uncaught_or_else a b : uncaught a → uncaught b → uncaught (or_else a b).
Proof.
  intros Ha Hb. apply uncaught_bind; [done|]. intros v.
  destruct (truthy v); [apply uncaught_ret | done].
Qed.

Lemma uncaught_getitem {V} (d : pydict V) key : uncaught (getitem d key).
Proof. unfold getitem. destruct (dict_get d key); [apply uncaught_ret | apply uncaught_raise]. Qed.

Lemma uncaught_item {A} (l : list A) i : uncaught (item l i).
Proof. unfold item. destruct (l !! i); [apply uncaught_ret | apply uncaught_raise]. Qed.

Lemma uncaught_for_each {A} (l : list A) body :
  (∀ x, uncaught (body x)) → uncaught (for_each l body).
Proof.
  intros Hb. induction l as [|x l IH]; [apply uncaught_ret|].
  cbn [for_each]. by apply uncaught_bind.
Qed.

Lemma uncaught_invoke {A} svc c show (body : world → exn + A * world) :
  (∀ w a w0, body w = inr (a, w0) → trace w0 = trace w) →
  uncaught (invoke svc c show body).
Proof.
  intros Hb w. unfold invoke. destruct (svc_raises svc c) as [e|].
  - eexists. split; [reflexivity|]. right. by exists [], c.
  - destruct (body w) as [e|[a w0]] eqn:E.
    + eexists. split; [reflexivity|]. right. by exists [], c.
    + eexists. cbn. rewrite (Hb _ _ _ E). split; [reflexivity|]. by repeat constructor.
Qed.

Ltac uncaught_library :=
  apply uncaught_invoke; intros ? ? ?;
  repeat case_match; intros [=]; by subst.

Lemma uncaught_new svc c m a : uncaught (new svc c m a).
Proof. uncaught_library. Qed.

Lemma uncaught_embed svc v text it : uncaught (embed svc v text it).
Proof. uncaught_library. Qed.

Lemma uncaught_embed_many svc v texts b : uncaught (embed_many svc v texts b).
Proof. uncaught_library. Qed.

Lemma uncaught_aembed_many svc v texts : uncaught (aembed_many svc v texts).
Proof. uncaught_library. Qed.

Lemma uncaught_from_yaml svc path : uncaught (SearchIndex_from_yaml svc path).
Proof. uncaught_library. Qed.

Lemma uncaught_connect svc i url : uncaught (SearchIndex_connect svc i url).
Proof. uncaught_library. Qed.

Lemma uncaught_create svc i o : uncaught (SearchIndex_create svc i o).
Proof. uncaught_library. Qed.

Lemma uncaught_load svc i data : uncaught (SearchIndex_load svc i data).
Proof. uncaught_library. Qed.

Lemma uncaught_query svc i q : uncaught (SearchIndex_query svc i q).
Proof. uncaught_library. Qed.

Lemma uncaught_delete svc i : uncaught (SearchIndex_delete svc i).
Proof. uncaught_library. Qed.

Lemma uncaught_shell svc cmd : uncaught (shell svc cmd).
Proof. uncaught_library. Qed.

Create HintDb uncaught discriminated.

#[local] Hint Resolve
  uncaught_ret uncaught_raise uncaught_environ_get uncaught_environ_get_default
  uncaught_environ_setitem uncaught_getpass uncaught_print uncaught_or_else
  uncaught_getitem uncaught_item uncaught_new uncaught_embed uncaught_embed_many
  uncaught_aembed_many uncaught_from_yaml uncaught_connect uncaught_create
  uncaught_load uncaught_query uncaught_delete uncaught_shell : uncaught.

(** One statement of a cell at a time. *)
Ltac uncaught_step :=
  lazymatch goal with
  | |- uncaught (_ ≫= _) => apply uncaught_bind; [|intros ?]
  | |- uncaught (let '(_, _) := ?p in _) => destruct p
  | |- uncaught (for_each _ _) => apply uncaught_for_each; intros ?
  | |- uncaught (embed_many ?s ?v ?t ?b) => exact (uncaught_embed_many s v t b)
  | |- uncaught _ => solve [auto with uncaught]
  end.

Lemma uncaught_notebook svc : uncaught (notebook svc).
Proof.
  unfold notebook, openai_section, azure_section, huggingface_section,
    vertexai_section, cohere_section, index_section,
    cell_01, cell_04, cell_05, cell_06, cell_07, cell_09, cell_10, cell_11,
    cell_13, cell_14, cell_16, cell_18, cell_20, cell_23, cell_24, cell_25,
    cell_26, cell_27.
  repeat uncaught_step.
Qed.

(** * The properties of the notebook *)

(** ** C1: the dimensions of the embeddings *)

(** C1.  In every run of the notebook that reaches its end, each embedding
    an [embed], [embed_many] or [aembed_many] call returned has the length
    fixed for its provider: 1536 for OpenAI and for Azure OpenAI, 1024 for
    Cohere, and for HuggingFace the 768 that the schema declares as [dims] of
    its vector field.  The run does contain the OpenAI, Azure OpenAI and the
    two Cohere [embed] calls and the HuggingFace [embed_many] call, and it
    prints the "Vector dimensions" lines that the notebook records. *)
Theorem embedding_dimensions svc w d w' :
  notebook svc w = Done d w' →
  (∀ e v x, e ∈ new_events w (Done d w') → (v, x) ∈ produced e →
     match class v with
     | OpenAITextVectorizer | AzureOpenAITextVectorizer => length x = 1536
     | CohereTextVectorizer => length x = 1024
     | HFTextVectorizer =>
         length x = 768 ∧ dims <$> vector_attrs schema_yaml = Some (length x)
     | VertexAITextVectorizer => length x = svc_vertex_dims svc
     end) ∧
  (∃ c, Forall (λ e, e ∈ new_events w (Done d w'))
          [ embed_event svc (oai c) test_sentence None;
            embed_event svc (az_oai (environ w) c) test_sentence None;
            embed_event svc (co c) test_sentence (Some "search_query");
            embed_event svc (co c) test_sentence (Some "search_document");
            embed_many_event svc hf three_sentences true ]) ∧
  (∃ q sd rest,
     new_lines w (Done d w')
     = recorded_stdout_05 ++ recorded_stdout_07 ++ recorded_stdout_10
       ++ ["Vector dimensions:  1024"; q; "Vector dimensions:  1024"; sd] ++ rest).
Proof.
  intros (c & lines & _ & _ & _ & -> & ->)%completed_run. split; [|split].
  - intros e v x He Hx.
    pose proof (right_length_notebook svc (environ w) (hashes w) c) as Hall.
    rewrite Forall_forall in Hall. specialize (Hall e He v x Hx).
    rewrite Hall. by destruct (class v).
  - exists c. repeat (apply Forall_cons_2; [unfold_events; find_event|]).
    apply Forall_nil_2.
  - unfold notebook_lines, cohere_lines. eauto.
Qed.

Lemma embedding_dimensions_witness :
  notebook recorded_services recorded_world = Done recorded_displayed recorded_final ∧
  ∃ q sd rest,
    new_lines recorded_world (Done recorded_displayed recorded_final)
    = recorded_stdout_05 ++ recorded_stdout_07 ++ recorded_stdout_10
      ++ ["Vector dimensions:  1024"; q; "Vector dimensions:  1024"; sd] ++ rest.
Proof.
  assert (notebook recorded_services recorded_world
          = Done recorded_displayed recorded_final) as H
    by (vm_compute; reflexivity).
  split; [exact H|].
  exact (proj2 (proj2 (embedding_dimensions recorded_services recorded_world
                         recorded_displayed recorded_final H))).
Defined.

(** ** C2: credentials, and what happens to exceptions *)

(** C2, as stated, fails for one of the nine variables: with no variable
    set, the run reaches its end without ever asking for the value of
    AZURE_OPENAI_DEPLOYMENT_NAME. *)
Lemma deployment_name_is_not_prompted :
  ¬ ∀ key, key ∈ consulted →
      ∀ svc w d w', environ w !! key = None → notebook svc w = Done d w' →
        falls_back_to_prompt key (calls (new_events w (Done d w'))) = true.
Proof.
  intros H.
  specialize (H "AZURE_OPENAI_DEPLOYMENT_NAME").
  assert ("AZURE_OPENAI_DEPLOYMENT_NAME" ∈ consulted) as Hc
    by (unfold consulted; cbn; find_event).
  specialize (H Hc recorded_services bare_world recorded_displayed bare_final
                eq_refl bare_run).
  vm_compute in H. discriminate H.
Qed.

(** C2, amended.  In every run of the notebook that reaches its end, the
    nine variables are looked up once each, in the order of the cells; for
    each of the eight variables OPENAI_API_KEY, AZURE_OPENAI_API_KEY,
    OPENAI_API_VERSION, AZURE_OPENAI_ENDPOINT, GCP_PROJECT_ID, GCP_LOCATION,
    GOOGLE_APPLICATION_CREDENTIALS and COHERE_API_KEY the lookup is followed
    at once by a [getpass] prompt exactly when the variable is absent or
    empty, and the prompts issued are exactly those of such variables; the
    lookup of AZURE_OPENAI_DEPLOYMENT_NAME is never followed by a prompt: an
    absent variable is replaced by the literal "text-embedding-ada-002",
    which becomes the model of the Azure OpenAI vectorizer.  A variable that
    is set and not empty is used as it is.  There is no other error handling:
    in every run, complete or not, a call that raises is the last call made
    and its exception ends the run. *)
Theorem credential_fallback svc w :
  (∀ d w', notebook svc w = Done d w' →
     lookups (calls (new_events w (Done d w')))
     = [ ("OPENAI_API_KEY", None);
         ("AZURE_OPENAI_API_KEY", None);
         ("OPENAI_API_VERSION", None);
         ("AZURE_OPENAI_ENDPOINT", None);
         ("AZURE_OPENAI_DEPLOYMENT_NAME", Some "text-embedding-ada-002");
         ("GCP_PROJECT_ID", None);
         ("GCP_LOCATION", None);
         ("GOOGLE_APPLICATION_CREDENTIALS", None);
         ("COHERE_API_KEY", None) ] ∧
     prompts (calls (new_events w (Done d w')))
     = omap (prompt_if_missing (environ w)) prompted ∧
     (∀ key prompt, (key, prompt) ∈ prompted →
        falls_back_to_prompt key (calls (new_events w (Done d w')))
        = bool_decide (truthy (environ w !! key) = None)) ∧
     (∀ key prompt, (key, prompt) ∈ prompted → environ w !! key = None →
        falls_back_to_prompt key (calls (new_events w (Done d w'))) = true ∧
        prompt ∈ prompts (calls (new_events w (Done d w')))) ∧
     falls_back_to_prompt "AZURE_OPENAI_DEPLOYMENT_NAME"
       (calls (new_events w (Done d w'))) = false ∧
     (∃ c, from_environ (environ w) c ∧
           instantiated (calls (new_events w (Done d w')))
           = [oai c; az_oai (environ w) c; hf; vtx c; co c] ∧
           model (az_oai (environ w) c)
           = Some (default "text-embedding-ada-002"
                     (environ w !! "AZURE_OPENAI_DEPLOYMENT_NAME"))) ∧
     Forall event_returned (new_events w (Done d w'))) ∧
  (∀ c e, Ev c (Raises e) ∈ new_events w (notebook svc w) →
     last (new_events w (notebook svc w)) = Some (Ev c (Raises e)) ∧
     ∃ w', notebook svc w = Raised e w').
Proof.
  split.
  - intros d w' H.
    assert (Forall event_returned (new_events w (Done d w'))) as Hr.
    { destruct (uncaught_notebook svc w) as (t & Ht & Hu). rewrite H in Ht, Hu.
      by rewrite (new_events_done _ _ _ _ Ht). }
    apply completed_run in H as (c & lines & Hc & _ & _ & _ & Ht).
    rewrite Ht in *. clear Ht.
    rewrite lookups_notebook, prompts_notebook, deployment_name_notebook,
      instantiated_notebook.
    pose proof (falls_back_notebook svc (environ w) (hashes w) c) as Hf.
    repeat split; try done.
    + intros key prompt Hk. apply (fmap_eq_elem _ _ _ _ Hf Hk).
    + pose proof (fmap_eq_elem _ _ _ _ Hf H) as E. cbn [fst] in E.
      rewrite E. by rewrite truthy_None.
    + apply list_elem_of_omap. exists (key, prompt). split; [done|].
      unfold prompt_if_missing. cbn. by rewrite truthy_None.
    + by exists c.
  - intros c e Hin.
    destruct (uncaught_notebook svc w) as (t & Ht & Hu).
    assert (new_events w (notebook svc w) = t) as E
      by (unfold new_events; by rewrite Ht, drop_app_length).
    rewrite E in *. destruct (notebook svc w) as [d w'|e0 w'].
    + rewrite Forall_forall in Hu. by apply Hu in Hin.
    + destruct Hu as [Hu|(t0 & c0 & -> & Hu)].
      * rewrite Forall_forall in Hu. by apply Hu in Hin.
      * apply elem_of_app in Hin as [Hin|Hin].
        { rewrite Forall_forall in Hu. by apply Hu in Hin. }
        apply list_elem_of_singleton in Hin as [= -> ->].
        rewrite last_snoc. eauto.
Qed.

Lemma credential_fallback_witness :
  notebook recorded_services bare_world = Done recorded_displayed bare_final ∧
  prompts (calls (new_events bare_world (Done recorded_displayed bare_final)))
  = omap (prompt_if_missing (environ bare_world)) prompted ∧
  Ev (Connect "redis://localhost:6379") (Raises (ServiceError "Connection refused"))
    ∈ new_events recorded_world (notebook redis_down recorded_world) ∧
  ∃ w', notebook redis_down recorded_world
        = Raised (ServiceError "Connection refused") w'.
Proof.
  assert (notebook recorded_services bare_world
          = Done recorded_displayed bare_final) as H
    by (vm_compute; reflexivity).
  assert (Ev (Connect "redis://localhost:6379")
            (Raises (ServiceError "Connection refused"))
          ∈ new_events recorded_world (notebook redis_down recorded_world)) as Hin
    by (apply (list_elem_of_lookup_2 _ 26); vm_compute; reflexivity).
  split; [exact H|]. split.
  - exact (proj1 (proj2 (proj1 (credential_fallback recorded_services bare_world)
                           recorded_displayed bare_final H))).
  - split; [exact Hin|].
    exact (proj2 (proj2 (credential_fallback redis_down recorded_world) _ _ Hin)).
Defined.

(** ** C3: which providers are shown using [aembed_many] *)

(** C3, as stated, fails on the replayed run: the classes whose
    [aembed_many] is called are two, so no single class is the one. *)
Lemma aembed_many_not_exactly_one :
  ¬ ∃ p, ∀ q,
      q ∈ aembed_many_classes
            (calls (new_events recorded_world
                      (notebook recorded_services recorded_world)))
      ↔ q = p.
Proof.
  rewrite recorded_run.
  destruct (completed_run _ _ _ _ recorded_run) as (c & lines & _ & _ & _ & _ & ->).
  rewrite aembed_many_classes_notebook. intros [p Hp].
  assert (OpenAITextVectorizer = p) as <- by (apply Hp; repeat constructor).
  assert (AzureOpenAITextVectorizer = OpenAITextVectorizer) as [=].
  apply Hp. repeat constructor.
Qed.

(** C3, amended.  In every run of the notebook that reaches its end,
    [aembed_many] is called on exactly two vectorizers, the OpenAI one and
    then the Azure OpenAI one; the synchronous [embed_many] is called on the
    OpenAI one and on the HuggingFace one; so the OpenAI vectorizer is the
    only one shown with both the synchronous and the asynchronous batch
    call. *)
Theorem aembed_many_providers svc w d w' :
  notebook svc w = Done d w' →
  aembed_many_classes (calls (new_events w (Done d w')))
  = [OpenAITextVectorizer; AzureOpenAITextVectorizer] ∧
  embed_many_classes (calls (new_events w (Done d w')))
  = [OpenAITextVectorizer; HFTextVectorizer] ∧
  ∀ p, p ∈ aembed_many_classes (calls (new_events w (Done d w'))) ∧
       p ∈ embed_many_classes (calls (new_events w (Done d w')))
       ↔ p = OpenAITextVectorizer.
Proof.
  intros (c & lines & _ & _ & _ & _ & ->)%completed_run.
  rewrite aembed_many_classes_notebook, embed_many_classes_notebook.
  split; [done|]. split; [done|]. intros p.
  split.
  - intros [H1 H2]. apply elem_of_cons in H1 as [->|H1]; [done|].
    apply list_elem_of_singleton in H1 as ->.
    apply elem_of_cons in H2 as [[=]|H2]. by apply list_elem_of_singleton in H2.
  - intros ->. split; apply list_elem_of_here.
Qed.

Lemma aembed_many_providers_witness :
  notebook recorded_services recorded_world = Done recorded_displayed recorded_final ∧
  aembed_many_classes
    (calls (new_events recorded_world (Done recorded_displayed recorded_final)))
  = [OpenAITextVectorizer; AzureOpenAITextVectorizer].
Proof.
  assert (notebook recorded_services recorded_world
          = Done recorded_displayed recorded_final) as H
    by (vm_compute; reflexivity).
  split; [exact H|].
  exact (proj1 (aembed_many_providers recorded_services recorded_world
                  recorded_displayed recorded_final H)).
Defined.

(** ** C4: what is loaded are byte buffers *)

(** C4.  In every run of the notebook that reaches its end, the one call
    made with [as_buffer=True] is [hf.embed_many(sentences, as_buffer=True)],
    the one event that returns byte buffers is that call, and the records
    handed to the one [index.load] pair the three sentences with exactly the
    buffers that call returned; no other call of the run serialises a
    vector.  The index they go to is built from the schema, which declares
    [storage_type: hash]. *)
Theorem loaded_vectors_are_buffers svc w d w' :
  notebook svc w = Done d w' →
  filter asks_for_buffers (calls (new_events w (Done d w')))
  = [EmbedMany hf three_sentences true] ∧
  (∃ bs,
     filter returned_buffers (new_events w (Done d w'))
     = [Ev (EmbedMany hf three_sentences true) (Returns (VBuffers bs))] ∧
     length bs = 3 ∧
     filter is_load (calls (new_events w (Done d w')))
     = [Load (records three_sentences bs)]) ∧
  class hf = HFTextVectorizer ∧
  (∀ w0 i w1, SearchIndex_from_yaml svc "./schema.yaml" w0 = Done i w1 →
     storage_type (index (schema i)) = "hash") ∧
  storage_type (index schema_yaml) = "hash".
Proof.
  intros (c & lines & _ & _ & _ & _ & ->)%completed_run.
  rewrite buffer_calls_notebook, returned_buffers_notebook, load_calls_notebook.
  split; [done|]. split.
  - exists (loaded_embeddings svc). done.
  - repeat split. by intros w0 i w1 [-> _]%from_yaml_done.
Qed.

Lemma loaded_vectors_are_buffers_witness :
  notebook recorded_services recorded_world = Done recorded_displayed recorded_final ∧
  filter asks_for_buffers
    (calls (new_events recorded_world (Done recorded_displayed recorded_final)))
  = [EmbedMany hf three_sentences true].
Proof.
  assert (notebook recorded_services recorded_world
          = Done recorded_displayed recorded_final) as H
    by (vm_compute; reflexivity).
  split; [exact H|].
  exact (proj1 (loaded_vectors_are_buffers recorded_services recorded_world
                  recorded_displayed recorded_final H)).
Defined.

(** ** C5: the order of the calls *)

(** C5, as stated, fails on the replayed run: the embedding of the query
    text is made after the index has been created and loaded, so not every
    embedding call comes before every index operation. *)
Lemma embedding_after_index_operations :
  ¬ all_before is_embedding_call is_index_operation
      (calls (new_events recorded_world (notebook recorded_services recorded_world))).
Proof.
  intros H.
  specialize (H 30 27 (Embed hf "That is a happy cat" None) (Create true)).
  assert (30 < 27); [|lia].
  apply H; vm_compute; reflexivity.
Qed.

(** C5, amended.  In every run of the notebook that reaches its end: for
    each provider, every lookup and prompt that obtains one of its
    credentials comes before its vectorizer is instantiated, and the
    vectorizer is instantiated before any [embed], [embed_many] or
    [aembed_many] call on it, the five vectorizers being instantiated once
    each.  The run ends with the index section: [from_yaml], [connect],
    [create], the shell listing, [load], the embedding of the query text,
    [query] and [delete], in this order, [delete] being the last call of all.
    The buffers that are loaded were returned by [hf.embed_many] before any
    index operation; the query vector is returned by [hf.embed] after [load]
    and before [query]. *)
Theorem notebook_order svc w d w' :
  notebook svc w = Done d w' →
  (∀ p, all_before (obtains_credential_for p) (instantiates p)
          (calls (new_events w (Done d w'))) ∧
        all_before (instantiates p) (embeds_with p)
          (calls (new_events w (Done d w')))) ∧
  (∃ c, instantiated (calls (new_events w (Done d w')))
        = [oai c; az_oai (environ w) c; hf; vtx c; co c] ∧
        ∀ v, v ∈ omap receiver (calls (new_events w (Done d w'))) →
             v ∈ instantiated (calls (new_events w (Done d w')))) ∧
  (∃ pre bs ks x docs,
     new_events w (Done d w')
     = pre ++ [ returned (FromYaml "./schema.yaml") VObject;
                returned (Connect "redis://localhost:6379") VNone;
                returned (Create true) VNone;
                returned (Shell "rvl index listall") VNone;
                returned (Load (records three_sentences bs)) (VStrs ks);
                returned (Embed hf "That is a happy cat" None) (VVector x);
                returned (Query {| vector := x; vector_field_name := "embedding";
                                   return_fields := ["text"]; num_results := 3 |})
                  (VDocs docs);
                returned Delete VNone ] ∧
     returned (EmbedMany hf three_sentences true) (VBuffers bs) ∈ pre ∧
     Forall (λ e, is_index_operation (ev_call e) = false) pre) ∧
  last (calls (new_events w (Done d w'))) = Some Delete.
Proof.
  intros (c & lines & _ & _ & _ & _ & ->)%completed_run.
  split; [|split; [|split]].
  - intros p.
    pose proof (provider_order_notebook svc (environ w) (hashes w) c) as H.
    rewrite forallb_forall in H.
    assert (p ∈ vectorizer_classes) as Hp by (unfold vectorizer_classes; destruct p; find_event).
    apply list_elem_of_In, H, andb_true_iff in Hp as [H1 H2].
    split; by apply precede_sound.
  - exists c. rewrite instantiated_notebook, receivers_notebook. split; [done|].
    intros v Hv.
    repeat (apply elem_of_cons in Hv as [->|Hv]; [find_event|]).
    by apply elem_of_nil in Hv.
  - exists (openai_events svc (environ w) c ++ azure_events svc (environ w) c
            ++ huggingface_events svc ++ vertexai_events svc (environ w) c
            ++ cohere_events svc (environ w) c),
      (loaded_embeddings svc), (loaded_keys svc (hashes w)),
      (embedding svc hf "That is a happy cat" None),
      (query_results svc (hashes w)).
    split; [|split].
    + unfold notebook_events. by rewrite <- !app_assoc.
    + unfold_events. find_event.
    + unfold_events. repeat (apply Forall_app; split);
        try apply not_index_operation_lookup; repeat constructor.
  - apply last_call_notebook.
Qed.

Lemma notebook_order_witness :
  notebook recorded_services recorded_world = Done recorded_displayed recorded_final ∧
  last (calls (new_events recorded_world (Done recorded_displayed recorded_final)))
  = Some Delete.
Proof.
  assert (notebook recorded_services recorded_world
          = Done recorded_displayed recorded_final) as H
    by (vm_compute; reflexivity).
  split; [exact H|].
  exact (proj2 (proj2 (proj2 (notebook_order recorded_services recorded_world
                                recorded_displayed recorded_final H)))).
Defined.

(** ** C6: the results of the query come nearest first *)

(** C6.  In every run of the notebook that reaches its end, the one query
    is a [VectorQuery] with [num_results=3]; it returns at most three
    documents, and the distances they carry as [vector_distance] are in
    nondecreasing order: each is at most the next.  So are the three
    distances on the lines recorded under cell 26. *)
Theorem query_results_ordered svc w d w' :
  notebook svc w = Done d w' →
  ∃ q docs ranked,
    filter is_query (calls (new_events w (Done d w'))) = [Query q] ∧
    num_results q = 3 ∧
    Ev (Query q) (Returns (VDocs docs)) ∈ new_events w (Done d w') ∧
    (length docs ≤ 3)%nat ∧
    Forall2 (λ doc r, dict_get doc "vector_distance" = Some (render r)) docs ranked ∧
    nondecreasing ranked ∧
    printed_distances recorded_stdout_26 = Some recorded_distances ∧
    nondecreasing recorded_distances.
Proof.
  intros (c & lines & _ & _ & _ & _ & ->)%completed_run.
  rewrite query_calls_notebook.
  destruct (query_ranked svc the_index (the_query svc)
              (hashes w ++ zip (loaded_keys svc (hashes w)) (loaded_data svc)))
    as (ranked & Hn & Hd & Hs).
  eexists _, _, _. split; [reflexivity|]. split; [reflexivity|].
  split; [unfold_events; find_event|].
  split; [exact Hn|]. split; [exact Hd|]. split; [exact Hs|].
  split; [reflexivity|]. by vm_compute.
Qed.

Lemma query_results_ordered_witness :
  notebook recorded_services recorded_world = Done recorded_displayed recorded_final ∧
  ∃ q docs ranked,
    filter is_query
      (calls (new_events recorded_world (Done recorded_displayed recorded_final)))
    = [Query q] ∧
    num_results q = 3 ∧
    Ev (Query q) (Returns (VDocs docs))
      ∈ new_events recorded_world (Done recorded_displayed recorded_final) ∧
    (length docs ≤ 3)%nat ∧
    Forall2 (λ doc r, dict_get doc "vector_distance" = Some (render r)) docs ranked ∧
    nondecreasing ranked ∧
    printed_distances recorded_stdout_26 = Some recorded_distances ∧
    nondecreasing recorded_distances.
Proof.
  assert (notebook recorded_services recorded_world
          = Done recorded_displayed recorded_final) as H
    by (vm_compute; reflexivity).
  split; [exact H|].
  exact (query_results_ordered recorded_services recorded_world
           recorded_displayed recorded_final H).
Defined.

(** ** C7: the index comes from the schema file, the listing from the shell *)

(** C7.  In every run of the notebook that reaches its end, the one call
    that builds an index is [SearchIndex.from_yaml("./schema.yaml")], and the
    index it gives carries the schema of that file, which declares the field
    names [sentence] and [embedding] and, for the vector field, 768
    dimensions, the [flat] algorithm and the [cosine] distance metric; the
    one shell command of the run is [rvl index listall]. *)
Theorem index_from_yaml svc w d w' :
  notebook svc w = Done d w' →
  filter is_from_yaml (calls (new_events w (Done d w'))) = [FromYaml "./schema.yaml"] ∧
  (∀ w0 i w1, SearchIndex_from_yaml svc "./schema.yaml" w0 = Done i w1 →
     schema i = schema_yaml) ∧
  field_names schema_yaml = ["sentence"; "embedding"] ∧
  vector_attrs schema_yaml
  = Some {| dims := 768; algorithm := "flat"; distance_metric := "cosine" |} ∧
  filter is_shell (calls (new_events w (Done d w'))) = [Shell "rvl index listall"].
Proof.
  intros (c & lines & _ & _ & _ & _ & ->)%completed_run.
  rewrite from_yaml_notebook, shell_notebook.
  repeat split. by intros w0 i w1 [-> _]%from_yaml_done.
Qed.

Lemma index_from_yaml_witness :
  notebook recorded_services recorded_world = Done recorded_displayed recorded_final ∧
  filter is_shell
    (calls (new_events recorded_world (Done recorded_displayed recorded_final)))
  = [Shell "rvl index listall"].
Proof.
  assert (notebook recorded_services recorded_world
          = Done recorded_displayed recorded_final) as H
    by (vm_compute; reflexivity).
  split; [exact H|].
  exact (proj2 (proj2 (proj2 (proj2
           (index_from_yaml recorded_services recorded_world
              recorded_displayed recorded_final H))))).
Defined.

(** ** C8: the keys of the records and the field the query reads *)

(** C8.  In every run of the notebook that reaches its end, the one
    [index.load] is handed three records whose keys are exactly [text] and
    [embedding]; the one query asks for the field [text] back, and each line
    cell 26 prints is the [text] of a result document followed by its
    [vector_distance].  The schema declares no field named [text]: its one
    field of type [text] is named [sentence]. *)
Theorem record_keys svc w d w' :
  notebook svc w = Done d w' →
  (∃ data, filter is_load (calls (new_events w (Done d w'))) = [Load data] ∧
     length data = 3 ∧ Forall (λ r, keys r = ["text"; "embedding"]) data) ∧
  (∃ q docs lines,
     filter is_query (calls (new_events w (Done d w'))) = [Query q] ∧
     return_fields q = ["text"] ∧
     Ev (Query q) (Returns (VDocs docs)) ∈ new_events w (Done d w') ∧
     Forall2 (λ doc line, ∃ text distance,
                dict_get doc "text" = Some text ∧
                dict_get doc "vector_distance" = Some distance ∧
                line = text +:+ " " +:+ distance) docs lines ∧
     lines `suffix_of` new_lines w (Done d w')) ∧
  ("text" ∉ field_names schema_yaml) ∧
  (name <$> filter (λ f, type f = "text") (fields schema_yaml)) = ["sentence"].
Proof.
  intros (c & lines & _ & Hl & _ & -> & ->)%completed_run.
  rewrite load_calls_notebook, query_calls_notebook. repeat split.
  - exists (loaded_data svc). repeat split. repeat constructor.
  - exists (the_query svc), (query_results svc (hashes w)), lines.
    repeat split.
    + unfold_events. find_event.
    + by apply result_lines_read_text.
    + unfold notebook_lines. rewrite !app_assoc. by eexists.
  - intros H. repeat (apply elem_of_cons in H as [[=]|H]). by apply elem_of_nil in H.
Qed.

Lemma record_keys_witness :
  notebook recorded_services recorded_world = Done recorded_displayed recorded_final ∧
  ∃ data,
    filter is_load
      (calls (new_events recorded_world (Done recorded_displayed recorded_final)))
    = [Load data] ∧
    length data = 3 ∧ Forall (λ r, keys r = ["text"; "embedding"]) data.
Proof.
  assert (notebook recorded_services recorded_world
          = Done recorded_displayed recorded_final) as H
    by (vm_compute; reflexivity).
  split; [exact H|].
  exact (proj1 (record_keys recorded_services recorded_world
                  recorded_displayed recorded_final H)).
Defined.

(** ** C9: batches keep their cardinality *)



(** * Further properties of the notebook *)

(** ** What a run may change *)

Lemma answers_app t1 t2 : answers (t1 ++ t2) = answers t1 ++ answers t2.
Proof. apply omap_app. Qed.

Lemma filter_idemp {A} (P : A → Prop) `{!∀ x, Decision (P x)} (l : list A) :
  filter P (filter P l) = filter P l.
Proof.
  induction l as [|x l IH]; [done|].
  rewrite (filter_cons P x l). destruct (decide (P x)) as [p|p]; [|done].
  rewrite filter_cons, decide_True by done. by f_equal.
Qed.

#[local] Instance footprint_preorder : PreOrder footprint.
Proof.
  split.
  - intros w. split; [by left|]. split; [|done]. exists []. by rewrite app_nil_r.
  - intros w1 w2 w3 (E1 & (t1 & T1 & Y1) & I1 & H1) (E2 & (t2 & T2 & Y2) & I2 & H2).
    split; [|split; [|split]].
    + destruct E1 as [E1|E1], E2 as [E2|E2]; rewrite E2, E1; auto.
      right. by rewrite insert_insert_eq.
    + exists (t1 ++ t2). rewrite T2, T1, Y1, Y2, answers_app, !app_assoc. done.
    + by rewrite I2.
    + by rewrite H2.
Qed.

Lemma footprint_same w w' t :
  environ w' = environ w → tty w' = tty w →
  indices w' = indices w → hashes w' = hashes w →
  trace w' = trace w ++ t → answers t = [] →
  footprint w w'.
Proof.
  intros E Y I H T A. split; [by left|]. split; [|by rewrite I, H].
  exists t. by rewrite T, A, Y.
Qed.

Lemma keeps_ret {A} (I : relation world) `{!PreOrder I} (Q : A → Prop) a :
  Q a → keeps I Q (mret a).
Proof. intros H w. split; [done|]. by intros ? ? [= <- _]. Qed.

Lemma keeps_bind {A B} (I : relation world) `{!PreOrder I}
    (Q : A → Prop) (Q' : B → Prop) (m : script A) (f : A → script B) :
  keeps I Q m → (∀ a, Q a → keeps I Q' (f a)) → keeps I Q' (m ≫= f).
Proof.
  intros Hm Hf w. destruct (Hm w) as [H1 H2].
  unfold mbind, script_bind. destruct (m w) as [a w1|e w1]; [|done].
  destruct (Hf a (H2 _ _ eq_refl) w1) as [H3 H4]. split; [|done].
  by trans w1.
Qed.

Lemma keeps_for_each {A} (I : relation world) `{!PreOrder I} (l : list A) body :
  (∀ x, keeps I (λ _, True) (body x)) → keeps I (λ _, True) (for_each l body).
Proof.
  intros H. induction l as [|x l IH]; [by apply (keeps_ret I)|].
  cbn [for_each]. eapply keeps_bind; [done|apply H|done].
Qed.

Lemma footprint_quiet w w' :
  environ w' = environ w → tty w' = tty w →
  indices w' = indices w → hashes w' = hashes w → trace w' = trace w →
  footprint w w'.
Proof.
  intros E Y I H T. apply (footprint_same w w' []); try done. by rewrite app_nil_r.
Qed.

Lemma other_hashes_new (ks : list string) (data : list (pydict pyvalue)) :
  Forall (λ k, String.prefix "doc:" k = true) ks → other_hashes (zip ks data) = [].
Proof.
  intros H. revert data. induction H as [|k ks Hk _ IH]; intros [|r data]; try done.
  cbn [zip zip_with]. unfold other_hashes. rewrite filter_cons, decide_False.
  - apply IH.
  - cbn. rewrite Hk. by intros [].
Qed.

Section Footprint.

Variable svc : services.

Lemma keeps_environ_get key : keeps footprint (λ _, True) (os_environ_get key).
Proof. intros w. split; [|done]. by eapply footprint_same. Qed.

Lemma keeps_environ_get_default key d :
  keeps footprint (λ _, True) (os_environ_get_default key d).
Proof. intros w. split; [|done]. by eapply footprint_same. Qed.

Lemma keeps_tokenizers_parallelism :
  keeps footprint (λ _, True) (os_environ_setitem "TOKENIZERS_PARALLELISM" "false").
Proof.
  intros w. split; [|done]. split; [by right|]. split; [|done].
  by exists [Ev (OsEnvironSet "TOKENIZERS_PARALLELISM" "false") (Returns VNone)].
Qed.

Lemma keeps_getpass prompt : keeps footprint (λ _, True) (getpass_getpass svc prompt).
Proof.
  intros w. split; [|done]. unfold getpass_getpass.
  destruct (svc_raises svc (Getpass prompt)) as [e|].
  { eapply footprint_same; try done. }
  destruct (tty w) as [|line rest] eqn:E.
  - eapply footprint_same; try done.
  - split; [by left|]. split; [|done].
    exists [Ev (Getpass prompt) (Returns (VStr line))]. by rewrite E.
Qed.

Lemma keeps_or_else a b :
  keeps footprint (λ _, True) a → keeps footprint (λ _, True) b →
  keeps footprint (λ _, True) (or_else a b).
Proof.
  intros Ha Hb. unfold or_else. eapply (keeps_bind footprint); [exact Ha|].
  intros v _. destruct (truthy v); [by apply (keeps_ret footprint)|exact Hb].
Qed.

Lemma keeps_print args : keeps footprint (λ _, True) (print args).
Proof. intros w. split; [|done]. by apply footprint_quiet. Qed.

Lemma keeps_getitem {V} (d : pydict V) key : keeps footprint (λ _, True) (getitem d key).
Proof. intros w. split; [|done]. unfold getitem. by destruct (dict_get d key). Qed.

Lemma keeps_item {A} (l : list A) i : keeps footprint (λ _, True) (item l i).
Proof. intros w. split; [|done]. unfold item. by destruct (l !! i). Qed.

(** A call into the library leaves the footprint it should if its body
    does. *)
Lemma keeps_invoke {A} c show (body : world → exn + A * world) (Q : A → Prop) :
  is_library_call c = true →
  (∀ w a w0, body w = inr (a, w0) →
     environ w0 = environ w ∧ tty w0 = tty w ∧ trace w0 = trace w ∧
     other_indices (indices w0) = other_indices (indices w) ∧
     other_hashes (hashes w0) = other_hashes (hashes w) ∧ Q a) →
  keeps footprint Q (invoke svc c show body).
Proof.
  intros Hc Hb w. unfold invoke.
  assert (∀ r, answers [Ev c r] = []) as Ha by (intros r; by destruct c).
  destruct (svc_raises svc c) as [e|].
  { split; [|done]. by eapply footprint_same. }
  destruct (body w) as [e|[a w0]] eqn:E.
  { split; [|done]. by eapply footprint_same. }
  destruct (Hb _ _ _ E) as (E1 & E2 & E3 & E4 & E5 & HQ).
  split; [|by intros ? ? [= <- _]].
  split; [by left|]. split; [|done].
  exists [Ev c (Returns (show a))]. cbn [final trace tty record_event].
  by rewrite E3, Ha, E2.
Qed.

Ltac keeps_library :=
  apply keeps_invoke; [done|]; intros ? ? ?;
  repeat case_match; intros [=]; by subst.

Lemma keeps_new c m a : keeps footprint (λ _, True) (new svc c m a).
Proof. keeps_library. Qed.

Lemma keeps_embed v text it : keeps footprint (λ _, True) (embed svc v text it).
Proof. keeps_library. Qed.

Lemma keeps_embed_many v texts b :
  keeps footprint (λ _, True) (embed_many svc v texts b).
Proof. keeps_library. Qed.

Lemma keeps_aembed_many v texts : keeps footprint (λ _, True) (aembed_many svc v texts).
Proof. keeps_library. Qed.

Lemma keeps_from_yaml :
  keeps footprint (λ i, i = the_index) (SearchIndex_from_yaml svc "./schema.yaml").
Proof. keeps_library. Qed.

Lemma keeps_connect i url : keeps footprint (λ _, True) (SearchIndex_connect svc i url).
Proof. keeps_library. Qed.

Lemma keeps_shell cmd : keeps footprint (λ _, True) (shell svc cmd).
Proof. keeps_library. Qed.

Lemma keeps_query i q : keeps footprint (λ _, True) (SearchIndex_query svc i q).
Proof. keeps_library. Qed.

Lemma keeps_create : keeps footprint (λ _, True) (SearchIndex_create svc the_index true).
Proof.
  apply keeps_invoke; [done|]. intros w a w0 [= <- <-]. repeat split.
  cbn [indices set_indices]. unfold other_indices.
  change (index_name (index (schema the_index))) with "vectorizers".
  rewrite filter_cons, decide_False by (intros Hn; by apply Hn).
  apply filter_idemp.
Qed.

Lemma keeps_load data : keeps footprint (λ _, True) (SearchIndex_load svc the_index data).
Proof.
  apply keeps_invoke; [done|]. intros w a w0 H.
  case_match; [|discriminate]. injection H as <- <-. repeat split.
  cbn [hashes set_hashes]. unfold other_hashes at 1. rewrite filter_app.
  fold (other_hashes (hashes w)).
  fold (other_hashes (zip ((λ k, new_key svc the_index (length (hashes w) + k))
                             <$> seq 0 (length data)) data)).
  rewrite other_hashes_new, app_nil_r; [done|].
  apply Forall_fmap, Forall_forall. intros k _. apply (new_key_prefix svc the_index).
Qed.

Lemma keeps_delete : keeps footprint (λ _, True) (SearchIndex_delete svc the_index).
Proof.
  apply keeps_invoke; [done|]. intros w a w0 H.
  case_decide; [|discriminate]. injection H as <- <-. repeat split.
  - apply filter_idemp.
  - apply filter_idemp.
Qed.

Lemma keeps_cell_23 : keeps footprint (λ i, i = the_index) (cell_23 svc).
Proof.
  unfold cell_23. eapply (keeps_bind footprint); [apply keeps_from_yaml|].
  intros i ->. eapply (keeps_bind footprint); [apply keeps_connect|]. intros _ _.
  eapply (keeps_bind footprint); [apply keeps_create|]. intros _ _.
  by apply (keeps_ret footprint).
Qed.

Create HintDb keeps.
Hint Resolve keeps_environ_get keeps_environ_get_default keeps_tokenizers_parallelism
  keeps_getpass keeps_or_else keeps_print keeps_getitem keeps_item keeps_new keeps_embed
  keeps_aembed_many keeps_connect keeps_shell keeps_query keeps_cell_23
  keeps_load keeps_delete : keeps.

(** One statement of a cell at a time, the first part of a sequence before
    the rest. *)
Ltac keeps_go :=
  lazymatch goal with
  | |- keeps _ _ (_ ≫= _) =>
      eapply (keeps_bind footprint);
      [keeps_go | intros ? ?; cbn beta in *; simplify_eq; keeps_go]
  | |- keeps _ _ (let '(_, _) := ?p in _) => destruct p; keeps_go
  | |- keeps _ _ (mret _) => apply (keeps_ret footprint (λ _, True)); exact I
  | |- keeps _ _ (for_each _ _) => apply (keeps_for_each footprint); intros ?; keeps_go
  | |- keeps _ _ (embed_many ?s ?v ?t ?b) => exact (keeps_embed_many v t b)
  | |- keeps _ _ _ => solve [auto with keeps]
  end.

(** The footprint of the notebook, whether the run reaches the end or not. *)
Lemma keeps_notebook : keeps footprint (λ _, True) (notebook svc).
Proof.
  unfold notebook, openai_section, azure_section, huggingface_section,
    vertexai_section, cohere_section, index_section,
    cell_01, cell_04, cell_05, cell_06, cell_07, cell_09, cell_10, cell_11,
    cell_13, cell_14, cell_16, cell_18, cell_20, cell_24, cell_25, cell_26, cell_27.
  keeps_go.
Qed.

End Footprint.

(** ** What a completed run has read from the terminal *)

Lemma answers_notebook svc env before c :
  answers (notebook_events svc env before c) = typed_in env c.
Proof.
  unfold typed_in, prompted, credential_values.
  cbn [zip zip_with omap list_omap fst snd].
  unfold_events. unfold lookup_events.
  generalize (truthy (env !! "OPENAI_API_KEY")),
    (truthy (env !! "AZURE_OPENAI_API_KEY")),
    (truthy (env !! "OPENAI_API_VERSION")),
    (truthy (env !! "AZURE_OPENAI_ENDPOINT")),
    (truthy (env !! "GCP_PROJECT_ID")),
    (truthy (env !! "GCP_LOCATION")),
    (truthy (env !! "GOOGLE_APPLICATION_CREDENTIALS")),
    (truthy (env !! "COHERE_API_KEY")).
  intros [?|] [?|] [?|] [?|] [?|] [?|] [?|] [?|]; reflexivity.
Qed.

(** ** The world a completed run leaves *)

Section Final.

Variable svc : services.

Lemma index_section_final w o w' :
  index_section svc hf three_sentences (loaded_embeddings svc) w = Done o w' →
  environ w' = environ w ∧
  indices w' = other_indices (indices w) ∧
  hashes w' = other_hashes (hashes w).
Proof.
  intros H. unfold index_section, cell_23, cell_24, cell_25, cell_26, cell_27 in H.
  repeat run_step.
  match goal with
  | H : for_each _ _ _ = Done _ _ |- _ =>
      apply print_results_done in H as (lines & Hl & ->)
  end.
  repeat run_step.
  cbn [environ stdout indices hashes trace record_event set_stdout set_environ
       set_indices set_hashes].
  split; [done|]. split.
  - change (index_name (index (schema the_index))) with "vectorizers".
    fold (other_indices (indices w)).
    unfold other_indices at 1.
    rewrite filter_cons, decide_False by (intros Hn; by apply Hn).
    apply filter_idemp.
  - change (prefix (index (schema the_index)) +:+ ":") with "doc:".
    fold (other_hashes (hashes w ++ zip (loaded_keys svc (hashes w)) (loaded_data svc))).
    unfold other_hashes at 1. rewrite filter_app.
    fold (other_hashes (hashes w)).
    fold (other_hashes (zip (loaded_keys svc (hashes w)) (loaded_data svc))).
    rewrite other_hashes_new, app_nil_r; [done|].
    apply Forall_fmap, Forall_forall. intros k _. apply (new_key_prefix svc the_index).
Qed.

Lemma notebook_final w d w' :
  notebook svc w = Done d w' →
  environ w' = <["TOKENIZERS_PARALLELISM" := "false"]> (environ w) ∧
  indices w' = other_indices (indices w) ∧
  hashes w' = other_hashes (hashes w).
Proof.
  intros H. unfold notebook, cell_01 in H. repeat run_step.
  match goal with H : openai_section _ _ = _ |- _ =>
    apply openai_section_done in H as (k1 & _ & [= -> ->] & E1 & I1 & H1 & _) end.
  match goal with H : azure_section _ _ = _ |- _ =>
    apply azure_section_done in H
      as (k2 & k3 & k4 & _ & _ & _ & [= -> ->] & E2 & I2 & H2 & _) end.
  match goal with H : huggingface_section _ _ _ = _ |- _ =>
    apply huggingface_section_done in H as ([= -> -> ->] & E3 & I3 & H3 & _) end.
  match goal with H : vertexai_section _ _ = _ |- _ =>
    apply vertexai_section_done in H
      as (k5 & k6 & k7 & _ & _ & _ & -> & E4 & I4 & H4 & _) end.
  match goal with H : cohere_section _ _ = _ |- _ =>
    apply cohere_section_done in H as (k8 & _ & E5 & I5 & H5 & _) end.
  match goal with H : index_section _ _ _ _ _ = _ |- _ =>
    apply index_section_final in H as (E6 & I6 & H6) end.
  rewrite E6, E5, E4, E3, E2, E1, I6, I5, I4, I3, I2, I1, H6, H5, H4, H3, H2, H1.
  done.
Qed.

End Final.

(** ** Running forward *)

Lemma ends_bind {A B} (m : script A) (f : A → script B) w Q E :
  ends m w (λ a w1, ends (f a) w1 Q E) E → ends (m ≫= f) w Q E.
Proof. unfold ends, mbind, script_bind. by destruct (m w). Qed.

Lemma ends_ret {A} (a : A) w (Q : A → world → Prop) E : Q a w → ends (mret a) w Q E.
Proof. done. Qed.

Lemma ends_mono {A} (m : script A) w (Q Q' : A → world → Prop) (E E' : exn → world → Prop) :
  ends m w Q E → (∀ a w', Q a w' → Q' a w') → (∀ e w', E e w' → E' e w') →
  ends m w Q' E'.
Proof. unfold ends. destruct (m w); eauto. Qed.

Lemma ends_print args w (Q : () → world → Prop) E :
  Q tt (set_stdout (λ out, out ++ [String.concat " " args]) w) → ends (print args) w Q E.
Proof. done. Qed.

Lemma ends_item {A} (l : list A) i x w (Q : A → world → Prop) E :
  l !! i = Some x → Q x w → ends (item l i) w Q E.
Proof. intros H HQ. unfold ends, item. by rewrite H. Qed.

Lemma ends_environ_default key d w (Q : string → world → Prop) E :
  Q (default d (environ w !! key))
    (record_event (OsEnvironGet key (Some d))
       (Returns (VStr (default d (environ w !! key)))) w) →
  ends (os_environ_get_default key d) w Q E.
Proof. done. Qed.

Lemma ends_environ_setitem key v w (Q : () → world → Prop) E :
  Q tt (record_event (OsEnvironSet key v) (Returns VNone) (set_environ (insert key v) w)) →
  ends (os_environ_setitem key v) w Q E.
Proof. done. Qed.

(** [os.environ.get(key) or getpass.getpass(prompt)]: the value is there, or
    it is typed, or there is nothing to read, or the prompt is refused. *)
Lemma ends_lookup svc key prompt w (Q : string → world → Prop) (E : exn → world → Prop) :
  (∀ v w1, advances (unset (environ w) key) w w1 → Q v w1) →
  (unset (environ w) key = 1 → tty w = [] → ∀ w1, E EOFError w1) →
  (unset (environ w) key = 1 →
   ∀ e w1, svc_raises svc (Getpass prompt) = Some e → E e w1) →
  ends (or_else (os_environ_get key) (getpass_getpass svc prompt)) w Q E.
Proof.
  intros HQ HE HR. unfold ends, or_else, os_environ_get, getpass_getpass, unset in *.
  unfold mbind, script_bind. cbn [tty record_event]. cbn zeta.
  destruct (truthy (environ w !! key)) as [s|].
  - apply HQ. by repeat split.
  - destruct (svc_raises svc (Getpass prompt)) as [e|]; [by apply HR|].
    change (tty (record_event (OsEnvironGet key None)
                  (Returns (VOptStr (environ w !! key))) w)) with (tty w).
    destruct (tty w) as [|line rest] eqn:Y.
    + by apply HE.
    + apply HQ. repeat split. cbn. by rewrite Y.
Qed.

Lemma prompt_needed env key prompt :
  (key, prompt) ∈ prompted → unset env key = 1 → prompt ∈ prompts_needed env.
Proof.
  intros Hp Hu. unfold prompts_needed. apply list_elem_of_omap.
  exists (key, prompt). split; [done|].
  unfold prompt_if_missing, unset in *. cbn [fst snd].
  by destruct (truthy (env !! key)).
Qed.

Lemma prompts_needed_insert env v :
  prompts_needed (<["TOKENIZERS_PARALLELISM" := v]> env) = prompts_needed env.
Proof.
  unfold prompts_needed, prompted, prompt_if_missing.
  cbn [omap list_omap fst snd]. by rewrite !lookup_insert_ne by done.
Qed.

Lemma unset_insert env k v key : k ≠ key → unset (<[k := v]> env) key = unset env key.
Proof. intros ?. unfold unset. by rewrite lookup_insert_ne. Qed.

Lemma prompts_needed_length env :
  length (prompts_needed env)
  = unset env "OPENAI_API_KEY"
    + (unset env "AZURE_OPENAI_API_KEY" + unset env "OPENAI_API_VERSION"
       + unset env "AZURE_OPENAI_ENDPOINT")
    + (unset env "GCP_PROJECT_ID" + unset env "GCP_LOCATION"
       + unset env "GOOGLE_APPLICATION_CREDENTIALS")
    + unset env "COHERE_API_KEY".
Proof.
  unfold prompts_needed, prompted, prompt_if_missing, unset.
  cbn [omap list_omap fst snd].
  generalize (truthy (env !! "OPENAI_API_KEY")),
    (truthy (env !! "AZURE_OPENAI_API_KEY")),
    (truthy (env !! "OPENAI_API_VERSION")),
    (truthy (env !! "AZURE_OPENAI_ENDPOINT")),
    (truthy (env !! "GCP_PROJECT_ID")),
    (truthy (env !! "GCP_LOCATION")),
    (truthy (env !! "GOOGLE_APPLICATION_CREDENTIALS")),
    (truthy (env !! "COHERE_API_KEY")).
  intros [?|] [?|] [?|] [?|] [?|] [?|] [?|] [?|]; reflexivity.
Qed.

(** *** What the query returns can be printed *)

Lemma insert_by_Forall {A} (P : A → Prop) score x (l : list A) :
  P x → Forall P l → Forall P (insert_by score x l).
Proof.
  intros Hx Hl. induction Hl as [|y l Hy Hl IH]; cbn [insert_by].
  - by repeat constructor.
  - destruct (decimal_leb (score y) (score x)); by repeat constructor.
Qed.

Lemma sort_by_Forall {A} (P : A → Prop) score (l : list A) :
  Forall P l → Forall P (sort_by score l).
Proof.
  intros H. unfold sort_by. apply Forall_reverse in H.
  induction H as [|x l' Hx Hl IH]; [constructor|].
  cbn [foldr]. by apply insert_by_Forall.
Qed.

Lemma records_storable sentences embeddings :
  forallb (λ r : pydict pyvalue, forallb storable r.*2) (records sentences embeddings) = true.
Proof.
  unfold records. revert embeddings.
  induction sentences as [|t ts IH]; intros [|v vs]; try done.
  cbn. apply IH.
Qed.

Lemma records_have_text ks sentences embeddings :
  Forall (λ h, has_text h = true) (zip ks (records sentences embeddings)).
Proof.
  unfold records. revert ks embeddings.
  induction sentences as [|t ts IH]; intros [|k ks] [|v vs]; try by constructor.
  cbn [zip zip_with fmap list_fmap]. constructor; [|apply IH].
  unfold has_text. by case_match.
Qed.

Lemma scored_printable svc q hs :
  vector_field_name q = "embedding" → return_fields q = ["text"] →
  Forall (λ h, has_text h = true) hs →
  Forall (λ s, printable (document q s)) (scored svc the_index q hs).
Proof.
  intros Hv Hr H. unfold scored. rewrite Hv.
  induction H as [|h hs Hh _ IH]; [constructor|].
  cbn [omap list_omap]. unfold has_text in Hh.
  destruct (indexed_vector the_index "embedding" h) as [v|];
    cbn [fmap option_fmap option_map]; [|exact IH].
  constructor; [|exact IH].
  unfold printable, document. rewrite Hr. cbn [snd fst omap list_omap].
  destruct (dict_get h.2 "text") as [[t| |]|]; try discriminate.
  split; by eexists.
Qed.

Lemma results_printable svc q hs n :
  vector_field_name q = "embedding" → return_fields q = ["text"] →
  Forall (λ h, has_text h = true) hs →
  Forall printable (document q <$> take n (sort_by fst (scored svc the_index q hs))).
Proof.
  intros Hv Hr H. apply Forall_fmap, Forall_take, sort_by_Forall.
  by apply scored_printable.
Qed.

Lemma results_have_distance q (l : list (decimal * (string * pydict pyvalue))) :
  Forall (λ doc, is_Some (dict_get doc "vector_distance")) (document q <$> l).
Proof. apply Forall_fmap, Forall_forall. intros s _. by eexists. Qed.

(** The loop of cell 26 over documents that all carry a distance: it prints
    them all, or stops at one without text with [KeyError]. *)
Lemma ends_print_results_or_raise (docs : list (pydict string)) w
    (Q : () → world → Prop) (E : exn → world → Prop) :
  Forall (λ doc, is_Some (dict_get doc "vector_distance")) docs →
  (Forall printable docs ∨ ∀ w1, E (KeyError "text") w1) →
  (∀ w1, environ w1 = environ w → tty w1 = tty w → indices w1 = indices w →
         hashes w1 = hashes w → Q tt w1) →
  ends (for_each docs (λ doc,
          text ← getitem doc "text";
          vector_distance ← getitem doc "vector_distance";
          print [text; vector_distance])) w Q E.
Proof.
  intros H. revert w. induction H as [|doc docs [d Hd] _ IH]; intros w HE HQ.
  - by apply HQ.
  - cbn [for_each]. apply ends_bind. unfold getitem.
    destruct (dict_get doc "text") as [t|] eqn:Ht.
    + rewrite Hd. unfold ends at 1. cbn. apply IH.
      * destruct HE as [HE|HE]; [left; by inversion HE|by right].
      * intros w1 E1 E2 E3 E4. by apply HQ.
    + destruct HE as [HE|HE]; [|apply HE].
      inversion HE as [|? ? [[t Ht'] _]]. congruence.
Qed.

Section Forward.

Variable svc : services.
Hypothesis library_answers_svc : library_answers svc.

Lemma ends_invoke {A} c show (body : world → exn + A * world) w a w0
    (Q : A → world → Prop) E :
  is_library_call c = true →
  body w = inr (a, w0) → Q a (record_event c (Returns (show a)) w0) →
  ends (invoke svc c show body) w Q E.
Proof.
  intros Hc Hb HQ. unfold ends, invoke. by rewrite library_answers_svc, Hb.
Qed.

Lemma ends_new c m a w (Q : vectorizer → world → Prop) E :
  Q {| class := c; model := m; api_config := a |}
    (record_event (Init {| class := c; model := m; api_config := a |})
       (Returns VObject) w) →
  ends (new svc c m a) w Q E.
Proof. intros HQ. eapply ends_invoke; [reflexivity|reflexivity|exact HQ]. Qed.

Lemma ends_embed v text it w (Q : list pyfloat → world → Prop) E :
  Q (embedding svc v text it)
    (record_event (Embed v text it) (Returns (VVector (embedding svc v text it))) w) →
  ends (embed svc v text it) w Q E.
Proof. intros HQ. eapply ends_invoke; [reflexivity|reflexivity|exact HQ]. Qed.

Lemma ends_embed_many v texts b w (Q : list (embedded b) → world → Prop) E :
  Q ((λ t, serialise b (embedding svc v t None)) <$> texts)
    (record_event (EmbedMany v texts b)
       (Returns (show_embedded b ((λ t, serialise b (embedding svc v t None)) <$> texts)))
       w) →
  ends (embed_many svc v texts b) w Q E.
Proof. intros HQ. eapply ends_invoke; [reflexivity|reflexivity|exact HQ]. Qed.

Lemma ends_aembed_many v texts w (Q : list (list pyfloat) → world → Prop) E :
  Q ((λ t, embedding svc v t None) <$> texts)
    (record_event (AEmbedMany v texts)
       (Returns (VVectors ((λ t, embedding svc v t None) <$> texts))) w) →
  ends (aembed_many svc v texts) w Q E.
Proof. intros HQ. eapply ends_invoke; [reflexivity|reflexivity|exact HQ]. Qed.

Lemma ends_from_yaml w (Q : SearchIndex → world → Prop) E :
  Q the_index (record_event (FromYaml "./schema.yaml") (Returns VObject) w) →
  ends (SearchIndex_from_yaml svc "./schema.yaml") w Q E.
Proof. intros HQ. eapply ends_invoke; [reflexivity|reflexivity|exact HQ]. Qed.

Lemma ends_connect i url w (Q : () → world → Prop) E :
  Q tt (record_event (Connect url) (Returns VNone) w) →
  ends (SearchIndex_connect svc i url) w Q E.
Proof. intros HQ. eapply ends_invoke; [reflexivity|reflexivity|exact HQ]. Qed.

Lemma ends_create w (Q : () → world → Prop) E :
  Q tt (record_event (Create true) (Returns VNone)
          (set_indices (λ l, "vectorizers" :: other_indices l) w)) →
  ends (SearchIndex_create svc the_index true) w Q E.
Proof. intros HQ. eapply ends_invoke; [reflexivity|reflexivity|exact HQ]. Qed.

Lemma ends_shell cmd w (Q : () → world → Prop) E :
  Q tt (record_event (Shell cmd) (Returns VNone)
          (set_stdout (λ out, out ++ svc_shell svc cmd) w)) →
  ends (shell svc cmd) w Q E.
Proof. intros HQ. eapply ends_invoke; [reflexivity|reflexivity|exact HQ]. Qed.

Lemma ends_load sentences embeddings w (Q : list string → world → Prop) E :
  (∀ ks, Q ks (record_event (Load (records sentences embeddings)) (Returns (VStrs ks))
                 (set_hashes (λ h, h ++ zip ks (records sentences embeddings)) w))) →
  ends (SearchIndex_load svc the_index (records sentences embeddings)) w Q E.
Proof.
  intros HQ. eapply ends_invoke; [reflexivity| |apply HQ]. by rewrite records_storable.
Qed.

Lemma ends_query q w (Q : list (pydict string) → world → Prop) E :
  "vectorizers" ∈ indices w →
  Q (document q <$> take (num_results q) (sort_by fst (scored svc the_index q (hashes w))))
    (record_event (Query q)
       (Returns (VDocs (document q <$> take (num_results q)
                          (sort_by fst (scored svc the_index q (hashes w)))))) w) →
  ends (SearchIndex_query svc the_index q) w Q E.
Proof.
  intros Hi HQ. eapply ends_invoke; [reflexivity| |apply HQ]. by rewrite decide_True.
Qed.

Lemma ends_delete w (Q : () → world → Prop) E :
  "vectorizers" ∈ indices w →
  (∀ w1, environ w1 = environ w → tty w1 = tty w → Q tt w1) →
  ends (SearchIndex_delete svc the_index) w Q E.
Proof.
  intros Hi HQ. eapply ends_invoke; [reflexivity|by rewrite decide_True|]. by apply HQ.
Qed.


(** One statement of a cell at a time. *)
Ltac ends_step :=
  lazymatch goal with
  | |- ends (_ ≫= _) _ _ _ => apply ends_bind
  | |- ends (mret _) _ _ _ => apply ends_ret
  | |- ends (print _) _ _ _ => apply ends_print
  | |- ends (or_else _ _) _ _ _ =>
      apply ends_lookup; [intros ? ? ?|intros ? ? ?|intros ? ? ? ?]
  | |- ends (os_environ_get_default _ _) _ _ _ => apply ends_environ_default
  | |- ends (os_environ_setitem _ _) _ _ _ => apply ends_environ_setitem
  | |- ends (new _ _ _ _) _ _ _ => apply ends_new
  | |- ends (embed _ _ _ _) _ _ _ => apply ends_embed
  | |- ends (embed_many _ ?v ?t ?b) _ _ _ => apply (ends_embed_many v t b)
  | |- ends (aembed_many _ _ _) _ _ _ => apply ends_aembed_many
  | |- ends (item _ _) _ _ _ => eapply ends_item; [reflexivity|]
  | |- ends (SearchIndex_from_yaml _ _) _ _ _ => apply ends_from_yaml
  | |- ends (SearchIndex_connect _ _ _) _ _ _ => apply ends_connect
  | |- ends (SearchIndex_create _ _ _) _ _ _ => apply ends_create
  | |- ends (shell _ _) _ _ _ => apply ends_shell
  end; cbv beta iota.

(** What is left to show once a section has been run through. *)
Ltac ends_finish :=
  unfold advances, starved in *;
  cbn [environ tty indices hashes record_event set_stdout set_environ set_indices
       set_hashes fst snd] in *;
  repeat match goal with H : _ ∧ _ |- _ => destruct H end;
  repeat match goal with H : environ _ = environ _ |- _ => rewrite H in * end;
  repeat match goal with H : tty _ = [] |- _ => rewrite H in * end;
  cbn [length] in *;
  lazymatch goal with
  | H : svc_raises _ (Getpass ?p) = Some ?e |- _ ∨ refused _ _ ?e =>
      right; exists p; split; [|exact H];
      eapply prompt_needed; [|eassumption];
      unfold prompted; repeat first [apply list_elem_of_here | apply list_elem_of_further]
  | |- _ ∨ refused _ _ _ => left; repeat split; try done; try congruence; try lia
  | |- _ => repeat split; try done; try congruence; try lia
  end.

Lemma openai_section_ends w :
  ends (openai_section svc) w
    (λ _ w', advances (unset (environ w) "OPENAI_API_KEY") w w')
    (starved svc (unset (environ w) "OPENAI_API_KEY") w).
Proof.
  unfold openai_section, cell_04, cell_05, cell_06, cell_07.
  repeat ends_step; ends_finish.
Qed.

Lemma azure_section_ends w :
  ends (azure_section svc) w
    (λ o w', o.1 = three_sentences ∧
       advances (unset (environ w) "AZURE_OPENAI_API_KEY"
                 + unset (environ w) "OPENAI_API_VERSION"
                 + unset (environ w) "AZURE_OPENAI_ENDPOINT") w w')
    (starved svc (unset (environ w) "AZURE_OPENAI_API_KEY"
              + unset (environ w) "OPENAI_API_VERSION"
              + unset (environ w) "AZURE_OPENAI_ENDPOINT") w).
Proof.
  unfold azure_section, cell_09, cell_10, cell_11.
  repeat ends_step; ends_finish.
Qed.

Lemma huggingface_section_ends w (E : exn → world → Prop) :
  ends (huggingface_section svc three_sentences) w
    (λ o w', o.1 = (hf, loaded_embeddings svc) ∧
       environ w' = <["TOKENIZERS_PARALLELISM" := "false"]> (environ w) ∧
       indices w' = indices w ∧ hashes w' = hashes w ∧ tty w' = tty w)
    E.
Proof.
  unfold huggingface_section, cell_13, cell_14.
  repeat ends_step; ends_finish.
Qed.

Lemma vertexai_section_ends w :
  ends (vertexai_section svc) w
    (λ _ w', advances (unset (environ w) "GCP_PROJECT_ID"
                       + unset (environ w) "GCP_LOCATION"
                       + unset (environ w) "GOOGLE_APPLICATION_CREDENTIALS") w w')
    (starved svc (unset (environ w) "GCP_PROJECT_ID"
              + unset (environ w) "GCP_LOCATION"
              + unset (environ w) "GOOGLE_APPLICATION_CREDENTIALS") w).
Proof.
  unfold vertexai_section, cell_16.
  repeat ends_step; ends_finish.
Qed.

Lemma cohere_section_ends w :
  ends (cohere_section svc) w
    (λ _ w', advances (unset (environ w) "COHERE_API_KEY") w w')
    (starved svc (unset (environ w) "COHERE_API_KEY") w).
Proof.
  unfold cohere_section, cell_18, cell_20.
  repeat ends_step; ends_finish.
Qed.

Lemma index_section_ends w :
  ends (index_section svc hf three_sentences (loaded_embeddings svc)) w
    (λ _ _, True) (λ e _, e = KeyError "text" ∧ forallb has_text (hashes w) = false).
Proof.
  unfold index_section, cell_23, cell_24, cell_25, cell_26, cell_27.
  repeat ends_step.
  apply (ends_load three_sentences (loaded_embeddings svc)). intros ks.
  repeat ends_step.
  apply ends_query; [apply list_elem_of_here|].
  repeat ends_step.
  apply ends_print_results_or_raise.
  { apply results_have_distance. }
  { destruct (forallb has_text (hashes w)) eqn:R; [left|by right].
    apply results_printable; [done|done|].
    cbn [hashes record_event set_hashes set_stdout set_indices].
    apply Forall_app. split; [|apply records_have_text].
    apply Forall_forall. intros h Hh%list_elem_of_In.
    by apply (proj1 (forallb_forall _ _) R). }
  intros w1 E1 E2 E3 E4. repeat ends_step.
  apply ends_delete; [|done].
  rewrite E3. apply list_elem_of_here.
Qed.

(** With no failure in the library, the notebook reaches its end when the
    terminal holds a line for each prompt and no prompt is refused, unless
    the index already holds a hash without text and cell 26 ends in
    [KeyError]; with fewer lines it ends in [EOFError] or in a refusal. *)
Lemma notebook_ends w :
  ends (notebook svc) w
    (λ _ _, (length (prompts_needed (environ w)) ≤ length (tty w))%nat)
    (λ e _, (e = EOFError ∧ (length (tty w) < length (prompts_needed (environ w)))%nat)
            ∨ (e = KeyError "text"
               ∧ (length (prompts_needed (environ w)) ≤ length (tty w))%nat
               ∧ forallb has_text (hashes w) = false)
            ∨ refused svc (environ w) e).
Proof.
  rewrite prompts_needed_length.
  unfold notebook, cell_01. repeat ends_step.
  eapply ends_mono; [apply openai_section_ends| |].
  2: { intros e w1 [[-> H]|H]; [left; split; [done|lia]|by right; right]. }
  intros [o5 o6] w1 (E1 & I1 & H1 & Y1). cbv beta iota. ends_step.
  eapply ends_mono; [apply azure_section_ends| |].
  2: { intros e w2 [[-> H]|H]; [left; split; [done|]|right; right].
       - rewrite E1 in H. lia.
       - by rewrite E1 in H. }
  intros [sentences o11] w2 (Hs & E2 & I2 & H2 & Y2). cbn [fst] in Hs. subst sentences.
  rewrite E1 in Y2. cbv beta iota. ends_step.
  eapply ends_mono; [apply huggingface_section_ends| |intros e w3 H; exact H].
  intros [[v embeddings] o13] w3 (Hs & E3 & I3 & H3 & Y3). cbn [fst] in Hs.
  injection Hs as -> ->. cbv beta iota. ends_step.
  eapply ends_mono; [apply vertexai_section_ends| |].
  2: { intros e w4 [[-> H]|H]; [left; split; [done|]|right; right].
       - rewrite E3, E2, E1, !unset_insert, Y3 in H by done. lia.
       - unfold refused in *. by rewrite E3, E2, E1, prompts_needed_insert in H. }
  intros o16 w4 (E4 & I4 & H4 & Y4).
  rewrite E3, E2, E1, !unset_insert, Y3 in Y4 by done. ends_step.
  eapply ends_mono; [apply cohere_section_ends| |].
  2: { intros e w5 [[-> H]|H]; [left; split; [done|]|right; right].
       - rewrite E4, E3, E2, E1, !unset_insert in H by done. lia.
       - unfold refused in *. by rewrite E4, E3, E2, E1, prompts_needed_insert in H. }
  intros _ w5 (E5 & I5 & H5 & Y5).
  rewrite E4, E3, E2, E1, !unset_insert in Y5 by done. ends_step.
  eapply ends_mono; [apply index_section_ends| |].
  - intros o25 w6 _. ends_step. lia.
  - intros e w6 [-> H]. right. left. split; [done|]. split; [lia|].
    by rewrite H5, H4, H3, H2, H1 in H.
Qed.

End Forward.

(** ** Lengths and states *)

Lemma typed_in_length env c : length (typed_in env c) = length (prompts_needed env).
Proof.
  unfold typed_in, prompts_needed, prompted, prompt_if_missing, credential_values.
  cbn [zip zip_with omap list_omap fst snd].
  generalize (truthy (env !! "OPENAI_API_KEY")),
    (truthy (env !! "AZURE_OPENAI_API_KEY")),
    (truthy (env !! "OPENAI_API_VERSION")),
    (truthy (env !! "AZURE_OPENAI_ENDPOINT")),
    (truthy (env !! "GCP_PROJECT_ID")),
    (truthy (env !! "GCP_LOCATION")),
    (truthy (env !! "GOOGLE_APPLICATION_CREDENTIALS")),
    (truthy (env !! "COHERE_API_KEY")).
  intros [?|] [?|] [?|] [?|] [?|] [?|] [?|] [?|]; reflexivity.
Qed.

Lemma other_hashes_have_text hs : forallb has_text (other_hashes hs) = true.
Proof.
  apply forallb_forall. intros h Hh%list_elem_of_In.
  apply list_elem_of_filter in Hh as [Hh _].
  unfold has_text, indexed_vector.
  change (prefix (index (schema the_index)) +:+ ":") with "doc:".
  by destruct (String.prefix "doc:" h.1).
Qed.

(** The new events of a run and the lines it took from the terminal. *)
Lemma terminal_read svc w :
  tty w = answers (new_events w (notebook svc w)) ++ tty (final (notebook svc w)).
Proof.
  destruct (keeps_notebook svc w) as [(_ & (t & Ht & Hy) & _) _].
  unfold new_events. by rewrite Ht, drop_app_length.
Qed.

(** ** The properties *)

(** X1.  The notebook runs to its end whenever no call into the library or
    the shell fails and the runtime refuses no prompt, the terminal holds at
    least one line for each of the eight variables that is absent or empty,
    and every hash that Redis already holds in the index carries a text
    under [text]: none of the notebook's own statements ([embeddings[0]],
    [doc["text"]], [doc["vector_distance"]], [getpass]) fails then. *)
Theorem notebook_completes svc w :
  no_failure svc →
  (length (prompts_needed (environ w)) ≤ length (tty w))%nat →
  forallb has_text (hashes w) = true →
  ∃ d w', notebook svc w = Done d w'.
Proof.
  intros Hs Hn Ht. pose proof (notebook_ends svc (λ c _, Hs c) w) as H.
  unfold ends in H. destruct (notebook svc w) as [d w'|e w']; [eauto|].
  destruct H as [[_ H]|[(_ & _ & H)|(p & _ & H)]]; [lia|congruence|].
  by rewrite Hs in H.
Qed.

Lemma notebook_completes_witness :
  no_failure plain_services ∧
  (length (prompts_needed (environ bare_world)) ≤ length (tty bare_world))%nat ∧
  forallb has_text (hashes bare_world) = true ∧
  ∃ d w', notebook plain_services bare_world = Done d w'.
Proof.
  assert (no_failure plain_services) as H1 by (intros c; reflexivity).
  assert (length (prompts_needed (environ bare_world)) ≤ length (tty bare_world))%nat
    as H2 by (vm_compute; lia).
  assert (forallb has_text (hashes bare_world) = true) as H3 by reflexivity.
  split; [exact H1|]. split; [exact H2|]. split; [exact H3|].
  exact (notebook_completes plain_services bare_world H1 H2 H3).
Defined.

(** X2.  A run of the notebook that reaches its end has taken from the
    terminal exactly the values of the variables that are absent or empty,
    in the order of the cells and from the front; these lines, with the
    values of the variables that are set, are the credentials the clients
    are built with, and nothing else is read. *)
Theorem terminal_input svc w d w' :
  notebook svc w = Done d w' →
  ∃ c, from_environ (environ w) c ∧
       instantiated (calls (new_events w (Done d w')))
       = [oai c; az_oai (environ w) c; hf; vtx c; co c] ∧
       tty w = typed_in (environ w) c ++ tty w' ∧
       length (typed_in (environ w) c) = length (prompts_needed (environ w)).
Proof.
  intros H. pose proof (terminal_read svc w) as Hy. rewrite H in Hy. cbn [final] in Hy.
  apply completed_run in H as (c & lines & Hc & _ & _ & _ & Ht).
  rewrite Ht in *. exists c. split; [done|].
  rewrite instantiated_notebook, <- answers_notebook with (svc := svc) (before := hashes w).
  split; [done|]. split; [done|].
  rewrite answers_notebook. apply typed_in_length.
Qed.

Lemma terminal_input_witness :
  ∃ d w', notebook plain_services bare_world = Done d w' ∧
    ∃ c, tty bare_world = typed_in (environ bare_world) c ++ tty w'.
Proof.
  assert (∃ d w', notebook plain_services bare_world = Done d w') as (d & w' & H)
    by (eexists _, _; vm_compute; reflexivity).
  exists d, w'. split; [exact H|].
  destruct (terminal_input plain_services bare_world d w' H) as (c & _ & _ & Hy & _).
  exists c. exact Hy.
Defined.

(** X3.  When no call into the library or the shell fails and the terminal
    holds fewer lines than there are variables absent or empty, the run does
    not reach the end: it ends in an exception of [getpass], which no cell
    catches.  That is [EOFError], when there is nothing left to read, or the
    exception with which the runtime refused one of the prompts the run had
    to answer: [StdinNotImplementedError] under a kernel that has no front
    end to ask. *)
Theorem end_of_input svc w :
  library_answers svc →
  (length (tty w) < length (prompts_needed (environ w)))%nat →
  ∃ e w', notebook svc w = Raised e w' ∧ (e = EOFError ∨ refused svc (environ w) e).
Proof.
  intros Hs Hn. pose proof (notebook_ends svc Hs w) as H. unfold ends in H.
  destruct (notebook svc w) as [d w'|e w']; [lia|].
  exists e, w'. split; [done|].
  destruct H as [[-> _]|[(_ & H & _)|H]]; [by left|lia|by right].
Qed.

Lemma end_of_input_witness :
  library_answers plain_services ∧
  (length (tty unattended_world) < length (prompts_needed (environ unattended_world)))%nat ∧
  ∃ e w', notebook plain_services unattended_world = Raised e w' ∧
    (e = EOFError ∨ refused plain_services (environ unattended_world) e).
Proof.
  assert (library_answers plain_services) as H1 by (intros c _; reflexivity).
  assert (length (tty unattended_world)
          < length (prompts_needed (environ unattended_world)))%nat
    as H2 by (vm_compute; lia).
  split; [exact H1|]. split; [exact H2|].
  exact (end_of_input plain_services unattended_world H1 H2).
Defined.

(** X4.  The one environment variable the notebook ever writes is
    TOKENIZERS_PARALLELISM.  In every run, complete or not, the environment
    is left as it was or as it was with TOKENIZERS_PARALLELISM set to
    "false", so every other variable keeps its value; a run that reaches the
    end leaves it set.  In particular a credential typed at a prompt is never
    exported. *)
Theorem environment_written svc w :
  (environ (final (notebook svc w)) = environ w
   ∨ environ (final (notebook svc w))
     = <["TOKENIZERS_PARALLELISM" := "false"]> (environ w)) ∧
  (∀ key, key ≠ "TOKENIZERS_PARALLELISM" →
     environ (final (notebook svc w)) !! key = environ w !! key) ∧
  (∀ d w', notebook svc w = Done d w' →
     environ w' = <["TOKENIZERS_PARALLELISM" := "false"]> (environ w)).
Proof.
  destruct (keeps_notebook svc w) as [(He & _) _].
  split; [exact He|]. split.
  - intros key Hk. destruct He as [->| ->]; [done|]. by rewrite lookup_insert_ne.
  - intros d w' H. by apply notebook_final in H as (? & _).
Qed.

Lemma environment_written_witness :
  ∃ d w', notebook plain_services bare_world = Done d w' ∧
    environ w' = <["TOKENIZERS_PARALLELISM" := "false"]> ∅.
Proof.
  assert (∃ d w', notebook plain_services bare_world = Done d w') as (d & w' & H)
    by (eexists _, _; vm_compute; reflexivity).
  exists d, w'. split; [exact H|].
  exact (proj2 (proj2 (environment_written plain_services bare_world)) d w' H).
Defined.

(** X5.  What the notebook does to Redis, in the model of the Redis client
    ([create] registers the index, [load] stores hashes under the prefix,
    [delete] removes the index and the hashes under the prefix).  In every
    run, complete or not, the indices other than [vectorizers] and the hashes
    whose key does not begin with [doc:] are left as they were.  A run that
    reaches the end leaves nothing else: no index [vectorizers] and no hash
    under [doc:], not even one that was there before the run. *)
Theorem redis_footprint svc w :
  other_indices (indices (final (notebook svc w))) = other_indices (indices w) ∧
  other_hashes (hashes (final (notebook svc w))) = other_hashes (hashes w) ∧
  (∀ d w', notebook svc w = Done d w' →
     indices w' = other_indices (indices w) ∧
     hashes w' = other_hashes (hashes w) ∧
     ("vectorizers" ∉ indices w') ∧
     Forall (λ h, String.prefix "doc:" h.1 = false) (hashes w')).
Proof.
  destruct (keeps_notebook svc w) as [(_ & _ & Hi & Hh) _].
  split; [exact Hi|]. split; [exact Hh|].
  intros d w' H. apply notebook_final in H as (_ & -> & ->).
  split; [done|]. split; [done|]. split.
  - intros [Hn _]%list_elem_of_filter. by apply Hn.
  - apply Forall_forall. intros h [Hp _]%list_elem_of_filter.
    by destruct (String.prefix "doc:" h.1).
Qed.

Lemma redis_footprint_witness :
  ∃ d w', notebook plain_services shared_redis = Done d w' ∧
    indices w' = ["products"] ∧
    hashes w' = [("user:1", [("name", Str "Ann")])].
Proof.
  assert (∃ d w', notebook plain_services shared_redis = Done d w') as (d & w' & H)
    by (eexists _, _; vm_compute; reflexivity).
  exists d, w'. split; [exact H|].
  destruct (proj2 (proj2 (redis_footprint plain_services shared_redis)) d w' H)
    as (Hi & Hh & _).
  split; [exact Hi|exact Hh].
Defined.

(** X6.  What the cells display.  In a run that reaches its end, the value
    displayed under cells 5, 13 and 16 is the first ten coordinates of the
    vector the cell's [embed] call returned, and the value displayed under
    cells 6 and 11 is the first ten coordinates of the first vector of the
    batch the cell's [embed_many] or [aembed_many] call returned, that of
    "That is a happy dog".  Each has exactly ten coordinates, except that
    for VertexAI it has as many as the vector when that is shorter. *)
Theorem displayed_slices svc w d w' :
  notebook svc w = Done d w' →
  ∃ c x5 xs6 xs11 x13 x16,
    Forall (λ e, e ∈ new_events w (Done d w'))
      [ returned (Embed (oai c) "This is a test sentence." None) (VVector x5);
        returned (EmbedMany (oai c) three_sentences false) (VVectors xs6);
        returned (AEmbedMany (az_oai (environ w) c) three_sentences) (VVectors xs11);
        returned (Embed hf "This is a test sentence." None) (VVector x13);
        returned (Embed (vtx c) "This is a test sentence." None) (VVector x16) ] ∧
    out_05 d = take 10 x5 ∧
    Some (out_06 d) = take 10 <$> head xs6 ∧
    Some (out_11 d) = take 10 <$> head xs11 ∧
    out_13 d = take 10 x13 ∧
    out_16 d = take 10 x16 ∧
    length (out_05 d) = 10 ∧ length (out_06 d) = 10 ∧ length (out_11 d) = 10 ∧
    length (out_13 d) = 10 ∧ length (out_16 d) = 10 `min` svc_vertex_dims svc.
Proof.
  intros (c & lines & _ & _ & -> & _ & ->)%completed_run.
  exists c. eexists _, _, _, _, _. split.
  { repeat (apply Forall_cons_2; [unfold_events; find_event|]). apply Forall_nil_2. }
  cbn [out_05 out_06 out_11 out_13 out_16 notebook_displayed].
  rewrite !length_take, !embedding_length.
  repeat split.
Qed.

Lemma displayed_slices_witness :
  ∃ d w', notebook plain_services recorded_world = Done d w' ∧
    length (out_05 d) = 10 ∧ length (out_16 d) = 8.
Proof.
  assert (∃ d w', notebook plain_services recorded_world = Done d w') as (d & w' & H)
    by (eexists _, _; vm_compute; reflexivity).
  exists d, w'. split; [exact H|].
  destruct (displayed_slices plain_services recorded_world d w' H)
    as (c & x5 & xs6 & xs11 & x13 & x16 & _ & _ & _ & _ & _ & _ & H5 & _ & _ & _ & H16).
  split; [exact H5|exact H16].
Defined.

(** X7.  A variable that is set to the empty string.  For each of the eight
    variables read with [os.environ.get(key) or getpass.getpass(prompt)] the
    empty string counts as absent: the run asks for the value.  For
    AZURE_OPENAI_DEPLOYMENT_NAME, read with [os.environ.get(key, default)],
    it does not: the Azure OpenAI vectorizer is built with the empty string
    as its model, neither the default nor a typed value. *)
Theorem empty_variable svc w d w' :
  notebook svc w = Done d w' →
  (∀ key prompt, (key, prompt) ∈ prompted → environ w !! key = Some "" →
     falls_back_to_prompt key (calls (new_events w (Done d w'))) = true ∧
     prompt ∈ prompts (calls (new_events w (Done d w')))) ∧
  (environ w !! "AZURE_OPENAI_DEPLOYMENT_NAME" = Some "" →
     falls_back_to_prompt "AZURE_OPENAI_DEPLOYMENT_NAME"
       (calls (new_events w (Done d w'))) = false ∧
     ∃ v, v ∈ instantiated (calls (new_events w (Done d w'))) ∧
          class v = AzureOpenAITextVectorizer ∧ model v = Some "").
Proof.
  intros (c & lines & _ & _ & _ & _ & ->)%completed_run.
  rewrite prompts_notebook, deployment_name_notebook, instantiated_notebook.
  pose proof (falls_back_notebook svc (environ w) (hashes w) c) as Hf.
  split.
  - intros key prompt Hk He. split.
    + pose proof (fmap_eq_elem _ _ _ _ Hf Hk) as E. cbn [fst] in E.
      rewrite E, He. done.
    + apply list_elem_of_omap. exists (key, prompt). split; [done|].
      unfold prompt_if_missing. cbn [fst snd]. by rewrite He.
  - intros He. split; [done|]. exists (az_oai (environ w) c). split.
    + apply list_elem_of_further, list_elem_of_here.
    + split; [done|]. cbn. unfold deployment_name. by rewrite He.
Qed.

Lemma empty_variable_witness :
  environ empty_world !! "AZURE_OPENAI_DEPLOYMENT_NAME" = Some "" ∧
  ∃ d w', notebook plain_services empty_world = Done d w' ∧
    ∃ v, v ∈ instantiated (calls (new_events empty_world (Done d w'))) ∧
         class v = AzureOpenAITextVectorizer ∧ model v = Some "".
Proof.
  assert (∃ d w', notebook plain_services empty_world = Done d w') as (d & w' & H)
    by (eexists _, _; vm_compute; reflexivity).
  assert (environ empty_world !! "AZURE_OPENAI_DEPLOYMENT_NAME" = Some "") as He
    by (vm_compute; reflexivity).
  split; [exact He|]. exists d, w'. split; [exact H|].
  exact (proj2 (proj2 (empty_variable plain_services empty_world d w' H) He)).
Defined.

(** X8.  Cell 25 pairs sentences and embeddings by position and stops at
    the shorter of the two lists: it hands [index.load] as many records as
    the shorter list has elements, the [i]-th holding the [i]-th sentence
    under [text] and the [i]-th buffer under [embedding], and nothing
    signals a sentence or an embedding left over.  The cell fails only if
    [index.load] does. *)
Theorem cell_25_pairs svc i sentences embeddings w :
  svc_raises svc (Load (records sentences embeddings)) = None →
  ∃ ks w',
    cell_25 svc i sentences embeddings w = Done (records sentences embeddings, ks) w' ∧
    new_events w (Done (records sentences embeddings, ks) w')
    = [returned (Load (records sentences embeddings)) (VStrs ks)] ∧
    length (records sentences embeddings) = length sentences `min` length embeddings ∧
    length ks = length (records sentences embeddings) ∧
    ∀ k r, records sentences embeddings !! k = Some r →
      ∃ t v, sentences !! k = Some t ∧ embeddings !! k = Some v ∧
             r = [("text", Str t); ("embedding", Buf v)].
Proof.
  intros Hs. unfold cell_25. fold (records sentences embeddings).
  eexists _, _. split; [|split; [|split; [|split]]].
  - unfold mbind, script_bind, SearchIndex_load, invoke.
    rewrite Hs, records_storable. reflexivity.
  - unfold new_events. cbn [final trace record_event set_hashes].
    by rewrite drop_app_length.
  - unfold records. by rewrite length_fmap, length_zip.
  - by rewrite length_fmap, length_seq.
  - intros k r Hr. unfold records in Hr.
    apply list_lookup_fmap_Some in Hr as ([t v] & -> & Hr).
    apply lookup_zip_with_Some in Hr as (t' & v' & [= -> ->] & Ht & Hv). eauto.
Qed.

Lemma cell_25_pairs_witness :
  svc_raises recorded_services
    (Load (records ["one"; "two"; "three"] [Bytes []; Bytes []])) = None ∧
  ∃ ks w',
    cell_25 recorded_services the_index ["one"; "two"; "three"] [Bytes []; Bytes []]
      recorded_world
    = Done (records ["one"; "two"; "three"] [Bytes []; Bytes []], ks) w' ∧
    length ks = 2.
Proof.
  assert (svc_raises recorded_services
            (Load (records ["one"; "two"; "three"] [Bytes []; Bytes []])) = None) as H
    by reflexivity.
  split; [exact H|].
  destruct (cell_25_pairs recorded_services the_index ["one"; "two"; "three"]
              [Bytes []; Bytes []] recorded_world H)
    as (ks & w' & Hr & _ & _ & Hk & _).
  exists ks, w'. split; [exact Hr|exact Hk].
Defined.

(** X9.  The notebook can be run again.  From the world that a run which
    reached the end has left, a second run reaches the end too, provided no
    call into the library fails, no prompt is refused and the terminal still
    holds a line for each variable that is absent or empty; and it leaves
    the environment and Redis exactly as the first run left them. *)
Theorem notebook_again svc w d w' :
  notebook svc w = Done d w' →
  no_failure svc →
  (length (prompts_needed (environ w)) ≤ length (tty w'))%nat →
  ∃ d2 w2, notebook svc w' = Done d2 w2 ∧
    environ w2 = environ w' ∧ indices w2 = indices w' ∧ hashes w2 = hashes w'.
Proof.
  intros H Hs Hn. apply notebook_final in H as (He & Hi & Hh).
  pose proof (notebook_ends svc (λ c _, Hs c) w') as H2. unfold ends in H2.
  rewrite He, prompts_needed_insert, Hh, other_hashes_have_text in H2.
  destruct (notebook svc w') as [d2 w2|e w2] eqn:R.
  - exists d2, w2. split; [done|].
    apply notebook_final in R as (-> & -> & ->).
    rewrite He, Hi, Hh. split; [by rewrite insert_insert_eq|].
    split; apply filter_idemp.
  - destruct H2 as [[_ H2]|[(_ & _ & H2)|(p & _ & H2)]]; [lia|discriminate|].
    by rewrite Hs in H2.
Qed.

Lemma notebook_again_witness :
  no_failure plain_services ∧
  ∃ d w', notebook plain_services recorded_world = Done d w' ∧
    (length (prompts_needed (environ recorded_world)) ≤ length (tty w'))%nat ∧
    ∃ d2 w2, notebook plain_services w' = Done d2 w2 ∧
      environ w2 = environ w' ∧ indices w2 = indices w' ∧ hashes w2 = hashes w'.
Proof.
  assert (∃ d w', notebook plain_services recorded_world = Done d w') as (d & w' & H)
    by (eexists _, _; vm_compute; reflexivity).
  assert (no_failure plain_services) as H1 by (intros c; reflexivity).
  assert (length (prompts_needed (environ recorded_world)) ≤ length (tty w'))%nat as H2
    by (vm_compute; lia).
  split; [exact H1|]. exists d, w'. split; [exact H|]. split; [exact H2|].
  exact (notebook_again plain_services recorded_world d w' H H1 H2).
Defined.

(** X10.  The standard output of a run that reaches its end, in full: the
    dimensions line of cell 5, the count of cell 7, the dimensions line of
    cell 10, for each of the two Cohere calls of cell 20 its dimensions line
    and the first ten coordinates of the vector it returned, written as a
    Python list, then what the shell command of cell 24 printed, then one
    line for each document the query returned, at most three.  The
    HuggingFace and VertexAI cells print nothing. *)
Theorem printed_lines svc w d w' :
  notebook svc w = Done d w' →
  ∃ c q sd docs lines,
    Forall (λ e, e ∈ new_events w (Done d w'))
      [ returned (Embed (co c) "This is a test sentence." (Some "search_query")) (VVector q);
        returned (Embed (co c) "This is a test sentence." (Some "search_document"))
          (VVector sd);
        returned (Query (the_query svc)) (VDocs docs) ] ∧
    new_lines w (Done d w')
    = [ "Vector dimensions:  1536";
        "Number of Embeddings: 3";
        "Vector dimensions:  1536";
        "Vector dimensions:  1024";
        "[" +:+ String.concat ", " (float_repr <$> take 10 q) +:+ "]";
        "Vector dimensions:  1024";
        "[" +:+ String.concat ", " (float_repr <$> take 10 sd) +:+ "]" ]
      ++ svc_shell svc "rvl index listall" ++ lines ∧
    mapM result_line docs = Some lines ∧
    length lines = length docs ∧ (length docs ≤ 3)%nat.
Proof.
  intros (c & lines & _ & Hl & _ & -> & ->)%completed_run.
  exists c. eexists _, _, _, lines. split.
  { repeat (apply Forall_cons_2; [unfold_events; find_event|]). apply Forall_nil_2. }
  split; [reflexivity|]. split; [exact Hl|]. split.
  - symmetry. by apply length_mapM in Hl.
  - unfold query_results. rewrite length_fmap, length_take. lia.
Qed.

Lemma printed_lines_witness :
  ∃ d w', notebook plain_services recorded_world = Done d w' ∧
    ∃ docs lines,
      Ev (Query (the_query plain_services)) (Returns (VDocs docs))
        ∈ new_events recorded_world (Done d w') ∧
      mapM result_line docs = Some lines ∧
      length lines = length docs ∧ (length docs ≤ 3)%nat.
Proof.
  assert (∃ d w', notebook plain_services recorded_world = Done d w') as (d & w' & H)
    by (eexists _, _; vm_compute; reflexivity).
  exists d, w'. split; [exact H|].
  destruct (printed_lines plain_services recorded_world d w' H)
    as (c & q & sd & docs & lines & He & _ & Hm & Hl & Hd).
  exists docs, lines. split; [|split; [exact Hm|split; [exact Hl|exact Hd]]].
  exact (Forall_inv (Forall_inv_tail (Forall_inv_tail He))).
Defined.

(** X11.  How a run can fail when no call into the library or the shell
    does.  It ends in [EOFError], the exception of [getpass] when there is
    nothing left to read, and then the terminal held fewer lines than there
    are variables absent or empty; or it ends in [KeyError('text')], the
    exception of [doc["text"]] in cell 26, and then Redis already held, in
    the index, a hash without a text under [text]; or it ends in the
    exception with which the runtime refused one of the prompts the run had
    to answer, which is [StdinNotImplementedError] when the notebook is run
    by a kernel that has no front end to ask.  Nothing else fails:
    [embeddings[0]] is never out of range and [doc["vector_distance"]] is
    never missing. *)
Theorem notebook_exceptions svc w e w' :
  library_answers svc →
  notebook svc w = Raised e w' →
  (e = EOFError ∧ (length (tty w) < length (prompts_needed (environ w)))%nat)
  ∨ (e = KeyError "text"
     ∧ (length (prompts_needed (environ w)) ≤ length (tty w))%nat
     ∧ forallb has_text (hashes w) = false)
  ∨ refused svc (environ w) e.
Proof.
  intros Hs H. pose proof (notebook_ends svc Hs w) as He. unfold ends in He.
  by rewrite H in He.
Qed.

Lemma notebook_exceptions_witness :
  (library_answers no_front_end ∧
   ∃ w', notebook no_front_end bare_world = Raised StdinNotImplementedError w' ∧
     refused no_front_end (environ bare_world) StdinNotImplementedError) ∧
  (library_answers plain_services ∧
   ∃ w', notebook plain_services stale_redis = Raised (KeyError "text") w' ∧
     forallb has_text (hashes stale_redis) = false).
Proof.
  assert (library_answers no_front_end) as H1
    by (intros c Hc; destruct c; first [reflexivity | discriminate Hc]).
  assert (∃ w', notebook no_front_end bare_world = Raised StdinNotImplementedError w')
    as (w1 & R1) by (eexists; vm_compute; reflexivity).
  assert (library_answers plain_services) as H2 by (intros c _; reflexivity).
  assert (∃ w', notebook plain_services stale_redis = Raised (KeyError "text") w')
    as (w2 & R2) by (eexists; vm_compute; reflexivity).
  split.
  - split; [exact H1|]. exists w1. split; [exact R1|].
    destruct (notebook_exceptions no_front_end bare_world StdinNotImplementedError
                w1 H1 R1) as [[He _]|[[He _]|Hr]].
    + discriminate He.
    + discriminate He.
    + exact Hr.
  - split; [exact H2|]. exists w2. split; [exact R2|].
    destruct (notebook_exceptions plain_services stale_redis (KeyError "text")
                w2 H2 R2) as [[He _]|[(_ & _ & Ht)|(p & _ & Hr)]].
    + discriminate He.
    + exact Ht.
    + discriminate Hr.
Defined.

(** X12.  What is searched matches what is stored.  In a run that reaches
    its end, the [k]-th record handed to [index.load] holds the [k]-th of the
    three sentences under [text] and, under [embedding], the buffer of the
    HuggingFace embedding of that very sentence; the query vector is the
    embedding, by the same vectorizer, of "That is a happy cat"; the field
    the query searches, [embedding], is the key the buffers are stored under
    and the name of the vector field of the schema, and the query vector has
    as many coordinates as each stored vector and as the schema declares. *)
Theorem query_matches_records svc w d w' :
  notebook svc w = Done d w' →
  ∃ data q,
    filter is_load (calls (new_events w (Done d w'))) = [Load data] ∧
    filter is_query (calls (new_events w (Done d w'))) = [Query q] ∧
    length data = 3 ∧
    (∀ k r, data !! k = Some r →
       ∃ t, three_sentences !! k = Some t ∧
            r = [("text", Str t); ("embedding", Buf (Bytes (embedding svc hf t None)))]) ∧
    vector q = embedding svc hf "That is a happy cat" None ∧
    Forall (λ r, ∃ b, dict_get r (vector_field_name q) = Some (Buf b) ∧
                      length (buffer_floats b) = length (vector q)) data ∧
    ∃ f, f ∈ fields schema_yaml ∧ name f = vector_field_name q ∧ type f = "vector" ∧
         dims <$> attrs f = Some (length (vector q)).
Proof.
  intros (c & lines & _ & _ & _ & _ & ->)%completed_run.
  rewrite load_calls_notebook, query_calls_notebook.
  exists (loaded_data svc), (the_query svc).
  split; [done|]. split; [done|]. split; [done|]. split; [|split; [done|split]].
  - intros [|[|[|k]]] r [= <-]; by eexists.
  - repeat (apply Forall_cons_2;
            [eexists; split; [reflexivity|]; cbn; by rewrite !embedding_length|]).
    apply Forall_nil_2.
  - eexists. split; [apply list_elem_of_further, list_elem_of_here|].
    split; [done|]. split; [done|]. cbn. by rewrite embedding_length.
Qed.

Lemma query_matches_records_witness :
  ∃ d w', notebook plain_services recorded_world = Done d w' ∧
    ∃ data q,
      filter is_load (calls (new_events recorded_world (Done d w'))) = [Load data] ∧
      filter is_query (calls (new_events recorded_world (Done d w'))) = [Query q] ∧
      length data = 3.
Proof.
  assert (∃ d w', notebook plain_services recorded_world = Done d w') as (d & w' & H)
    by (eexists _, _; vm_compute; reflexivity).
  exists d, w'. split; [exact H|].
  destruct (query_matches_records plain_services recorded_world d w' H)
    as (data & q & Hl & Hq & Hn & _).
  exists data, q. split; [exact Hl|]. split; [exact Hq|exact Hn].
Defined.

(** X13.  The calls a run makes into the library do not depend on where the
    credentials come from.  A run that reaches its end makes the same
    twenty-three calls, in the same order, whether a value was found in the
    environment or typed: five vectorizers built, eleven embedding calls
    (three on the OpenAI vectorizer, two on the Azure OpenAI one, three on
    the HuggingFace one, one on the VertexAI one, two on the Cohere one),
    and the seven calls of the index section with the shell command. *)
Theorem library_calls_fixed svc w d w' :
  notebook svc w = Done d w' →
  ∃ c, from_environ (environ w) c ∧
    library_calls (calls (new_events w (Done d w')))
    = [ Init (oai c);
        Embed (oai c) "This is a test sentence." None;
        EmbedMany (oai c) three_sentences false;
        AEmbedMany (oai c) three_sentences;
        Init (az_oai (environ w) c);
        Embed (az_oai (environ w) c) "This is a test sentence." None;
        AEmbedMany (az_oai (environ w) c) three_sentences;
        Init hf;
        Embed hf "This is a test sentence." None;
        EmbedMany hf three_sentences true;
        Init (vtx c);
        Embed (vtx c) "This is a test sentence." None;
        Init (co c);
        Embed (co c) "This is a test sentence." (Some "search_query");
        Embed (co c) "This is a test sentence." (Some "search_document");
        FromYaml "./schema.yaml";
        Connect "redis://localhost:6379";
        Create true;
        Shell "rvl index listall";
        Load (loaded_data svc);
        Embed hf "That is a happy cat" None;
        Query (the_query svc);
        Delete ] ∧
    (λ p, length (filter (embeds_with p) (calls (new_events w (Done d w')))))
      <$> vectorizer_classes = [3; 2; 3; 1; 2].
Proof.
  intros (c & lines & Hc & _ & _ & _ & ->)%completed_run.
  exists c. split; [exact Hc|]. split; [apply library_calls_notebook|].
  assert (∀ p, filter (embeds_with p) (calls (notebook_events svc (environ w) (hashes w) c))
               = filter (embeds_with p) (notebook_library_calls svc (environ w) c)) as E.
  { intros p. rewrite <- library_calls_notebook with (before := hashes w).
    apply filter_library_calls. by intros []. }
  unfold vectorizer_classes. cbn [fmap list_fmap]. rewrite !E. reflexivity.
Qed.

Lemma library_calls_fixed_witness :
  ∃ d w', notebook plain_services bare_world = Done d w' ∧
    (λ p, length (filter (embeds_with p) (calls (new_events bare_world (Done d w')))))
      <$> vectorizer_classes = [3; 2; 3; 1; 2].
Proof.
  assert (∃ d w', notebook plain_services bare_world = Done d w') as (d & w' & H)
    by (eexists _, _; vm_compute; reflexivity).
  exists d, w'. split; [exact H|].
  destruct (library_calls_fixed plain_services bare_world d w' H) as (c & _ & _ & Hn).
  exact Hn.
Defined.

(** ** What a run that fails leaves in Redis *)

#[local] Instance building_preorder : PreOrder building.
Proof.
  split.
  - intros w. exists []. rewrite app_nil_r. repeat split; try done.
    + by intros ?%elem_of_nil.
    + intros data ks ?%elem_of_nil. done.
  - intros w1 w2 w3 (t1 & T1 & D1 & Q1 & I1 & C1 & H1 & L1)
      (t2 & T2 & D2 & Q2 & I2 & C2 & H2 & L2).
    exists (t1 ++ t2). split; [by rewrite T2, T1, app_assoc|].
    split; [by apply Forall_app|]. split; [|split; [|split; [|split]]].
    + intros [F1 F2]%Forall_app. destruct (Q1 F1) as [<- <-]. by apply Q2.
    + auto.
    + intros [H|H]%elem_of_app; auto.
    + by trans (hashes w2).
    + intros data ks [H|H]%elem_of_app; [|by eapply L2].
      trans (hashes w2); [by eapply L1|done].
Qed.

(** A step that leaves Redis alone. *)
Lemma building_quiet w w' t :
  trace w' = trace w ++ t → indices w' = indices w → hashes w' = hashes w →
  Forall (λ e, writes e = false) t →
  building w w'.
Proof.
  intros T I H F. exists t. split; [done|].
  rewrite Forall_forall in F. repeat split.
  - apply Forall_forall. intros e He%F ->. discriminate.
  - done.
  - done.
  - by rewrite I.
  - intros He%F. discriminate.
  - by rewrite H.
  - intros data ks He%F. discriminate.
Qed.

Lemma keeps_building_quiet {A} (m : script A) (Q : A → Prop) :
  (∀ w, ∃ t, trace (final (m w)) = trace w ++ t ∧
             indices (final (m w)) = indices w ∧ hashes (final (m w)) = hashes w ∧
             Forall (λ e, writes e = false) t) →
  (∀ w a w', m w = Done a w' → Q a) →
  keeps building Q m.
Proof.
  intros H HQ w. split; [|apply HQ].
  destruct (H w) as (t & T & I & Hh & F). by apply (building_quiet _ _ t).
Qed.

Section Lifecycle.

Variable svc : services.

Ltac quiet :=
  apply keeps_building_quiet; [|done]; intros w; cbn;
  repeat case_match; eexists;
  (split; [first [reflexivity | symmetry; apply app_nil_r]|]);
  repeat split; repeat constructor.

Lemma building_environ_get key : keeps building (λ _, True) (os_environ_get key).
Proof. quiet. Qed.

Lemma building_environ_get_default key d :
  keeps building (λ _, True) (os_environ_get_default key d).
Proof. quiet. Qed.

Lemma building_environ_setitem key v :
  keeps building (λ _, True) (os_environ_setitem key v).
Proof. quiet. Qed.

Lemma building_getpass prompt : keeps building (λ _, True) (getpass_getpass svc prompt).
Proof. unfold getpass_getpass. quiet. Qed.

Lemma building_or_else a b :
  keeps building (λ _, True) a → keeps building (λ _, True) b →
  keeps building (λ _, True) (or_else a b).
Proof.
  intros Ha Hb. unfold or_else. eapply (keeps_bind building); [exact Ha|].
  intros v _. destruct (truthy v); [by apply (keeps_ret building)|exact Hb].
Qed.

Lemma building_print args : keeps building (λ _, True) (print args).
Proof. quiet. Qed.

Lemma building_getitem {V} (d : pydict V) key : keeps building (λ _, True) (getitem d key).
Proof. unfold getitem. quiet. Qed.

Lemma building_item {A} (l : list A) i : keeps building (λ _, True) (item l i).
Proof. unfold item. quiet. Qed.

(** A call into the library that leaves Redis alone. *)
Lemma building_invoke {A} c show (body : world → exn + A * world) (Q : A → Prop) :
  (∀ r, writes (Ev c r) = false) →
  (∀ w a w0, body w = inr (a, w0) →
     trace w0 = trace w ∧ indices w0 = indices w ∧ hashes w0 = hashes w ∧ Q a) →
  keeps building Q (invoke svc c show body).
Proof.
  intros Hc Hb. apply keeps_building_quiet.
  - intros w. unfold invoke. destruct (svc_raises svc c) as [e|].
    { exists [Ev c (Raises e)]. repeat split. by repeat constructor. }
    destruct (body w) as [e|[a w0]] eqn:E.
    { exists [Ev c (Raises e)]. repeat split. by repeat constructor. }
    destruct (Hb _ _ _ E) as (E1 & E2 & E3 & _).
    exists [Ev c (Returns (show a))]. cbn [final trace indices hashes record_event].
    rewrite E1, E2, E3. repeat split. by repeat constructor.
  - intros w a w'. unfold invoke. destruct (svc_raises svc c); [done|].
    destruct (body w) as [e|[a0 w0]] eqn:E; [done|].
    intros [= <- _]. by destruct (Hb _ _ _ E) as (_ & _ & _ & HQ).
Qed.

Ltac building_library :=
  apply building_invoke; [done|]; intros ? ? ?;
  repeat case_match; intros [=]; by subst.

Lemma building_new c m a : keeps building (λ _, True) (new svc c m a).
Proof. building_library. Qed.

Lemma building_embed v text it : keeps building (λ _, True) (embed svc v text it).
Proof. building_library. Qed.

Lemma building_embed_many v texts b :
  keeps building (λ _, True) (embed_many svc v texts b).
Proof. building_library. Qed.

Lemma building_aembed_many v texts :
  keeps building (λ _, True) (aembed_many svc v texts).
Proof. building_library. Qed.

Lemma building_from_yaml :
  keeps building (λ i, i = the_index) (SearchIndex_from_yaml svc "./schema.yaml").
Proof. building_library. Qed.

Lemma building_connect i url : keeps building (λ _, True) (SearchIndex_connect svc i url).
Proof. building_library. Qed.

Lemma building_shell cmd : keeps building (λ _, True) (shell svc cmd).
Proof. building_library. Qed.

Lemma building_query i q : keeps building (λ _, True) (SearchIndex_query svc i q).
Proof. building_library. Qed.

Lemma building_create :
  keeps building (λ _, True) (SearchIndex_create svc the_index true).
Proof.
  intros w. split; [|done]. unfold SearchIndex_create, invoke.
  destruct (svc_raises svc (Create true)) as [e|].
  { apply (building_quiet _ _ [Ev (Create true) (Raises e)]); try done.
    by repeat constructor. }
  exists [Ev (Create true) (Returns VNone)]. split; [done|].
  cbn [final indices hashes set_indices record_event].
  split; [apply Forall_singleton; discriminate|]. split.
  { intros F. by inversion F. }
  repeat split; try done; try (intros; apply list_elem_of_here).
  intros data ks [=]%list_elem_of_singleton.
Qed.

Lemma building_load data :
  keeps building (λ _, True) (SearchIndex_load svc the_index data).
Proof.
  intros w. split; [|done]. unfold SearchIndex_load, invoke.
  destruct (svc_raises svc (Load data)) as [e|].
  { apply (building_quiet _ _ [Ev (Load data) (Raises e)]); try done.
    by repeat constructor. }
  match goal with |- context [forallb ?f data] => destruct (forallb f data) end.
  2: { apply (building_quiet _ _ [Ev (Load data) (Raises DataError)]); try done.
       by repeat constructor. }
  eexists [Ev (Load data) (Returns (VStrs _))]. split; [done|].
  cbn [final indices hashes set_hashes record_event].
  split; [apply Forall_singleton; discriminate|]. split.
  { intros F. by inversion F. }
  split; [done|]. split; [by intros [=]%list_elem_of_singleton|]. split.
  - intros h Hh. apply elem_of_app. by left.
  - intros d ks [= <- <-]%list_elem_of_singleton h Hh. apply elem_of_app. by right.
Qed.

Lemma building_cell_23 : keeps building (λ i, i = the_index) (cell_23 svc).
Proof.
  unfold cell_23. eapply (keeps_bind building); [apply building_from_yaml|].
  intros i ->. eapply (keeps_bind building); [apply building_connect|]. intros _ _.
  eapply (keeps_bind building); [apply building_create|]. intros _ _.
  by apply (keeps_ret building).
Qed.

Create HintDb building.
Hint Resolve building_environ_get building_environ_get_default building_environ_setitem
  building_getpass building_or_else building_print building_getitem building_item
  building_new building_embed building_aembed_many building_connect building_shell
  building_query building_cell_23 building_load : building.

Ltac building_go :=
  lazymatch goal with
  | |- keeps _ _ (_ ≫= _) =>
      eapply (keeps_bind building);
      [building_go | intros ? ?; cbn beta in *; simplify_eq; building_go]
  | |- keeps _ _ (let '(_, _) := ?p in _) => destruct p; building_go
  | |- keeps _ _ (mret _) => apply (keeps_ret building (λ _, True)); exact I
  | |- keeps _ _ (for_each _ _) => apply (keeps_for_each building); intros ?; building_go
  | |- keeps _ _ (embed_many ?s ?v ?t ?b) => exact (building_embed_many v t b)
  | |- keeps _ _ _ => solve [auto with building]
  end.

(** *** Runs that do not reach the end *)

Lemma unfinished_bind {A B} (Q : A → Prop) (m : script A) (f : A → script B) :
  keeps building Q m → (∀ a, Q a → unfinished (f a)) → unfinished (m ≫= f).
Proof.
  intros Hm Hf w. destruct (Hm w) as [H1 H2].
  unfold mbind, script_bind. destruct (m w) as [a w1|e w1]; [|by right].
  destruct (Hf a (H2 _ _ eq_refl) w1) as [H|H]; [by left|].
  right. by trans w1.
Qed.

Lemma unfinished_fmap {A B} (m : script A) (g : A → B) :
  unfinished m → unfinished (m ≫= λ a, mret (g a)).
Proof.
  intros Hm w. unfold mbind, script_bind.
  destruct (Hm w) as [(a & w' & ->)|H]; [left; by eauto|].
  destruct (m w) as [a w1|e w1]; [left; by eauto|by right].
Qed.

Lemma unfinished_delete i : unfinished (SearchIndex_delete svc i).
Proof.
  intros w. unfold SearchIndex_delete, invoke.
  destruct (svc_raises svc Delete) as [e|].
  { right. apply (building_quiet _ _ [Ev Delete (Raises e)]); try done.
    by repeat constructor. }
  case_decide; [left; by eauto|].
  right. apply (building_quiet _ _ [Ev Delete (Raises (ServiceError "no such index"))]);
    try done.
  by repeat constructor.
Qed.

Lemma unfinished_index_section :
  unfinished (index_section svc hf three_sentences (loaded_embeddings svc)).
Proof.
  unfold index_section, cell_24, cell_25, cell_26, cell_27.
  eapply unfinished_bind; [building_go|]. intros i ->.
  eapply unfinished_bind; [building_go|]. intros _ _.
  eapply unfinished_bind; [building_go|]. intros [data o25] _.
  eapply unfinished_bind; [building_go|]. intros [q results] _.
  apply (unfinished_fmap _ (λ _, o25)), unfinished_delete.
Qed.

Lemma keeps_value {A} (I : relation world) (Q Q' : A → Prop) (m : script A) :
  keeps I Q m → (∀ w a w', m w = Done a w' → Q' a) → keeps I Q' m.
Proof. intros H HQ w. destruct (H w). split; [done|]. apply HQ. Qed.

(** A run of the notebook that does not reach the end has only built. *)
Lemma unfinished_notebook : unfinished (notebook svc).
Proof.
  unfold notebook.
  eapply unfinished_bind; [unfold cell_01; building_go|]. intros _ _.
  eapply unfinished_bind.
  { unfold openai_section, cell_04, cell_05, cell_06, cell_07. building_go. }
  intros [o5 o6] _.
  eapply unfinished_bind.
  { apply (keeps_value building (λ _, True) (λ o, o.1 = three_sentences)).
    - unfold azure_section, cell_09, cell_10, cell_11. building_go.
    - intros w o w' H. by apply azure_section_done in H as (? & ? & ? & _ & _ & _ & -> & _). }
  intros [sentences o11] Hs. cbn [fst] in Hs. subst sentences.
  eapply unfinished_bind.
  { apply (keeps_value building (λ _, True) (λ o, o.1 = (hf, loaded_embeddings svc))).
    - unfold huggingface_section, cell_13, cell_14. building_go.
    - intros w o w' H. by apply huggingface_section_done in H as (-> & _). }
  intros [[v embeddings] o13] Hs. cbn [fst] in Hs. injection Hs as -> ->.
  eapply unfinished_bind.
  { unfold vertexai_section, cell_16. building_go. }
  intros o16 _.
  eapply unfinished_bind.
  { unfold cohere_section, cell_18, cell_20. building_go. }
  intros _ _.
  apply (unfinished_fmap _ (λ o25, {| out_05 := o5; out_06 := o6; out_11 := o11;
                                      out_13 := o13; out_16 := o16; out_25 := o25 |})).
  apply unfinished_index_section.
Qed.

End Lifecycle.

(** X14.  A run that fails does no cleanup.  In a run of the notebook that
    ends in an exception, whatever raised it, [index.delete()] has not
    returned; if none of [index.create], [index.load] and [index.delete] had
    returned, Redis is exactly as it was; if [index.create] had returned, the
    index [vectorizers] is still there; the hashes that [index.load] had
    stored, under the keys it returned, are still there, and so is every hash
    that was there before the run. *)
Theorem failed_run_leaves svc w e w' :
  notebook svc w = Raised e w' →
  (Ev Delete (Returns VNone) ∉ new_events w (notebook svc w)) ∧
  (Forall (λ ev, writes ev = false) (new_events w (notebook svc w)) →
     indices w' = indices w ∧ hashes w' = hashes w) ∧
  (Ev (Create true) (Returns VNone) ∈ new_events w (notebook svc w) →
     "vectorizers" ∈ indices w') ∧
  (∀ data ks, Ev (Load data) (Returns (VStrs ks)) ∈ new_events w (notebook svc w) →
     zip ks data ⊆ hashes w') ∧
  hashes w ⊆ hashes w'.
Proof.
  intros H. destruct (unfinished_notebook svc w) as [(d & w2 & H2)|Hb]; [congruence|].
  unfold new_events. rewrite H in *. cbn [final] in *.
  destruct Hb as (t & T & D & Q & _ & C & Hh & L).
  rewrite T, drop_app_length.
  split; [|done].
  rewrite Forall_forall in D. intros Hd. by apply D in Hd.
Qed.

Lemma failed_run_leaves_witness :
  ∃ e w',
    notebook query_fails recorded_world = Raised e w' ∧
    "vectorizers" ∈ indices w' ∧
    (∃ data ks, length data = 3 ∧ zip ks data ⊆ hashes w').
Proof.
  assert (∃ e w', notebook query_fails recorded_world = Raised e w') as (e & w' & H)
    by (eexists _, _; vm_compute; reflexivity).
  assert (Ev (Create true) (Returns VNone)
            ∈ new_events recorded_world (notebook query_fails recorded_world)) as Hc
    by (apply (list_elem_of_lookup_2 _ 27); vm_compute; reflexivity).
  assert (∃ data ks, length data = 3 ∧
            Ev (Load data) (Returns (VStrs ks))
              ∈ new_events recorded_world (notebook query_fails recorded_world))
    as (data & ks & Hn & Hl).
  { eexists _, _. split; [|apply (list_elem_of_lookup_2 _ 29); vm_compute; reflexivity].
    reflexivity. }
  destruct (failed_run_leaves query_fails recorded_world e w' H) as (_ & _ & C & L & _).
  exists e, w'. split; [exact H|]. split; [exact (C Hc)|].
  exists data, ks. split; [exact Hn|exact (L data ks Hl)].
Defined.
